(** * Telegram shop bot ([bot.py]): cart store, checkout wizard, order commit

    A shallow embedding of the cart handlers, the checkout conversation and
    the order commit of [bot.py], and the properties of its specification
    that were checked against it.

    Modelling conventions:
    - a Python [str] is the list of its Unicode code points ([str]);
      literals of the source are written with [utf8];
    - a Python [int] is [Z].  SQLite's INTEGER is 64 bits wide; the
      quantities, prices and identifiers of the bot stay far below that, and
      the width is not modelled;
    - a table with a primary key is a finite map from the key to the other
      columns; a table without one is the list of its rows in insertion order;
    - an [async def] handler is a function from the state it reads and writes
      (database, the user's FSM context) to the state after it, the replies
      it sent and the exception it left with, if any.  One handler runs at a
      time: interleavings of handlers are not modelled. *)

From Stdlib Require Import ZArith Lia.
From stdpp Require Import gmap strings list fin_maps sorting.

Open Scope Z_scope.

(** ** Python text *)

Abbreviation str := (list N).

(** Decoding of a source literal (UTF-8 bytes) into code points. *)
Fixpoint utf8_decode (bs : list N) : str :=
  match bs with
  | [] => []
  | b0 :: r0 =>
    if (b0 <? 128)%N then b0 :: utf8_decode r0
    else if (b0 <? 224)%N then
      match r0 with
      | b1 :: r1 => ((b0 - 192) * 64 + (b1 - 128))%N :: utf8_decode r1
      | _ => []
      end
    else if (b0 <? 240)%N then
      match r0 with
      | b1 :: b2 :: r2 =>
        ((b0 - 224) * 4096 + (b1 - 128) * 64 + (b2 - 128))%N :: utf8_decode r2
      | _ => []
      end
    else
      match r0 with
      | b1 :: b2 :: b3 :: r3 =>
        ((b0 - 240) * 262144 + (b1 - 128) * 4096 + (b2 - 128) * 64 + (b3 - 128))%N
          :: utf8_decode r3
      | _ => []
      end
  end.

Definition utf8 (s : string) : str :=
  utf8_decode (Ascii.N_of_ascii <$> String.list_ascii_of_string s).

(** [s.startswith(p)] *)
Fixpoint startswith (s p : str) {struct p} : bool :=
  match p, s with
  | [], _ => true
  | c :: p', d :: s' => bool_decide (c = d) && startswith s' p'
  | _ :: _, [] => false
  end.

(** [s.split(sep)] for a one-character separator: never empty, one more
    field than there are separators. *)
Fixpoint split (sep : N) (s : str) : list str :=
  match s with
  | [] => [[]]
  | c :: s' =>
    if bool_decide (c = sep) then [] :: split sep s'
    else match split sep s' with
         | f :: fs => (c :: f) :: fs
         | [] => [[c]]
         end
  end.

Definition colon : N := 58%N.

(** [str.isspace] of one character: the code points Python strips. *)
Definition py_isspace (c : N) : bool :=
  ((9 <=? c) && (c <=? 13) || (28 <=? c) && (c <=? 32)
   || (c =? 133) || (c =? 160) || (c =? 5760)
   || (8192 <=? c) && (c <=? 8202) || (c =? 8232) || (c =? 8233)
   || (c =? 8239) || (c =? 8287) || (c =? 12288))%N.

Fixpoint lstrip (s : str) : str :=
  match s with
  | c :: s' => if py_isspace c then lstrip s' else s
  | [] => []
  end.

(** [s.strip()] *)
Definition strip (s : str) : str := reverse (lstrip (reverse (lstrip s))).

(** [sum(...)] over integers *)
Definition py_sum (l : list Z) : Z := foldl Z.add 0 l.

(** ** Persistent store (the schema of [db_init]) *)

Record Product := {
  title : str;
  price : Z;
  description : str;
  photo_file_id : str;
  (** the column holds [json.dumps] of the list; the model keeps the list *)
  variants_json : list str;
  active : Z;
  created_at : str
}.

(** primary key of [cart]: (user_id, product_id, variant) *)
Abbreviation CartKey := (Z * Z * str)%type.

Record Order := {
  o_id : Z;
  o_user_id : Z;
  o_username : str;
  o_full_name : str;
  o_phone : str;
  o_city : str;
  o_np_type : str;
  o_np_point : str;
  o_payment : str;
  o_comment : str;
  o_total : Z;
  o_created_at : str
}.

Record OrderItem := {
  oi_order_id : Z;
  oi_product_id : Z;
  oi_title : str;
  oi_variant : str;
  oi_price : Z;
  oi_qty : Z
}.

Record DB := {
  products : gmap Z Product;            (* id ↦ row *)
  cart : gmap CartKey Z;                (* key ↦ qty *)
  orders : list Order;
  orders_seq : Z;                       (* AUTOINCREMENT: largest id handed out *)
  order_items : list OrderItem
}.

Definition set_cart (db : DB) (c : gmap CartKey Z) : DB :=
  {| products := products db; cart := c; orders := orders db;
     orders_seq := orders_seq db; order_items := order_items db |}.

Definition set_products (db : DB) (p : gmap Z Product) : DB :=
  {| products := p; cart := cart db; orders := orders db;
     orders_seq := orders_seq db; order_items := order_items db |}.

(** *** Connections

    Every helper of the source opens a connection of its own with
    [aiosqlite.connect(DB_PATH)].  SQLite keeps [PRAGMA foreign_keys] per
    connection and starts every connection with it off; [db_init] turns it
    on for the connection it opens and closes. *)
Record Connection := { foreign_keys : bool }.

Definition connect : Connection := {| foreign_keys := false |}.

Definition pragma_foreign_keys_on (conn : Connection) : Connection :=
  {| foreign_keys := true |}.

Inductive exn :=
| AttributeError                 (* [m.text] is [None] *)
| KeyError (k : string)          (* [data[k]] on a missing key *)
| IntegrityError                 (* foreign key constraint failed *)
| IndexError                     (* a list index out of range *)
| OperationalError.              (* the storage engine failed *)

(** *** Statements *)

Definition cart_user (kv : CartKey * Z) : Z := kv.1.1.1.
Definition cart_product (kv : CartKey * Z) : Z := kv.1.1.2.

(** [INSERT INTO cart ... VALUES(?,?,?,1) ON CONFLICT(...) DO UPDATE SET qty=qty+1] *)
Definition sql_cart_upsert (conn : Connection) (k : CartKey) (db : DB) : DB + exn :=
  if foreign_keys conn && bool_decide (products db !! k.1.2 = None)
  then inr IntegrityError
  else inl (set_cart db match cart db !! k with
                        | Some q => <[k := q + 1]> (cart db)
                        | None => <[k := 1]> (cart db)
                        end).

(** [UPDATE cart SET qty=qty+1 WHERE user_id=? AND product_id=? AND variant=?] *)
Definition sql_cart_qty_plus (k : CartKey) (db : DB) : DB :=
  set_cart db (alter (λ q, q + 1) k (cart db)).

(** [UPDATE cart SET qty=qty-1 WHERE ...] *)
Definition sql_cart_qty_minus (k : CartKey) (db : DB) : DB :=
  set_cart db (alter (λ q, q - 1) k (cart db)).

(** [DELETE FROM cart WHERE user_id=? AND product_id=? AND variant=?] *)
Definition sql_cart_delete (k : CartKey) (db : DB) : DB :=
  set_cart db (delete k (cart db)).

(** [DELETE FROM cart WHERE user_id=?] *)
Definition sql_cart_delete_user (user_id : Z) (db : DB) : DB :=
  set_cart db (filter (λ kv, cart_user kv ≠ user_id) (cart db)).

(** [DELETE FROM products WHERE id=?]; the [ON DELETE CASCADE] of [cart]
    acts only on a connection that enforces foreign keys. *)
Definition sql_delete_product (conn : Connection) (pid : Z) (db : DB) : DB :=
  let db' := set_products db (delete pid (products db)) in
  if foreign_keys conn
  then set_cart db' (filter (λ kv, cart_product kv ≠ pid) (cart db))
  else db'.

Definition with_active (a : Z) (p : Product) : Product :=
  {| title := title p; price := price p; description := description p;
     photo_file_id := photo_file_id p; variants_json := variants_json p;
     active := a; created_at := created_at p |}.

(** [UPDATE products SET active=? WHERE id=?] *)
Definition sql_set_active (a pid : Z) (db : DB) : DB :=
  set_products db (alter (with_active a) pid (products db)).

(** [db_execute(query, args)]: a fresh connection, one statement, commit. *)
Definition db_execute {A} (stmt : Connection → A) : A := stmt connect.

(** ** Cart queries *)

(** a row of [cart_items]: product_id, title, price, qty, variant *)
Record ItemRow := {
  i_pid : Z;
  i_title : str;
  i_price : Z;
  i_qty : Z;
  i_variant : str
}.

(** [FROM cart c JOIN products p ON p.id=c.product_id
     WHERE c.user_id=? AND p.active=1], one cart row at a time *)
Definition join_row (db : DB) (user_id : Z) (kv : CartKey * Z) : option ItemRow :=
  let '((u, pid, variant), qty) := kv in
  if decide (u = user_id) then
    match products db !! pid with
    | Some p =>
      if decide (active p = 1)
      then Some {| i_pid := pid; i_title := title p; i_price := price p;
                   i_qty := qty; i_variant := variant |}
      else None
    | None => None
    end
  else None.

Definition cart_join (db : DB) (user_id : Z) : list ItemRow :=
  omap (join_row db user_id) (map_to_list (cart db)).

(** [ORDER BY p.id DESC] *)
Definition id_desc (r1 r2 : ItemRow) : Prop := i_pid r2 ≤ i_pid r1.

Global Instance id_desc_dec r1 r2 : Decision (id_desc r1 r2) :=
  Z_le_dec (i_pid r2) (i_pid r1).

(** [cart_items(user_id)].  SQL leaves the order of rows with the same
    product id open; the model takes the stable order of the sort. *)
Definition cart_items (db : DB) (user_id : Z) : list ItemRow :=
  merge_sort id_desc (cart_join db user_id).

(** [cart_total(user_id)] *)
Definition cart_total (db : DB) (user_id : Z) : Z :=
  py_sum ((λ r, i_qty r * i_price r) <$> cart_join db user_id).

(** ** Events and effects *)

Record User := {
  user_id : Z;                   (* [from_user.id] *)
  username : option str          (* [from_user.username], [None] when unset *)
}.

Record CallbackQuery := {
  c_from_user : User;
  c_chat_id : Z;                 (* [c.message.chat.id] *)
  c_data : str
}.

Record Message := {
  m_from_user : User;
  m_text : option str            (* [None] for a message without text *)
}.

(** The text of the operator notice ([admin_text]), as the values it is
    formatted from. *)
Record Notice := {
  n_order_id : Z;
  n_items : list ItemRow;
  n_total : Z;
  n_full_name : str;
  n_phone : str;
  n_city : str;
  n_np_type_text : str;
  n_np_point : str;
  n_payment : str;
  n_comment : str;
  n_username : str
}.

(** What a handler shows in the chat, as the values it is rendered from. *)
Inductive Screen :=
| CartIsEmpty                                        (* "Кошик порожній." *)
| CartView (items : list ItemRow) (total : Z)
| ChooseVariant (pid : Z) (variants : list str)
| AskFullName
| AskPhone
| BadPhone                                           (* "Схоже на неправильний номер" *)
| AskCity
| AskNpType
| AskBranch
| AskLocker
| AskPayment
| AskComment
| Preview (items : list ItemRow) (total : Z) (fields : list str)
| Cancelled
| OrderPlaced (order_id : Z)
| AdminProducts.

Inductive LogLine :=
| SentToAdmin (admin_id : Z)
| FailedToSendToAdmin (admin_id : Z)
| FallbackSent (chat_id : Z)
| FallbackFailed.

Inductive Effect :=
| answer (text : str) (show_alert : bool)            (* [c.answer(text, show_alert=...)] *)
| message_answer (s : Screen)                        (* [m.answer], [c.message.answer], [safe_edit_text] *)
| send_message (chat_id : Z) (text : Notice) (delivered : bool)
| print (l : LogLine).

(** Outcome of a handler on the state [S] it touches. *)
Record Res (S : Type) := mkRes {
  post : S;
  out : list Effect;
  err : option exn
}.
Arguments mkRes {S} _ _ _.
Arguments post {S} _.
Arguments out {S} _.
Arguments err {S} _.

Definition ret {S} (s : S) (o : list Effect) : Res S := mkRes s o None.
Definition raise {S} (s : S) (o : list Effect) (e : exn) : Res S := mkRes s o (Some e).

(** [c.answer()] *)
Definition answer_empty : Effect := answer [] false.

(** ** Cart handlers

    The handlers take the fields of the callback data already split:
    [pid] is [int(...)] of the product field, [variant] the rest. *)

(** [cart_view] *)
Definition cart_view (c : CallbackQuery) (db : DB) : list Effect :=
  let items := cart_items db (user_id (c_from_user c)) in
  match items with
  | [] => [message_answer CartIsEmpty; answer_empty]
  | _ :: _ =>
    let total := cart_total db (user_id (c_from_user c)) in
    [message_answer (CartView items total); answer_empty]
  end.

(** [cart_clear] *)
Definition cart_clear (c : CallbackQuery) (db : DB) : Res DB :=
  let db' := db_execute (λ _, sql_cart_delete_user (user_id (c_from_user c)) db) in
  ret db' (answer (utf8 "Кошик очищено ✅") false :: cart_view c db').

(** [SELECT variants_json FROM products WHERE id=? AND active=1] *)
Definition active_product (db : DB) (pid : Z) : option Product :=
  match products db !! pid with
  | Some p => if decide (active p = 1) then Some p else None
  | None => None
  end.

(** [cart_add] *)
Definition cart_add (pid : Z) (c : CallbackQuery) (db : DB) : Res DB :=
  match active_product db pid with
  | None => ret db [answer (utf8 "Товар не знайдено") true]
  | Some prod =>
    match variants_json prod with
    | (_ :: _) as variants =>
      ret db [message_answer (ChooseVariant pid variants); answer_empty]
    | [] =>
      match db_execute (λ conn, sql_cart_upsert conn (user_id (c_from_user c), pid, []) db) with
      | inl db' => ret db' [answer (utf8 "Додано в кошик ✅") false]
      | inr e => raise db [] e
      end
    end
  end.

(** [cart_add_variant] *)
Definition cart_add_variant (pid : Z) (variant : str) (c : CallbackQuery) (db : DB) : Res DB :=
  match db_execute (λ conn, sql_cart_upsert conn (user_id (c_from_user c), pid, variant) db) with
  | inl db' => ret db' (answer (utf8 "Додано (" ++ variant ++ utf8 ") ✅") false :: cart_view c db')
  | inr e => raise db [] e
  end.

(** [cart_inc] *)
Definition cart_inc (pid : Z) (variant : str) (c : CallbackQuery) (db : DB) : Res DB :=
  let db' := db_execute (λ _, sql_cart_qty_plus (user_id (c_from_user c), pid, variant) db) in
  ret db' (answer_empty :: cart_view c db').

(** [cart_dec] *)
Definition cart_dec (pid : Z) (variant : str) (c : CallbackQuery) (db : DB) : Res DB :=
  let k := (user_id (c_from_user c), pid, variant) in
  match cart db !! k with
  | None => ret db [answer_empty]
  | Some qty =>
    let db' := if decide (qty ≤ 1)
               then db_execute (λ _, sql_cart_delete k db)
               else db_execute (λ _, sql_cart_qty_minus k db) in
    ret db' (answer_empty :: cart_view c db')
  end.

(** [cart_del] *)
Definition cart_del (pid : Z) (variant : str) (c : CallbackQuery) (db : DB) : Res DB :=
  let db' := db_execute (λ _, sql_cart_delete (user_id (c_from_user c), pid, variant) db) in
  ret db' (answer (utf8 "Видалено 🗑") false :: cart_view c db').

(** ** Admin handlers *)

Section Admin.
(** The constants imported from [config] are parameters; [lower] stands
    for [str.lower]. *)
Variable ADMIN_IDS : list (option Z).
Variable ADMIN_USERNAME : str.
Variable lower : str → str.

(** [is_admin_user] *)
Definition is_admin_user (uid : Z) (uname : option str) : bool :=
  if bool_decide (Some uid ∈ ADMIN_IDS) then true
  else match uname with
       | Some ((_ :: _) as u) => bool_decide (lower u = lower ADMIN_USERNAME)
       | _ => false
       end.

Definition no_access {S} (s : S) : Res S :=
  ret s [answer (utf8 "Нема доступу") true].

(** [admin_toggle] *)
Definition admin_toggle (pid : Z) (c : CallbackQuery) (db : DB) : Res DB :=
  if is_admin_user (user_id (c_from_user c)) (username (c_from_user c)) then
    match products db !! pid with
    | None => ret db [answer (utf8 "Не знайдено") true]
    | Some row =>
      let new_active := if decide (active row = 1) then 0 else 1 in
      let db' := db_execute (λ _, sql_set_active new_active pid db) in
      ret db' [answer (utf8 "Оновлено ✅") false; message_answer AdminProducts; answer_empty]
    end
  else no_access db.

(** [admin_del] *)
Definition admin_del (pid : Z) (c : CallbackQuery) (db : DB) : Res DB :=
  if is_admin_user (user_id (c_from_user c)) (username (c_from_user c)) then
    let db' := db_execute (λ conn, sql_delete_product conn pid db) in
    ret db' [answer (utf8 "Видалено 🗑") false; message_answer AdminProducts; answer_empty]
  else no_access db.
End Admin.

(** ** Checkout conversation *)

(** The states of the two [StatesGroup]s. *)
Inductive State :=
| AddProduct_photo | AddProduct_title | AddProduct_price
| AddProduct_description | AddProduct_variants
| Checkout_full_name | Checkout_phone | Checkout_city | Checkout_np_type
| Checkout_np_point | Checkout_payment | Checkout_comment | Checkout_confirm.

Global Instance State_eq_dec : EqDecision State.
Proof. solve_decision. Defined.

(** The [FSMContext] of one user: current state and collected data. *)
Record FSMContext := {
  state : option State;
  data : gmap string str
}.

(** [state.clear()] *)
Definition clear (_ : FSMContext) : FSMContext := {| state := None; data := ∅ |}.

(** [state.set_state(s)] *)
Definition set_state (s : State) (fsm : FSMContext) : FSMContext :=
  {| state := Some s; data := data fsm |}.

(** [state.update_data(k=v)] *)
Definition update_data (k : string) (v : str) (fsm : FSMContext) : FSMContext :=
  {| state := state fsm; data := <[k := v]> (data fsm) |}.

(** The successor of a state in the order [class Checkout] declares them,
    which is the order the handlers move through. *)
Definition next_state (s : State) : option State :=
  match s with
  | Checkout_full_name => Some Checkout_phone
  | Checkout_phone => Some Checkout_city
  | Checkout_city => Some Checkout_np_type
  | Checkout_np_type => Some Checkout_np_point
  | Checkout_np_point => Some Checkout_payment
  | Checkout_payment => Some Checkout_comment
  | Checkout_comment => Some Checkout_confirm
  | _ => None
  end.

(** [checkout_start] *)
Definition checkout_start (c : CallbackQuery) (db : DB) (fsm : FSMContext) : Res FSMContext :=
  match cart_items db (user_id (c_from_user c)) with
  | [] => ret fsm [answer (utf8 "Кошик порожній") true]
  | _ :: _ =>
    ret (set_state Checkout_full_name (clear fsm)) [message_answer AskFullName; answer_empty]
  end.

(** A text step: [m.text.strip()] stored under [key], then the next state. *)
Definition text_step (key : string) (next : State) (prompt : Screen)
    (m : Message) (fsm : FSMContext) : Res FSMContext :=
  match m_text m with
  | None => raise fsm [] AttributeError
  | Some t => ret (set_state next (update_data key (strip t) fsm)) [message_answer prompt]
  end.

(** [co_full_name], registered for [Checkout.full_name] *)
Definition co_full_name := text_step "full_name" Checkout_phone AskPhone.

Section Phone.
(** [\d] of [re] on a [str] pattern: the Unicode decimal digits.  The table
    belongs to the Python runtime and is a parameter. *)
Variable isdigit : N → bool.

Definition plus_sign : N := 43%N.

(** [re.sub(r"[^\d+]", "", s)] *)
Definition keep_digits_plus (s : str) : str :=
  filter (λ ch, isdigit ch = true ∨ ch = plus_sign) s.

(** [re.sub(r"\D", "", s)] *)
Definition keep_digits (s : str) : str :=
  filter (λ ch, isdigit ch = true) s.

(** [co_phone], registered for [Checkout.phone] *)
Definition co_phone (m : Message) (fsm : FSMContext) : Res FSMContext :=
  match m_text m with
  | None => raise fsm [] AttributeError
  | Some t =>
    let phone := keep_digits_plus (strip t) in
    if decide (length (keep_digits phone) < 9)%nat
    then ret fsm [message_answer BadPhone]
    else ret (set_state Checkout_city (update_data "phone" phone fsm))
             [message_answer AskCity]
  end.
End Phone.

(** [co_city], registered for [Checkout.city] *)
Definition co_city := text_step "city" Checkout_np_type AskNpType.

Inductive Handled (S : Type) :=
| Skipped                        (* the filters of the handler did not pass *)
| Ran (r : Res S).
Arguments Skipped {S}.
Arguments Ran {S} _.

(** The filters [Checkout.np_type, F.data.startswith("np:type:")] *)
Definition co_np_type_filter (c : CallbackQuery) (fsm : FSMContext) : bool :=
  bool_decide (state fsm = Some Checkout_np_type) && startswith (c_data c) (utf8 "np:type:").

(** [co_np_type] *)
Definition co_np_type (c : CallbackQuery) (fsm : FSMContext) : Res FSMContext :=
  match split colon (c_data c) !! 2%nat with
  | None => raise fsm [] IndexError
  | Some np_type =>
    let fsm' := set_state Checkout_np_point (update_data "np_type" np_type fsm) in
    if decide (np_type = utf8 "branch")
    then ret fsm' [message_answer AskBranch; answer_empty]
    else ret fsm' [message_answer AskLocker; answer_empty]
  end.

(** [co_np_point], registered for [Checkout.np_point] *)
Definition co_np_point := text_step "np_point" Checkout_payment AskPayment.

(** The filters [Checkout.payment, F.data.startswith("pay:")] *)
Definition co_payment_filter (c : CallbackQuery) (fsm : FSMContext) : bool :=
  bool_decide (state fsm = Some Checkout_payment) && startswith (c_data c) (utf8 "pay:").

Definition cash_on_delivery : str := utf8 "Накладений платіж".
Definition prepayment : str := utf8 "Передоплата".

(** [co_payment] *)
Definition co_payment (c : CallbackQuery) (fsm : FSMContext) : Res FSMContext :=
  match split colon (c_data c) !! 1%nat with
  | None => raise fsm [] IndexError
  | Some p =>
    let payment := if decide (p = utf8 "cod") then cash_on_delivery else prepayment in
    ret (set_state Checkout_comment (update_data "payment" payment fsm))
        [message_answer AskComment; answer_empty]
  end.

(** A handler behind its filters. *)
Definition guarded {S E} (filter : E → S → bool) (h : E → S → Res S) (e : E) (s : S) : Handled S :=
  if filter e s then Ran (h e s) else Skipped.

(** [data[k]] *)
Definition getitem (d : gmap string str) (k : string) : str + exn :=
  match d !! k with
  | Some v => inl v
  | None => inr (KeyError k)
  end.

(** The seven fields read by the preview and by the commit, in the order
    the source evaluates them. *)
Record Fields := {
  f_np_type : str;
  f_full_name : str;
  f_phone : str;
  f_city : str;
  f_np_point : str;
  f_payment : str;
  f_comment : str
}.

Definition read_fields (d : gmap string str) : Fields + exn :=
  match getitem d "np_type" with inr e => inr e | inl np =>
  match getitem d "full_name" with inr e => inr e | inl fn =>
  match getitem d "phone" with inr e => inr e | inl ph =>
  match getitem d "city" with inr e => inr e | inl ci =>
  match getitem d "np_point" with inr e => inr e | inl pt =>
  match getitem d "payment" with inr e => inr e | inl pa =>
  match getitem d "comment" with inr e => inr e | inl co =>
    inl {| f_np_type := np; f_full_name := fn; f_phone := ph; f_city := ci;
           f_np_point := pt; f_payment := pa; f_comment := co |}
  end end end end end end end.

(** ["Відділення" if data["np_type"] == "branch" else "Поштомат"] *)
Definition np_type_text (np_type : str) : str :=
  if decide (np_type = utf8 "branch") then utf8 "Відділення" else utf8 "Поштомат".

(** [co_comment], registered for [Checkout.comment] *)
Definition co_comment (m : Message) (db : DB) (fsm : FSMContext) : Res FSMContext :=
  match m_text m with
  | None => raise fsm [] AttributeError
  | Some t =>
    let fsm1 := update_data "comment" (strip t) fsm in
    let items := cart_items db (user_id (m_from_user m)) in
    let total := cart_total db (user_id (m_from_user m)) in
    match read_fields (data fsm1) with
    | inr e => raise fsm1 [] e
    | inl f =>
      ret (set_state Checkout_confirm fsm1)
          [message_answer (Preview items total
             [f_full_name f; f_phone f; f_city f; np_type_text (f_np_type f);
              f_np_point f; f_payment f; f_comment f])]
    end
  end.

(** The filters [Checkout.confirm, F.data == "checkout:cancel"] *)
Definition checkout_cancel_filter (c : CallbackQuery) (fsm : FSMContext) : bool :=
  bool_decide (state fsm = Some Checkout_confirm) && bool_decide (c_data c = utf8 "checkout:cancel").

(** [checkout_cancel] *)
Definition checkout_cancel (c : CallbackQuery) (fsm : FSMContext) : Res FSMContext :=
  ret (clear fsm) [message_answer Cancelled; answer_empty].

(** ** Order commit and operator notice *)

(** [INSERT INTO orders(...) VALUES(...)]: the row gets the next id of the
    AUTOINCREMENT sequence, which is [cur.lastrowid] afterwards. *)
Definition sql_insert_order (row : Z → Order) (db : DB) : DB :=
  let id := orders_seq db + 1 in
  {| products := products db; cart := cart db; orders := orders db ++ [row id];
     orders_seq := id; order_items := order_items db |}.

Definition lastrowid (db : DB) : Z := orders_seq db.

(** [INSERT INTO order_items(...) VALUES(...)] *)
Definition sql_insert_order_item (row : OrderItem) (db : DB) : DB :=
  {| products := products db; cart := cart db; orders := orders db;
     orders_seq := orders_seq db; order_items := order_items db ++ [row] |}.

(** [(order_id, pid, title, variant or "", price, qty)] *)
Definition order_item_of (order_id : Z) (r : ItemRow) : OrderItem :=
  {| oi_order_id := order_id; oi_product_id := i_pid r; oi_title := i_title r;
     oi_variant := match i_variant r with [] => [] | (_ :: _) as v => v end;
     oi_price := i_price r; oi_qty := i_qty r |}.

(** [c.from_user.username or ""] *)
Definition username_or_empty (u : User) : str :=
  match username u with
  | Some n => n
  | None => []
  end.

Definition order_of (u : User) (f : Fields) (total : Z) (created : str) (id : Z) : Order :=
  {| o_id := id; o_user_id := user_id u; o_username := username_or_empty u;
     o_full_name := f_full_name f; o_phone := f_phone f; o_city := f_city f;
     o_np_type := np_type_text (f_np_type f); o_np_point := f_np_point f;
     o_payment := f_payment f; o_comment := f_comment f;
     o_total := total; o_created_at := created |}.

(** [admin_text], the notice for the operator *)
Definition admin_text (u : User) (f : Fields) (items : list ItemRow) (total order_id : Z) : Notice :=
  {| n_order_id := order_id; n_items := items; n_total := total;
     n_full_name := f_full_name f; n_phone := f_phone f; n_city := f_city f;
     n_np_type_text := np_type_text (f_np_type f);
     n_np_point := f_np_point f; n_payment := f_payment f;
     n_comment := f_comment f; n_username := username_or_empty u |}.

(** The working copy after a list of statements. *)
Definition run (stmts : list (DB → DB)) (work : DB) : DB := foldl (λ d s, s d) work stmts.

Section Commit.
(** [ADMIN_IDS] of [config.py] *)
Variable ADMIN_IDS : list (option Z).
(** whether the [n]-th call of [bot.send_message], counted from 0 and
    addressed to [chat_id], goes through; otherwise it raises *)
Variable send_ok : nat → Z → bool.
(** whether the [n]-th call on the connection of the commit block,
    counted from 0, raises *)
Variable fails : nat → bool.
(** [datetime.now().strftime("%Y-%m-%d %H:%M:%S")] *)
Variable now : str.

(** Statements run one after the other on the working copy of the
    connection, starting with call number [n]. *)
Fixpoint execute_all (n : nat) (stmts : list (DB → DB)) (work : DB) : option DB :=
  match stmts with
  | [] => Some work
  | s :: rest => if fails n then None else execute_all (S n) rest (s work)
  end.

(** The [async with aiosqlite.connect(DB_PATH) as db] block.  The first
    statement opens a transaction on the connection; [db.commit()]
    publishes the working copy; an exception leaves the block, the
    connection is closed and what was not committed is rolled back. *)
Definition commit_block (u : User) (f : Fields) (items : list ItemRow) (total : Z)
    (db : DB) : (DB * Z) + exn :=
  if fails 0%nat then inr OperationalError else
  let work := sql_insert_order (order_of u f total now) db in
  let order_id := lastrowid work in
  let stmts := (sql_insert_order_item ∘ order_item_of order_id <$> items)
               ++ [sql_cart_delete_user (user_id u)] in
  match execute_all 1 stmts work with
  | None => inr OperationalError
  | Some work' =>
    if fails (S (length stmts)) then inr OperationalError else inl (work', order_id)
  end.

(** The loop over [ADMIN_IDS], the first call of [send_message] being
    number [n]: the flag [sent], the number of calls made, and what
    happened. *)
Fixpoint notify_admins (n : nat) (text : Notice) (ids : list (option Z))
    : bool * nat * list Effect :=
  match ids with
  | [] => (false, n, [])
  | None :: rest => notify_admins n text rest
  | Some admin_id :: rest =>
    if decide (admin_id ≠ 0) then
      if send_ok n admin_id
      then (true, S n, [send_message admin_id text true; print (SentToAdmin admin_id)])
      else let '(sent, n', tr) := notify_admins (S n) text rest in
           (sent, n', send_message admin_id text false
                        :: print (FailedToSendToAdmin admin_id) :: tr)
    else notify_admins n text rest
  end.

(** The loop and the fallback to the chat the order came from. *)
Definition notify (chat_id : Z) (text : Notice) : list Effect :=
  let '(sent, n, tr) := notify_admins 0 text ADMIN_IDS in
  if sent then tr
  else if send_ok n chat_id
       then tr ++ [send_message chat_id text true; print (FallbackSent chat_id)]
       else tr ++ [send_message chat_id text false; print FallbackFailed].

(** The filters [Checkout.confirm, F.data == "checkout:confirm"] *)
Definition checkout_confirm_filter (c : CallbackQuery) (s : DB * FSMContext) : bool :=
  bool_decide (state s.2 = Some Checkout_confirm)
  && bool_decide (c_data c = utf8 "checkout:confirm").

(** [checkout_confirm] *)
Definition checkout_confirm (c : CallbackQuery) (s : DB * FSMContext) : Res (DB * FSMContext) :=
  let '(db, fsm) := s in
  let u := c_from_user c in
  let items := cart_items db (user_id u) in
  let total := cart_total db (user_id u) in
  match items with
  | [] => ret s [answer (utf8 "Кошик порожній") true]
  | _ :: _ =>
    match read_fields (data fsm) with
    | inr e => raise s [] e
    | inl f =>
      match commit_block u f items total db with
      | inr e => raise s [] e
      | inl (db', order_id) =>
        ret (db', clear fsm)
            (notify (c_chat_id c) (admin_text u f items total order_id)
             ++ [message_answer (OrderPlaced order_id); answer (utf8 "Готово ✅") false])
      end
    end
  end.
End Commit.

(** ** Vocabulary of the properties *)

(** The amount of one listed row: [qty * price]. *)
Definition amount (r : ItemRow) : Z := i_qty r * i_price r.

(** Presses of the [+] and [-] buttons of one cart line. *)
Inductive Press := Plus | Minus.

Definition press (pid : Z) (variant : str) (c : CallbackQuery) (db : DB) (p : Press) : DB :=
  match p with
  | Plus => post (cart_inc pid variant c db)
  | Minus => post (cart_dec pid variant c db)
  end.

(** The database after a sequence of presses, first press first. *)
Definition presses (pid : Z) (variant : str) (c : CallbackQuery) (db : DB) (ps : list Press) : DB :=
  foldl (press pid variant c) db ps.

(** Increments minus decrements. *)
Fixpoint net (ps : list Press) : Z :=
  match ps with
  | [] => 0
  | Plus :: ps' => 1 + net ps'
  | Minus :: ps' => net ps' - 1
  end.

(** No quantity of the cart is zero or negative. *)
Definition positive_quantities (db : DB) : Prop :=
  ∀ k q, cart db !! k = Some q → 1 ≤ q.

(** The quantity the store holds for a cart line; a line without row
    counts as 0. *)
Definition stored_quantity (db : DB) (k : CartKey) : Z := default 0 (cart db !! k).

(** The count of the specification: an increment adds 1, a decrement takes
    1 away, and the count does not go below 0, where the row is deleted. *)
Definition floored_step (q : Z) (p : Press) : Z :=
  match p with
  | Plus => q + 1
  | Minus => Z.max 0 (q - 1)
  end.

Definition floored_count (q0 : Z) (ps : list Press) : Z := foldl floored_step q0 ps.

(** The property as the specification words it: after every sequence of
    presses on a line the stored quantity is the floored count. *)
Definition quantity_is_floored_count (pid : Z) (variant : str) (c : CallbackQuery) (db : DB) : Prop :=
  ∀ ps, stored_quantity (presses pid variant c db ps) (user_id (c_from_user c), pid, variant)
        = floored_count (stored_quantity db (user_id (c_from_user c), pid, variant)) ps.


(** ** Sample data *)

Module Sample.
Definition product (t : string) (p : Z) (vs : list str) (a : Z) : Product :=
  {| title := utf8 t; price := p; description := utf8 "-"; photo_file_id := utf8 "f";
     variants_json := vs; active := a; created_at := utf8 "2024-01-01 00:00:00" |}.

Definition store (ps : gmap Z Product) (c : gmap CartKey Z) : DB :=
  {| products := ps; cart := c; orders := []; orders_seq := 0; order_items := [] |}.

Definition buyer : User := {| user_id := 7; username := None |}.

Definition click (d : string) : CallbackQuery :=
  {| c_from_user := buyer; c_chat_id := 7; c_data := utf8 d |}.

Definition text (t : string) : Message :=
  {| m_from_user := buyer; m_text := Some (utf8 t) |}.

(** product 1 "A" at 100, product 2 "B" at 250 with variant "M" *)
Definition catalog : gmap Z Product :=
  <[1 := product "A" 100 [] 1]> (<[2 := product "B" 250 [utf8 "M"] 1]> ∅).

(** the cart of the scenario: 2 × A and 1 × B (M) *)
Definition two_lines : gmap CartKey Z :=
  <[(7, 1, []) := 2]> (<[(7, 2, utf8 "M") := 1]> ∅).

Definition shop : DB := store catalog two_lines.
End Sample.


(** The five cart writes. *)
Inductive CartWrite :=
| Add
| AddVariant (variant : str)
| Increment (variant : str)
| Decrement (variant : str)
| Remove (variant : str).

(** The cart line a write is about. *)
Definition line_of (w : CartWrite) (pid : Z) (c : CallbackQuery) : CartKey :=
  (user_id (c_from_user c), pid,
   match w with
   | Add => []
   | AddVariant v | Increment v | Decrement v | Remove v => v
   end).

(** The handler of a write. *)
Definition handle (w : CartWrite) (pid : Z) (c : CallbackQuery) (db : DB) : Res DB :=
  match w with
  | Add => cart_add pid c db
  | AddVariant v => cart_add_variant pid v c db
  | Increment v => cart_inc pid v c db
  | Decrement v => cart_dec pid v c db
  | Remove v => cart_del pid v c db
  end.




(** The operator identities the loop tries: not [None], not 0. *)
Definition usable (ids : list (option Z)) : list Z :=
  omap (λ i, match i with
             | Some a => if decide (a ≠ 0) then Some a else None
             | None => None
             end) ids.

(** The trace of attempts on [ids] that all failed. *)
Definition failed (text : Notice) (ids : list Z) : list Effect :=
  ids ≫= λ a, [send_message a text false; print (FailedToSendToAdmin a)].

(** What the user sees of a trace: answers to the button and messages of
    the handler in the chat. *)
Definition to_user (e : Effect) : bool :=
  match e with
  | answer _ _ | message_answer _ => true
  | _ => false
  end.

Definition shown (tr : list Effect) : list Effect := filter to_user tr.

(** The order of attempts required of a trace [tr] of the dispatcher. *)
Definition first_reachable (ids : list (option Z)) (send_ok : nat → Z → bool)
    (chat_id : Z) (text : Notice) (tr : list Effect) : Prop :=
  (∃ pre a rest,
      usable ids = pre ++ a :: rest
      ∧ (∀ i x, pre !! i = Some x → send_ok i x = false)
      ∧ send_ok (length pre) a = true
      ∧ tr = failed text pre ++ [send_message a text true; print (SentToAdmin a)])
  ∨ ((∀ i x, usable ids !! i = Some x → send_ok i x = false)
     ∧ ∃ ok, ok = send_ok (length (usable ids)) chat_id
        ∧ tr = failed text (usable ids)
               ++ [send_message chat_id text ok;
                   print (if ok then FallbackSent chat_id else FallbackFailed)]).


(** The database after a commit that went through: one order with the
    total of the live cart, one item per listed row, no cart row of the
    user. *)
Definition committed (u : User) (f : Fields) (now : str) (db : DB) : DB :=
  let id := orders_seq db + 1 in
  {| products := products db;
     cart := filter (λ kv, cart_user kv ≠ user_id u) (cart db);
     orders := orders db ++ [order_of u f (cart_total db (user_id u)) now id];
     orders_seq := id;
     order_items := order_items db ++ (order_item_of id <$> cart_items db (user_id u)) |}.

(** The trace of a confirm that went through. *)
Definition confirmed_trace (ids : list (option Z)) (send_ok : nat → Z → bool)
    (c : CallbackQuery) (f : Fields) (db : DB) : list Effect :=
  let u := c_from_user c in
  let id := orders_seq db + 1 in
  notify ids send_ok (c_chat_id c)
    (admin_text u f (cart_items db (user_id u)) (cart_total db (user_id u)) id)
  ++ [message_answer (OrderPlaced id); answer (utf8 "Готово ✅") false].

(** "Only the rows of the snapshot are cleared": a cart row of the user
    that is not listed at commit time is still there afterwards. *)
Definition clears_snapshot_only (u : User) (db db' : DB) : Prop :=
  ∀ pid variant q,
    cart db !! (user_id u, pid, variant) = Some q →
    (∀ r, r ∈ cart_items db (user_id u) → ¬ (i_pid r = pid ∧ i_variant r = variant)) →
    cart db' !! (user_id u, pid, variant) = Some q.

(** The scenario with product 2 switched off. *)
Definition Sample_shop_b_off : DB :=
  Sample.store (<[1 := Sample.product "A" 100 [] 1]>
                  (<[2 := Sample.product "B" 250 [utf8 "M"] 0]> ∅))
               Sample.two_lines.

(** A session that has gone through the seven steps. *)
Definition Sample_filled : FSMContext :=
  {| state := Some Checkout_confirm;
     data := list_to_map
       [("full_name", utf8 "Taras Shevchenko"); ("phone", utf8 "+380981234567");
        ("city", utf8 "Kyiv"); ("np_type", utf8 "branch"); ("np_point", utf8 "12");
        ("payment", cash_on_delivery); ("comment", utf8 "-")] |}.


(** The filter of a handler registered for one state, as in
    [@router.message(Checkout.phone)]. *)
Definition in_state (s : State) {E} (_ : E) (fsm : FSMContext) : bool :=
  bool_decide (state fsm = Some s).

(** The digits 0 to 9 of ASCII. *)
Definition ascii_digit (ch : N) : bool := ((48 <=? ch) && (ch <=? 57))%N.

(** The callback data of the two delivery buttons and of the two payment
    buttons. *)
Definition delivery_buttons : list str := [utf8 "np:type:branch"; utf8 "np:type:locker"].
Definition payment_buttons : list str := [utf8 "pay:cod"; utf8 "pay:prepay"].

(** "Only the closed enum is accepted, any other input is ignored", for
    the two choice steps. *)
Definition delivery_choice_closed (c : CallbackQuery) (fsm : FSMContext) : Prop :=
  c_data c ∉ delivery_buttons → guarded co_np_type_filter co_np_type c fsm = Skipped.

Definition payment_choice_closed (c : CallbackQuery) (fsm : FSMContext) : Prop :=
  c_data c ∉ payment_buttons → guarded co_payment_filter co_payment c fsm = Skipped.

(** A session waiting in state [s] with nothing collected. *)
Definition Sample_waiting (s : State) : FSMContext := {| state := Some s; data := ∅ |}.

(** ** Tactics *)

(** A literal without colon. *)
Ltac no_colon :=
  vm_compute; let H := fresh in
  intros H; repeat (apply elem_of_cons in H as [H|H]; [discriminate H|]);
  by apply elem_of_nil in H.


(** ** Vocabulary of the further properties *)

(** What a cart entry adds to the total of [user_id]: [qty * price] when it
    is an entry of that user and its product is active, nothing otherwise. *)
Definition line_amount (db : DB) (user_id : Z) (kv : CartKey * Z) : Z :=
  match join_row db user_id kv with
  | Some r => amount r
  | None => 0
  end.


(** What the order tables must satisfy: order ids are unique and were
    handed out by the sequence, every item belongs to an order of the
    table, and the total of every order is the sum of [qty * price] over
    its items. *)
Definition orders_consistent (db : DB) : Prop :=
  NoDup (o_id <$> orders db)
  ∧ (∀ o, o ∈ orders db → o_id o ≤ orders_seq db)
  ∧ (∀ it, it ∈ order_items db → ∃ o, o ∈ orders db ∧ o_id o = oi_order_id it)
  ∧ (∀ o, o ∈ orders db →
       o_total o = py_sum ((λ it, oi_qty it * oi_price it)
                             <$> filter (λ it, oi_order_id it = o_id o) (order_items db))).

(** One run of a handler that writes to the database, with what it
    takes besides the callback. *)
Inductive Action :=
| ACart (w : CartWrite) (pid : Z)
| AClear
| AToggle (pid : Z)
| ADelete (pid : Z)
| AConfirm (send_ok : nat → Z → bool) (fails : nat → bool) (now : str) (fsm : FSMContext).

Section Act.
Variables (ADMIN_IDS : list (option Z)) (ADMIN_USERNAME : str) (lower : str → str).

(** The database after an action. *)
Definition act (db : DB) (ac : Action * CallbackQuery) : DB :=
  let '(a, c) := ac in
  match a with
  | ACart w pid => post (handle w pid c db)
  | AClear => post (cart_clear c db)
  | AToggle pid => post (admin_toggle ADMIN_IDS ADMIN_USERNAME lower pid c db)
  | ADelete pid => post (admin_del ADMIN_IDS ADMIN_USERNAME lower pid c db)
  | AConfirm send_ok fails now fsm =>
    (post (checkout_confirm ADMIN_IDS send_ok fails now c (db, fsm))).1
  end.

(** The database after a sequence of actions, first action first. *)
Definition acts (db : DB) (l : list (Action * CallbackQuery)) : DB := foldl act db l.
End Act.


(** Calls of [bot.send_message] in a trace, and those that went through. *)
Definition is_send (e : Effect) : bool :=
  match e with
  | send_message _ _ _ => true
  | _ => false
  end.

Definition is_delivery (e : Effect) : bool :=
  match e with
  | send_message _ _ true => true
  | _ => false
  end.


(** *** The checkout conversation as a step relation *)

(** The keys the handlers have stored when the conversation waits in a
    state: [co_full_name] stores "full_name" before it sets
    [Checkout.phone], and so on. *)
Definition fields_before (s : State) : list string :=
  match s with
  | Checkout_phone => ["full_name"]
  | Checkout_city => ["full_name"; "phone"]
  | Checkout_np_type => ["full_name"; "phone"; "city"]
  | Checkout_np_point => ["full_name"; "phone"; "city"; "np_type"]
  | Checkout_payment => ["full_name"; "phone"; "city"; "np_type"; "np_point"]
  | Checkout_comment => ["full_name"; "phone"; "city"; "np_type"; "np_point"; "payment"]
  | Checkout_confirm =>
    ["full_name"; "phone"; "city"; "np_type"; "np_point"; "payment"; "comment"]
  | _ => []
  end.

Definition is_checkout (s : State) : bool :=
  match s with
  | Checkout_full_name | Checkout_phone | Checkout_city | Checkout_np_type
  | Checkout_np_point | Checkout_payment | Checkout_comment | Checkout_confirm => true
  | _ => false
  end.

Section Wizard.
Variable isdigit : N → bool.

(** One handler of the checkout flow, run on an event that passes its
    filters, takes the session of the user from [fsm] to [fsm'].  The
    database a handler reads is whatever it is at that moment. *)
Inductive wizard_step : FSMContext → FSMContext → Prop :=
| step_start c db fsm :
    wizard_step fsm (post (checkout_start c db fsm))
| step_full_name m fsm :
    state fsm = Some Checkout_full_name → wizard_step fsm (post (co_full_name m fsm))
| step_phone m fsm :
    state fsm = Some Checkout_phone → wizard_step fsm (post (co_phone isdigit m fsm))
| step_city m fsm :
    state fsm = Some Checkout_city → wizard_step fsm (post (co_city m fsm))
| step_np_type c fsm :
    co_np_type_filter c fsm = true → wizard_step fsm (post (co_np_type c fsm))
| step_np_point m fsm :
    state fsm = Some Checkout_np_point → wizard_step fsm (post (co_np_point m fsm))
| step_payment c fsm :
    co_payment_filter c fsm = true → wizard_step fsm (post (co_payment c fsm))
| step_comment m db fsm :
    state fsm = Some Checkout_comment → wizard_step fsm (post (co_comment m db fsm))
| step_cancel c fsm :
    checkout_cancel_filter c fsm = true → wizard_step fsm (post (checkout_cancel c fsm))
| step_confirm ids send_ok fails now c db fsm :
    checkout_confirm_filter c (db, fsm) = true →
    wizard_step fsm (post (checkout_confirm ids send_ok fails now c (db, fsm))).2.

(** What a session in a checkout state holds: the fields of the steps
    behind it, a phone with 9 digits or more if there is one, a payment
    that is one of the two labels if there is one. *)
Definition collected (fsm : FSMContext) : Prop :=
  match state fsm with
  | Some s =>
    is_checkout s = true →
    Forall (λ k, is_Some (data fsm !! k)) (fields_before s)
    ∧ (∀ ph, data fsm !! "phone" = Some ph → (9 ≤ length (keep_digits isdigit ph))%nat)
    ∧ (∀ pa, data fsm !! "payment" = Some pa → pa = cash_on_delivery ∨ pa = prepayment)
  | None => True
  end.
End Wizard.


(** *** Variants of a product *)

(** The separators of [re.split(r"[,; ]+", t)]: comma, semicolon, space. *)
Definition is_variant_sep (ch : N) : bool := ((ch =? 44) || (ch =? 59) || (ch =? 32))%N.

(** [re.split] on runs of separator characters: the pieces between the
    runs, with an empty piece in front of a leading run and behind a
    trailing one.  [in_run] says that the character before was a separator. *)
Fixpoint re_split (sep : N → bool) (in_run : bool) (s : str) : list str :=
  match s with
  | [] => [[]]
  | ch :: s' =>
    if sep ch then
      if in_run then re_split sep true s' else [] :: re_split sep true s'
    else
      match re_split sep false s' with
      | f :: fs => (ch :: f) :: fs
      | [] => [[ch]]
      end
  end.

(** The loop over [variants] with the set [seen]: the first occurrence of
    every value, in order. *)
Fixpoint first_occurrences (seen : list str) (l : list str) : list str :=
  match l with
  | [] => []
  | v :: l' =>
    if decide (v ∈ seen) then first_occurrences seen l'
    else v :: first_occurrences (v :: seen) l'
  end.

(** [[p.strip() for p in parts if p.strip()]] *)
Definition stripped_parts (parts : list str) : list str :=
  omap (λ p, match strip p with
             | [] => None
             | (_ :: _) as v => Some v
             end) parts.

(** [parse_variants] *)
Definition parse_variants (text : str) : list str :=
  let t := strip text in
  if decide (t = utf8 "-" ∨ t = []) then []
  else first_occurrences [] (stripped_parts (re_split is_variant_sep false t)).

(** [sep.join(l)] *)
Fixpoint join (sep : str) (l : list str) : str :=
  match l with
  | [] => []
  | [v] => v
  | v :: l' => v ++ sep ++ join sep l'
  end.

(** A variant label as an operator would type it: not empty, without
    separator and without white space. *)
Definition plain_label (v : str) : Prop :=
  v ≠ [] ∧ Forall (λ ch, is_variant_sep ch = false ∧ py_isspace ch = false) v.


(** *** Catalogue pages *)

Definition PAGE_SIZE : Z := 5.

(** [LIMIT ? OFFSET ?] on the rows of a query, as SQLite reads them: a
    negative LIMIT is no limit, a negative OFFSET is 0. *)
Definition limit_offset {A} (limit offset : Z) (rows : list A) : list A :=
  let rest := drop (Z.to_nat offset) rows in
  if decide (limit < 0) then rest else take (Z.to_nat limit) rest.

(** [ORDER BY id DESC] on product rows *)
Definition product_id_desc (r1 r2 : Z * Product) : Prop := r2.1 ≤ r1.1.

Global Instance product_id_desc_dec r1 r2 : Decision (product_id_desc r1 r2) :=
  Z_le_dec r2.1 r1.1.

(** [SELECT ... FROM products ORDER BY id DESC] *)
Definition products_desc (db : DB) : list (Z * Product) :=
  merge_sort product_id_desc (map_to_list (products db)).

(** [SELECT ... FROM products WHERE active=1 ORDER BY id DESC] *)
Definition active_products_desc (db : DB) : list (Z * Product) :=
  merge_sort product_id_desc (filter (λ r, active r.2 = 1) (map_to_list (products db))).

(** A page of a listing: its rows, the page of the "back" button when
    there is one, the page of the "forward" button. *)
Inductive Listing :=
| NothingToShow
| Page (rows : list (Z * Product)) (prev : option Z) (next : Z).

Definition listing (page : Z) (rows : list (Z * Product)) : Listing :=
  match rows with
  | [] => NothingToShow
  | _ :: _ => Page rows (if decide (page > 0) then Some (page - 1) else None) (page + 1)
  end.

(** The rows [catalog] fetches for a page. *)
Definition catalog_rows (page : Z) (db : DB) : list (Z * Product) :=
  limit_offset PAGE_SIZE (page * PAGE_SIZE) (active_products_desc db).

(** [catalog]: what is shown for page [page], which is [int(...)] of the
    second field of the callback data. *)
Definition catalog (page : Z) (db : DB) : Listing := listing page (catalog_rows page db).

(** The rows [admin_products] fetches for a page. *)
Definition admin_products_rows (page : Z) (db : DB) : list (Z * Product) :=
  limit_offset PAGE_SIZE (page * PAGE_SIZE) (products_desc db).

(** *** Restarting the polling *)

(** [delay = min(delay * 2, 60)] *)
Definition next_delay (delay : Z) : Z := Z.min (delay * 2) 60.

(** The loop of [start_polling_with_retries] over the outcomes of the
    successive calls of [dp.start_polling] ([true]: the call raised): the
    delays it sleeps, in order.  A call that returns is followed by the
    next call at once, with the delay as it is. *)
Fixpoint polling_sleeps (delay : Z) (raised : list bool) : list Z :=
  match raised with
  | [] => []
  | true :: rest => delay :: polling_sleeps (next_delay delay) rest
  | false :: rest => polling_sleeps delay rest
  end.

(** [start_polling_with_retries]: the initial delay is 3. *)
Definition start_polling_with_retries (raised : list bool) : list Z :=
  polling_sleeps 3 raised.

(** * Properties *)

(** ** Sums and the cart join *)

Lemma foldl_add_foldr (l : list Z) (a : Z) : foldl Z.add a l = a + foldr Z.add 0 l.
Proof.
  revert a. induction l as [|x l IH]; intros a; simpl; [lia|].
  rewrite IH. lia.
Qed.

Lemma py_sum_foldr (l : list Z) : py_sum l = foldr Z.add 0 l.
Proof. unfold py_sum. rewrite foldl_add_foldr. lia. Qed.

Lemma py_sum_cons (x : Z) (l : list Z) : py_sum (x :: l) = x + py_sum l.
Proof. by rewrite !py_sum_foldr. Qed.

Lemma py_sum_app (l1 l2 : list Z) : py_sum (l1 ++ l2) = py_sum l1 + py_sum l2.
Proof.
  induction l1 as [|x l1 IH]; simpl.
  - unfold py_sum at 2. simpl. lia.
  - rewrite !py_sum_cons, IH. lia.
Qed.

Lemma py_sum_Permutation (l1 l2 : list Z) : l1 ≡ₚ l2 → py_sum l1 = py_sum l2.
Proof.
  induction 1 as [|x l1 l2 _ IH|x y l|l1 l2 l3 _ IH1 _ IH2].
  - reflexivity.
  - by rewrite !py_sum_cons, IH.
  - rewrite !py_sum_cons. lia.
  - congruence.
Qed.

Lemma cart_total_amounts (db : DB) (u : Z) :
  cart_total db u = py_sum (amount <$> cart_join db u).
Proof. reflexivity. Qed.

Lemma cart_items_Permutation (db : DB) (u : Z) : cart_items db u ≡ₚ cart_join db u.
Proof. apply merge_sort_Permutation. Qed.

Lemma cart_total_items (db : DB) (u : Z) :
  cart_total db u = py_sum (amount <$> cart_items db u).
Proof.
  rewrite cart_total_amounts. apply py_sum_Permutation.
  by rewrite cart_items_Permutation.
Qed.

Lemma cart_items_nil (db : DB) (u : Z) : cart_items db u = [] ↔ cart_join db u = [].
Proof.
  split; intros H.
  - apply Permutation_nil_r. rewrite <- H. symmetry. apply cart_items_Permutation.
  - apply Permutation_nil_r. rewrite <- H. apply cart_items_Permutation.
Qed.

(** A row is listed exactly when it comes from a cart entry of the user
    whose product exists and is active. *)
Lemma elem_of_cart_join (db : DB) (u : Z) (r : ItemRow) :
  r ∈ cart_join db u ↔
  ∃ p, cart db !! (u, i_pid r, i_variant r) = Some (i_qty r)
       ∧ products db !! i_pid r = Some p ∧ active p = 1
       ∧ i_title r = title p ∧ i_price r = price p.
Proof.
  unfold cart_join. rewrite list_elem_of_omap. split.
  - intros ([[[u' pid] v] q] & Hin & Hrow).
    apply elem_of_map_to_list in Hin. simpl in Hrow.
    destruct (decide (u' = u)) as [->|]; [|done].
    destruct (products db !! pid) as [p|] eqn:Hp; [|done].
    destruct (decide (active p = 1)); [|done].
    injection Hrow as <-. simpl. eauto 10.
  - intros (p & Hc & Hp & Ha & Ht & Hpr).
    exists ((u, i_pid r, i_variant r), i_qty r). split.
    + by apply elem_of_map_to_list.
    + simpl. rewrite decide_True by done. rewrite Hp, decide_True by done.
      destruct r; simpl in *. by subst.
Qed.

(** ** Cart store: increments and decrements *)

Section Presses.
Variables (pid : Z) (variant : str) (c : CallbackQuery).

Let k : CartKey := (user_id (c_from_user c), pid, variant).

Lemma cart_inc_lookup (db : DB) (k' : CartKey) :
  cart (post (cart_inc pid variant c db)) !! k'
  = if decide (k' = k) then (λ q, q + 1) <$> cart db !! k else cart db !! k'.
Proof.
  simpl. fold k. rewrite lookup_alter.
  destruct (decide (k = k')), (decide (k' = k)); congruence.
Qed.

Lemma cart_dec_lookup (db : DB) (k' : CartKey) :
  cart (post (cart_dec pid variant c db)) !! k'
  = if decide (k' = k)
    then match cart db !! k with
         | Some q => if decide (q ≤ 1) then None else Some (q - 1)
         | None => None
         end
    else cart db !! k'.
Proof.
  unfold cart_dec. fold k. destruct (cart db !! k) as [q|] eqn:Hq; simpl.
  - destruct (decide (q ≤ 1)); simpl.
    + rewrite lookup_delete. destruct (decide (k = k')), (decide (k' = k)); congruence.
    + rewrite lookup_alter, Hq.
      destruct (decide (k = k')), (decide (k' = k)); simpl; congruence.
  - destruct (decide (k' = k)); congruence.
Qed.

Lemma presses_cons (p : Press) (ps : list Press) (db : DB) :
  presses pid variant c db (p :: ps) = presses pid variant c (press pid variant c db p) ps.
Proof. reflexivity. Qed.

Lemma cart_dec_absent (db : DB) :
  cart db !! k = None → cart_dec pid variant c db = ret db [answer_empty].
Proof. unfold cart_dec. fold k. by intros ->. Qed.

Lemma press_positive (db : DB) (p : Press) :
  positive_quantities db → positive_quantities (press pid variant c db p).
Proof.
  intros Hpos k' q. destruct p; unfold press.
  - rewrite cart_inc_lookup. destruct (decide (k' = k)) as [->|]; [|apply Hpos].
    destruct (cart db !! k) as [q0|] eqn:Hq; simpl; [|done].
    intros [= <-]. apply Hpos in Hq. lia.
  - rewrite cart_dec_lookup. destruct (decide (k' = k)) as [->|]; [|apply Hpos].
    destruct (cart db !! k) as [q0|] eqn:Hq; [|done].
    destruct (decide (q0 ≤ 1)); [done|]. intros [= <-]. lia.
Qed.

Lemma presses_positive (ps : list Press) (db : DB) :
  positive_quantities db → positive_quantities (presses pid variant c db ps).
Proof.
  revert db. induction ps as [|p ps IH]; intros db Hpos; [done|].
  apply IH. by apply press_positive.
Qed.

Lemma presses_other (ps : list Press) (db : DB) (k' : CartKey) :
  k' ≠ k → cart (presses pid variant c db ps) !! k' = cart db !! k'.
Proof.
  intros Hne. revert db. induction ps as [|p ps IH]; intros db; [done|].
  rewrite presses_cons, IH. destruct p; unfold press.
  - rewrite cart_inc_lookup. by rewrite decide_False.
  - rewrite cart_dec_lookup. by rewrite decide_False.
Qed.

Lemma presses_absent (ps : list Press) (db : DB) :
  cart db !! k = None → cart (presses pid variant c db ps) !! k = None.
Proof.
  revert db. induction ps as [|p ps IH]; intros db Hk; [done|].
  rewrite presses_cons. apply IH. destruct p; unfold press.
  - rewrite cart_inc_lookup, decide_True by done. by rewrite Hk.
  - rewrite cart_dec_lookup, decide_True by done. by rewrite Hk.
Qed.

(** While every prefix of the presses keeps the count at 1 or more the
    row holds the initial quantity plus the net count. *)
Lemma presses_survive (ps : list Press) (db : DB) (q0 : Z) :
  cart db !! k = Some q0 →
  (∀ n, 1 ≤ q0 + net (take n ps)) →
  cart (presses pid variant c db ps) !! k = Some (q0 + net ps).
Proof.
  revert db q0. induction ps as [|p ps IH]; intros db q0 Hk Hfloor.
  - simpl. rewrite Hk. f_equal. lia.
  - rewrite presses_cons. destruct p.
    + rewrite (IH _ (q0 + 1)).
      * f_equal. simpl. lia.
      * unfold press. rewrite cart_inc_lookup, decide_True by done. by rewrite Hk.
      * intros n. specialize (Hfloor (S n)). simpl in Hfloor. lia.
    + rewrite (IH _ (q0 - 1)).
      * f_equal. simpl. lia.
      * unfold press. rewrite cart_dec_lookup, decide_True by done. rewrite Hk.
        specialize (Hfloor 1%nat). rewrite firstn_cons, take_0 in Hfloor.
        simpl in Hfloor. rewrite decide_False by lia. done.
      * intros n. specialize (Hfloor (S n)). simpl in Hfloor. lia.
Qed.

(** Once a prefix brings the count to 0 the row is deleted, and it stays
    deleted: [cart_inc] updates rows, it does not insert one. *)
Lemma presses_deleted (ps : list Press) (db : DB) (q0 : Z) (n : nat) :
  cart db !! k = Some q0 → 1 ≤ q0 →
  q0 + net (take n ps) < 1 →
  cart (presses pid variant c db ps) !! k = None.
Proof.
  revert db q0 n. induction ps as [|p ps IH]; intros db q0 n Hk Hq0 Hn.
  - rewrite take_nil in Hn. simpl in Hn. lia.
  - destruct n as [|n]; [simpl in Hn; lia|]. simpl in Hn.
    rewrite presses_cons. destruct p.
    + apply (IH _ (q0 + 1) n); [|lia|lia].
      unfold press. rewrite cart_inc_lookup, decide_True by done. by rewrite Hk.
    + destruct (decide (q0 ≤ 1)) as [Hle|Hgt].
      * apply presses_absent. unfold press.
        rewrite cart_dec_lookup, decide_True by done. rewrite Hk.
        by rewrite decide_True.
      * apply (IH _ (q0 - 1) n); [|lia|lia].
        unfold press. rewrite cart_dec_lookup, decide_True by done. rewrite Hk.
        by rewrite decide_False.
Qed.
End Presses.

(** The handlers that add and remove lines keep the quantities at 1 or
    more as well, so every cart the bot builds from an empty one has
    [positive_quantities]. *)
Lemma handle_positive (w : CartWrite) (pid : Z) (c : CallbackQuery) (db : DB) :
  positive_quantities db → positive_quantities (post (handle w pid c db)).
Proof.
  intros Hpos. destruct w as [|v|v|v|v]; simpl.
  - unfold cart_add. destruct (active_product db pid) as [prod|]; [|done].
    destruct (variants_json prod); [|done]. simpl.
    intros k' q. destruct (cart db !! (user_id (c_from_user c), pid, [])) as [q0|] eqn:Hq0;
      simpl; rewrite lookup_insert_Some; intros [[_ <-]|[_ Hk']]; eauto; [|lia].
    apply Hpos in Hq0. lia.
  - intros k' q. destruct (cart db !! (user_id (c_from_user c), pid, v)) as [q0|] eqn:Hq0;
      simpl; rewrite lookup_insert_Some; intros [[_ <-]|[_ Hk']]; eauto; [|lia].
    apply Hpos in Hq0. lia.
  - by apply (press_positive pid v c db Plus).
  - by apply (press_positive pid v c db Minus).
  - intros k' q. simpl. rewrite lookup_delete_Some. intros [_ Hk']. eauto.
Qed.

(** C6. For every sequence of presses of [+] and [-] on one cart line
    (user, product, variant), starting from a cart without zero or negative
    quantities: no quantity is ever zero or negative afterwards; a line that
    held [q0] holds [q0] plus increments minus decrements as long as no
    prefix of the presses brings that count below 1, and is deleted (and
    stays deleted) once a prefix does; a line that does not exist is not
    created by any presses, since [+] updates a row and inserts none; a
    decrement of a quantity of 1 or less deletes the line; a decrement of a
    line that does not exist changes nothing; the other lines are
    untouched. *)
Theorem cart_quantity_net_floored (pid : Z) (variant : str) (c : CallbackQuery)
    (db : DB) (ps : list Press) :
  positive_quantities db →
  let k := (user_id (c_from_user c), pid, variant) in
  let db' := presses pid variant c db ps in
  positive_quantities db'
  ∧ (∀ q0, cart db !! k = Some q0 →
       ((∀ n, 1 ≤ q0 + net (take n ps)) → cart db' !! k = Some (q0 + net ps))
       ∧ (∀ n, q0 + net (take n ps) < 1 → cart db' !! k = None))
  ∧ (cart db !! k = None → cart db' !! k = None)
  ∧ (∀ q, cart db !! k = Some q → q ≤ 1 →
       cart (post (cart_dec pid variant c db)) !! k = None)
  ∧ (cart db !! k = None → post (cart_dec pid variant c db) = db)
  ∧ (∀ k', k' ≠ k → cart db' !! k' = cart db !! k').
Proof.
  intros Hpos k db'. repeat split.
  - by apply presses_positive.
  - intros Hfloor. by apply presses_survive.
  - intros n Hn. eapply presses_deleted; eauto.
  - apply presses_absent.
  - intros q Hq Hle. rewrite cart_dec_lookup, decide_True by done.
    fold k. rewrite Hq. by rewrite decide_True.
  - intros Hk. by rewrite cart_dec_absent.
  - intros k' Hne. by apply presses_other.
Qed.

Lemma cart_quantity_net_floored_witness :
  positive_quantities Sample.shop
  ∧ cart (presses 1 [] (Sample.click "cart:inc:1:") Sample.shop [Plus; Minus; Minus; Minus; Plus])
      !! (7, 1, []) = None.
Proof.
  assert (Hpos : positive_quantities Sample.shop).
  { intros k q. unfold Sample.shop, Sample.two_lines. simpl.
    rewrite !lookup_insert_Some, lookup_empty. intros [[_ <-]|[_ [[_ <-]|[_ ?]]]]; [lia|lia|done]. }
  split; [exact Hpos|].
  pose proof (cart_quantity_net_floored 1 [] (Sample.click "cart:inc:1:") Sample.shop
                [Plus; Minus; Minus; Minus; Plus] Hpos) as (_ & Hq & _).
  destruct (Hq 2) as [_ Hdel]; [reflexivity|].
  apply (Hdel 4%nat). simpl. lia.
Defined.

(** C6, as stated, fails once the line has been deleted: the line
    (7, 2, M) holds 1, [-] deletes the row and the following [+] updates no
    row, so the store holds nothing where the floored count, and the initial
    quantity plus the net count, are 1.  A [+] on a line that never existed
    is lost in the same way. *)
Lemma cart_inc_after_delete_lost :
  let c := Sample.click "cart:inc:2:M" in
  positive_quantities Sample.shop
  ∧ cart Sample.shop !! (7, 2, utf8 "M") = Some 1
  ∧ cart (presses 2 (utf8 "M") c Sample.shop [Minus; Plus]) !! (7, 2, utf8 "M") = None
  ∧ floored_count 1 [Minus; Plus] = 1
  ∧ Z.max 0 (1 + net [Minus; Plus]) = 1
  ∧ cart Sample.shop !! (7, 1, utf8 "M") = None
  ∧ cart (presses 1 (utf8 "M") c Sample.shop [Plus]) !! (7, 1, utf8 "M") = None
  ∧ floored_count 0 [Plus] = 1
  ∧ ¬ quantity_is_floored_count 2 (utf8 "M") c Sample.shop.
Proof.
  intros c. split.
  { intros k q. unfold Sample.shop, Sample.two_lines. simpl.
    rewrite !lookup_insert_Some, lookup_empty. intros [[_ <-]|[_ [[_ <-]|[_ ?]]]]; [lia|lia|done]. }
  do 7 (split; [vm_compute; reflexivity|]).
  intros H. specialize (H [Minus; Plus]). vm_compute in H. discriminate H.
Qed.

(** ** Totals, listings and the active flag *)

Lemma join_row_key (db : DB) (u : Z) (kv : CartKey * Z) (r : ItemRow) :
  join_row db u kv = Some r → kv = ((u, i_pid r, i_variant r), i_qty r).
Proof.
  destruct kv as [[[u' pid] v] q]. simpl.
  destruct (decide (u' = u)) as [->|]; [|done].
  destruct (products db !! pid) as [p|]; [|done].
  destruct (decide (active p = 1)); [|done].
  by intros [= <-].
Qed.

Lemma NoDup_omap_join (db : DB) (u : Z) (l : list (CartKey * Z)) :
  NoDup l → NoDup (omap (join_row db u) l).
Proof.
  induction 1 as [|kv l Hnin _ IH]; simpl; [constructor|].
  destruct (join_row db u kv) as [r|] eqn:Hr; [|done].
  constructor; [|done].
  rewrite list_elem_of_omap. intros (kv' & Hin & Hr').
  apply join_row_key in Hr, Hr'. congruence.
Qed.

Lemma NoDup_cart_join (db : DB) (u : Z) : NoDup (cart_join db u).
Proof. apply NoDup_omap_join, NoDup_map_to_list. Qed.

Lemma NoDup_cart_items (db : DB) (u : Z) : NoDup (cart_items db u).
Proof. rewrite cart_items_Permutation. apply NoDup_cart_join. Qed.

Lemma elem_of_cart_items (db : DB) (u : Z) (r : ItemRow) :
  r ∈ cart_items db u ↔
  ∃ p, cart db !! (u, i_pid r, i_variant r) = Some (i_qty r)
       ∧ products db !! i_pid r = Some p ∧ active p = 1
       ∧ i_title r = title p ∧ i_price r = price p.
Proof. rewrite cart_items_Permutation. apply elem_of_cart_join. Qed.

Lemma py_sum_filter_split {A} (h : A → Z) (P : A → Prop) `{∀ x, Decision (P x)} (l : list A) :
  py_sum (h <$> l) = py_sum (h <$> filter P l) + py_sum (h <$> filter (λ x, ¬ P x) l).
Proof.
  rewrite <- py_sum_app, <- fmap_app. apply py_sum_Permutation.
  by rewrite filter_app_complement.
Qed.

Lemma join_row_switch_off (db : DB) (u pid a : Z) (kv : CartKey * Z) :
  a ≠ 1 →
  join_row (sql_set_active a pid db) u kv
  = match join_row db u kv with
    | Some r => if decide (i_pid r ≠ pid) then Some r else None
    | None => None
    end.
Proof.
  intros Ha. destruct kv as [[[u' pid'] v] q]. simpl.
  destruct (decide (u' = u)) as [->|]; [|done].
  rewrite lookup_alter. destruct (decide (pid = pid')) as [<-|Hne].
  - destruct (products db !! pid) as [p|]; simpl; [|done].
    rewrite (decide_False (P := a = 1)) by done.
    destruct (decide (active p = 1)); [|done].
    rewrite decide_False; [done|]. simpl. by intros ?.
  - destruct (products db !! pid') as [p|]; [|done].
    destruct (decide (active p = 1)); [|done].
    rewrite decide_True; [done|]. simpl. congruence.
Qed.

(** Rows of a product that is switched off leave the join; the others stay. *)
Lemma cart_join_switch_off (db : DB) (u pid a : Z) :
  a ≠ 1 →
  cart_join (sql_set_active a pid db) u = filter (λ r, i_pid r ≠ pid) (cart_join db u).
Proof.
  intros Ha. unfold cart_join.
  change (cart (sql_set_active a pid db)) with (cart db).
  induction (map_to_list (cart db)) as [|kv l IH]; [done|].
  cbn [omap list_omap]. rewrite IH, join_row_switch_off by done.
  destruct (join_row db u kv) as [r|]; [|done].
  destruct (decide (i_pid r ≠ pid)).
  - by rewrite filter_cons_True.
  - by rewrite filter_cons_False.
Qed.

Lemma with_active_back (p : Product) : with_active (active p) (with_active 0 p) = p.
Proof. by destruct p. Qed.

Lemma set_active_back (db : DB) (pid : Z) (p : Product) :
  products db !! pid = Some p →
  sql_set_active (active p) pid (sql_set_active 0 pid db) = db.
Proof.
  intros Hp. destruct db as [ps ct os sq oi]. unfold sql_set_active, set_products. simpl in *.
  f_equal. apply map_eq. intros i. rewrite !lookup_alter.
  destruct (decide (pid = i)) as [<-|]; [|done].
  rewrite Hp, decide_True by done. simpl. by rewrite with_active_back.
Qed.

Section Toggle.
Variables (ADMIN_IDS : list (option Z)) (ADMIN_USERNAME : str) (lower : str → str).

Lemma admin_toggle_off (pid : Z) (c : CallbackQuery) (db : DB) (p : Product) :
  is_admin_user ADMIN_IDS ADMIN_USERNAME lower (user_id (c_from_user c)) (username (c_from_user c)) = true →
  products db !! pid = Some p → active p = 1 →
  post (admin_toggle ADMIN_IDS ADMIN_USERNAME lower pid c db) = sql_set_active 0 pid db.
Proof.
  intros Hadm Hp Ha. unfold admin_toggle. rewrite Hadm, Hp. simpl.
  by rewrite decide_True.
Qed.

Lemma admin_toggle_on (pid : Z) (c : CallbackQuery) (db : DB) (p : Product) :
  is_admin_user ADMIN_IDS ADMIN_USERNAME lower (user_id (c_from_user c)) (username (c_from_user c)) = true →
  products db !! pid = Some p → active p ≠ 1 →
  post (admin_toggle ADMIN_IDS ADMIN_USERNAME lower pid c db) = sql_set_active 1 pid db.
Proof.
  intros Hadm Hp Ha. unfold admin_toggle. rewrite Hadm, Hp. simpl.
  by rewrite decide_False.
Qed.
End Toggle.

(** C7. The total of a user is the sum of quantity times price over the
    listed rows, and the listed rows are, without repetition, exactly the
    cart entries of the user whose product exists with the active flag at 1.
    When an operator switches an active product off, no cart row is
    deleted, the rows of that product leave the listing and the total drops
    by their amounts; switching it on again restores the database, hence
    listing and total. *)
Theorem cart_total_active_entries (ADMIN_IDS : list (option Z)) (ADMIN_USERNAME : str)
    (lower : str → str) (pid : Z) (c : CallbackQuery) (db : DB) (p : Product) (u : Z) :
  is_admin_user ADMIN_IDS ADMIN_USERNAME lower (user_id (c_from_user c)) (username (c_from_user c)) = true →
  products db !! pid = Some p → active p = 1 →
  let toggle := admin_toggle ADMIN_IDS ADMIN_USERNAME lower pid c in
  let off := post (toggle db) in
  (∀ d, cart_total d u = py_sum (amount <$> cart_items d u))
  ∧ (∀ d, NoDup (cart_items d u))
  ∧ (∀ d r, r ∈ cart_items d u ↔
        ∃ p', cart d !! (u, i_pid r, i_variant r) = Some (i_qty r)
              ∧ products d !! i_pid r = Some p' ∧ active p' = 1
              ∧ i_title r = title p' ∧ i_price r = price p')
  ∧ cart off = cart db
  ∧ cart_items off u ≡ₚ filter (λ r, i_pid r ≠ pid) (cart_items db u)
  ∧ cart_total off u
    = cart_total db u - py_sum (amount <$> filter (λ r, i_pid r = pid) (cart_items db u))
  ∧ post (toggle off) = db.
Proof.
  intros Hadm Hp Ha toggle off.
  assert (Hoff : off = sql_set_active 0 pid db) by (by eapply admin_toggle_off).
  split; [intros d; apply cart_total_items|]. split; [intros d; apply NoDup_cart_items|].
  split; [intros d r; apply elem_of_cart_items|]. split; [by rewrite Hoff|].
  assert (Hperm : cart_items off u ≡ₚ filter (λ r, i_pid r ≠ pid) (cart_items db u)).
  { rewrite Hoff, !cart_items_Permutation. by rewrite cart_join_switch_off. }
  split; [exact Hperm|]. split.
  - rewrite (cart_total_items off), (cart_total_items db).
    rewrite (py_sum_filter_split amount (λ r, i_pid r = pid) (cart_items db u)).
    rewrite (py_sum_Permutation _ _ (fmap_Permutation amount _ _ Hperm)). lia.
  - unfold toggle. rewrite Hoff.
    rewrite (admin_toggle_on _ _ _ _ _ _ (with_active 0 p)); [| done | |done].
    + rewrite <- Ha. by apply set_active_back.
    + unfold sql_set_active. simpl. rewrite lookup_alter, decide_True by done.
      by rewrite Hp.
Qed.

Lemma cart_total_active_entries_witness :
  let toggle := admin_toggle [Some 7] (utf8 "boss") id 2 (Sample.click "admin:toggle:2") in
  cart_total (post (toggle Sample.shop)) 7 = 200
  ∧ post (toggle (post (toggle Sample.shop))) = Sample.shop.
Proof.
  intros toggle.
  pose proof (cart_total_active_entries [Some 7] (utf8 "boss") id 2
                (Sample.click "admin:toggle:2") Sample.shop
                (Sample.product "B" 250 [utf8 "M"] 1) 7 eq_refl eq_refl eq_refl)
    as (_ & _ & _ & _ & _ & Htotal & Hback).
  split; [|exact Hback].
  unfold toggle. rewrite Htotal. reflexivity.
Defined.

(** ** Cart writes and the product check *)

Lemma set_cart_id (db : DB) : set_cart db (cart db) = db.
Proof. by destruct db. Qed.


(** Every write leaves a database that differs from the old one at most
    in the quantity of its own line. *)
Lemma handle_frame (w : CartWrite) (pid : Z) (c : CallbackQuery) (db : DB) :
  ∃ ct, post (handle w pid c db) = set_cart db ct
        ∧ ∀ k', k' ≠ line_of w pid c → ct !! k' = cart db !! k'.
Proof.
  destruct w as [|v|v|v|v]; simpl.
  - unfold cart_add. destruct (active_product db pid) as [prod|].
    + destruct (variants_json prod); simpl.
      * unfold line_of; simpl.
        destruct (cart db !! (user_id (c_from_user c), pid, [])); eexists; (split; [done|]);
          intros k' Hk'; by rewrite lookup_insert_ne.
      * exists (cart db). by rewrite set_cart_id.
    + exists (cart db). by rewrite set_cart_id.
  - unfold line_of; simpl.
    destruct (cart db !! (user_id (c_from_user c), pid, v)); eexists; (split; [done|]);
      intros k' Hk'; by rewrite lookup_insert_ne.
  - eexists. split; [done|]. intros k' Hk'. by rewrite lookup_alter_ne.
  - unfold cart_dec, line_of; simpl.
    destruct (cart db !! (user_id (c_from_user c), pid, v)) as [q|]; simpl.
    + destruct (decide (q ≤ 1)); eexists; (split; [done|]); intros k' Hk'.
      * by rewrite lookup_delete_ne.
      * by rewrite lookup_alter_ne.
    + exists (cart db). by rewrite set_cart_id.
  - eexists. split; [done|]. intros k' Hk'. by rewrite lookup_delete_ne.
Qed.




(** ** Deleting a product *)

Section Delete.
Variables (ADMIN_IDS : list (option Z)) (ADMIN_USERNAME : str) (lower : str → str).

(** [admin_del] never touches the cart: [db_execute] runs the DELETE on a
    connection that does not enforce foreign keys. *)
Lemma admin_del_cart (pid : Z) (c : CallbackQuery) (db : DB) :
  cart (post (admin_del ADMIN_IDS ADMIN_USERNAME lower pid c db)) = cart db.
Proof. unfold admin_del. by destruct (is_admin_user _ _ _ _ _). Qed.
End Delete.

(** The same DELETE on a connection with [PRAGMA foreign_keys = ON]
    removes the cart rows of the product. *)
Lemma delete_product_cascades (pid : Z) (db : DB) (k : CartKey) (q : Z) :
  cart (sql_delete_product (pragma_foreign_keys_on connect) pid db) !! k = Some q →
  k.1.2 ≠ pid.
Proof.
  simpl. intros H. by apply map_lookup_filter_Some in H as [_ H].
Qed.

(** C9 fails on the code.  An operator deletes product 1 while user 7
    holds two of it: the product row is gone and the cart row
    (7, 1, "") is still there. *)
Theorem admin_del_leaves_cart_rows :
  let db' := post (admin_del [Some 7] (utf8 "boss") id 1
                     (Sample.click "admin:del:1") Sample.shop) in
  products db' !! 1 = None ∧ cart db' !! (7, 1, []) = Some 2.
Proof. split; reflexivity. Qed.

(** ** Operator notice *)

Section Notify.
Variables (send_ok : nat → Z → bool) (text : Notice).

Lemma failed_app (l1 l2 : list Z) : failed text (l1 ++ l2) = failed text l1 ++ failed text l2.
Proof. unfold failed. by rewrite bind_app. Qed.

Lemma notify_admins_spec (ids : list (option Z)) (n : nat) :
  match notify_admins send_ok n text ids with
  | (true, n', tr) =>
    ∃ pre a rest,
      usable ids = pre ++ a :: rest
      ∧ (∀ i x, pre !! i = Some x → send_ok (n + i) x = false)
      ∧ send_ok (n + length pre) a = true
      ∧ tr = failed text pre ++ [send_message a text true; print (SentToAdmin a)]
  | (false, n', tr) =>
    (∀ i x, usable ids !! i = Some x → send_ok (n + i) x = false)
    ∧ n' = (n + length (usable ids))%nat
    ∧ tr = failed text (usable ids)
  end.
Proof.
  revert n. induction ids as [|[a|] ids IH]; intros n; simpl.
  - split; [intros i x Hi; by rewrite lookup_nil in Hi|]. split; [lia|done].
  - unfold usable. simpl. fold (usable ids).
    destruct (decide (a ≠ 0)) as [Ha|Ha]; [|apply IH].
    destruct (send_ok n a) eqn:Hok.
    + exists [], a, (usable ids). simpl. split; [done|].
      split; [intros i x Hi; by rewrite lookup_nil in Hi|].
      split; [by rewrite Nat.add_0_r|done].
    + specialize (IH (S n)).
      destruct (notify_admins send_ok (S n) text ids) as [[[|] n'] tr].
      * destruct IH as (pre & b & rest & Hus & Hpre & Hb & Htr).
        exists (a :: pre), b, rest. rewrite Hus. split; [done|]. split; [|split].
        -- intros [|i] x Hi; simpl in Hi.
           ++ injection Hi as <-. by rewrite Nat.add_0_r.
           ++ replace (n + S i)%nat with (S n + i)%nat by lia. by apply Hpre.
        -- simpl. replace (n + S (length pre))%nat with (S n + length pre)%nat by lia. done.
        -- rewrite Htr. done.
      * destruct IH as (Hall & Hn & Htr). split; [|split].
        -- intros [|i] x Hi; simpl in Hi.
           ++ injection Hi as <-. by rewrite Nat.add_0_r.
           ++ replace (n + S i)%nat with (S n + i)%nat by lia. by apply Hall.
        -- simpl. lia.
        -- rewrite Htr. done.
  - apply IH.
Qed.

Lemma notify_first_reachable (ids : list (option Z)) (chat_id : Z) :
  first_reachable ids send_ok chat_id text (notify ids send_ok chat_id text).
Proof.
  unfold notify, first_reachable.
  pose proof (notify_admins_spec ids 0) as H.
  destruct (notify_admins send_ok 0 text ids) as [[[|] n'] tr].
  - left. destruct H as (pre & a & rest & H1 & H2 & H3 & H4). eauto 10.
  - right. destruct H as (Hall & -> & ->). split; [done|].
    simpl. eexists. split; [reflexivity|]. by destruct (send_ok _ _).
Qed.

Lemma shown_failed (l : list Z) : shown (failed text l) = [].
Proof. induction l as [|a l IH]; [done|]. simpl. exact IH. Qed.

(** Nothing of the dispatcher is shown to the user as an answer of the
    handler. *)
Lemma shown_notify (ids : list (option Z)) (chat_id : Z) :
  shown (notify ids send_ok chat_id text) = [].
Proof.
  destruct (notify_first_reachable ids chat_id)
    as [(pre & a & rest & _ & _ & _ & ->)|(_ & ok & _ & ->)].
  - unfold shown. rewrite filter_app. fold (shown (failed text pre)).
    by rewrite shown_failed.
  - unfold shown. rewrite filter_app. fold (shown (failed text (usable ids))).
    by rewrite shown_failed.
Qed.
End Notify.

(** ** Order commit *)

Section CommitBlock.
Variables (fails : nat → bool) (now : str).

Lemma execute_all_Some (stmts : list (DB → DB)) (n : nat) (work work' : DB) :
  execute_all fails n stmts work = Some work' → work' = run stmts work.
Proof.
  revert n work. induction stmts as [|s stmts IH]; intros n work; simpl.
  - by intros [= <-].
  - destruct (fails n); [done|]. apply IH.
Qed.

Lemma execute_all_ok (stmts : list (DB → DB)) (n : nat) (work : DB) :
  (∀ i, (i < length stmts)%nat → fails (n + i) = false) →
  execute_all fails n stmts work = Some (run stmts work).
Proof.
  revert n work. induction stmts as [|s stmts IH]; intros n work Hok; simpl; [done|].
  rewrite <- (Nat.add_0_r n) at 1. rewrite Hok by (simpl; lia).
  apply IH. intros i Hi. replace (S n + i)%nat with (n + S i)%nat by lia.
  apply Hok. simpl. lia.
Qed.

Lemma run_cons (s : DB → DB) (stmts : list (DB → DB)) (work : DB) :
  run (s :: stmts) work = run stmts (s work).
Proof. reflexivity. Qed.

Lemma run_app (l1 l2 : list (DB → DB)) (work : DB) :
  run (l1 ++ l2) work = run l2 (run l1 work).
Proof. unfold run. by rewrite foldl_app. Qed.

Lemma run_insert_items (id : Z) (items : list ItemRow) (work : DB) :
  run (sql_insert_order_item ∘ order_item_of id <$> items) work
  = {| products := products work; cart := cart work; orders := orders work;
       orders_seq := orders_seq work;
       order_items := order_items work ++ (order_item_of id <$> items) |}.
Proof.
  revert work. induction items as [|r items IH]; intros work.
  - simpl. rewrite app_nil_r. by destruct work.
  - rewrite fmap_cons, run_cons, IH. simpl. by rewrite <- app_assoc.
Qed.

Lemma run_commit_statements (u : User) (f : Fields) (db : DB) :
  let work := sql_insert_order (order_of u f (cart_total db (user_id u)) now) db in
  run ((sql_insert_order_item ∘ order_item_of (lastrowid work) <$> cart_items db (user_id u))
       ++ [sql_cart_delete_user (user_id u)]) work
  = committed u f now db.
Proof.
  intros work. rewrite run_app, run_insert_items. reflexivity.
Qed.

(** The block either commits everything or raises and leaves nothing. *)
Lemma commit_block_cases (u : User) (f : Fields) (db : DB) :
  let r := commit_block fails now u f (cart_items db (user_id u))
             (cart_total db (user_id u)) db in
  r = inr OperationalError ∨ r = inl (committed u f now db, orders_seq db + 1).
Proof.
  intros r. unfold r, commit_block. destruct (fails 0); [by left|].
  destruct (execute_all _ _ _ _) as [work'|] eqn:Hex; [|by left].
  destruct (fails _); [by left|]. right.
  apply execute_all_Some in Hex. rewrite Hex, run_commit_statements. reflexivity.
Qed.

Lemma commit_block_ok (u : User) (f : Fields) (db : DB) :
  (∀ i, (i ≤ length (cart_items db (user_id u)) + 2)%nat → fails i = false) →
  commit_block fails now u f (cart_items db (user_id u)) (cart_total db (user_id u)) db
  = inl (committed u f now db, orders_seq db + 1).
Proof.
  intros Hok. unfold commit_block. rewrite (Hok 0%nat) by lia.
  rewrite execute_all_ok.
  - rewrite run_commit_statements, length_app, length_fmap. cbn [length].
    by rewrite Hok by lia.
  - rewrite length_app, length_fmap. cbn [length]. intros i Hi. apply Hok. lia.
Qed.

(** A failure of the call after the order insert. *)
Lemma commit_block_fails_after_order (u : User) (f : Fields) (db : DB)
    (items : list ItemRow) (total : Z) :
  fails 1 = true → commit_block fails now u f items total db = inr OperationalError.
Proof.
  intros H1. unfold commit_block. destruct (fails 0); [done|].
  destruct items; simpl; by rewrite H1.
Qed.
End CommitBlock.

Section Confirm.
Variables (ADMIN_IDS : list (option Z)) (send_ok : nat → Z → bool).
Variables (fails : nat → bool) (now : str).

Lemma checkout_confirm_cases (c : CallbackQuery) (db : DB) (fsm : FSMContext) :
  let u := c_from_user c in
  let r := checkout_confirm ADMIN_IDS send_ok fails now c (db, fsm) in
  cart_items db (user_id u) ≠ [] →
  match read_fields (data fsm) with
  | inr e => r = raise (db, fsm) [] e
  | inl f =>
    r = raise (db, fsm) [] OperationalError
    ∨ r = ret (committed u f now db, clear fsm) (confirmed_trace ADMIN_IDS send_ok c f db)
  end.
Proof.
  intros u r Hne. unfold r, checkout_confirm, confirmed_trace.
  pose proof (commit_block_cases fails now u) as Hc. fold u. simpl in Hc.
  destruct (cart_items db (user_id u)) as [|i l] eqn:Hitems; [done|].
  destruct (read_fields (data fsm)) as [f|e]; [|done].
  specialize (Hc f db). rewrite Hitems in Hc. destruct Hc as [-> | ->]; [by left|by right].
Qed.

Lemma checkout_confirm_empty (c : CallbackQuery) (db : DB) (fsm : FSMContext) :
  cart_items db (user_id (c_from_user c)) = [] →
  checkout_confirm ADMIN_IDS send_ok fails now c (db, fsm)
  = ret (db, fsm) [answer (utf8 "Кошик порожній") true].
Proof. intros H. unfold checkout_confirm. by rewrite H. Qed.
End Confirm.

Lemma order_item_of_variant (id : Z) (r : ItemRow) : oi_variant (order_item_of id r) = i_variant r.
Proof. simpl. by destruct (i_variant r). Qed.

Lemma committed_cart (u : User) (f : Fields) (now : str) (db : DB) (k : CartKey) :
  cart (committed u f now db) !! k
  = if decide (k.1.1 = user_id u) then None else cart db !! k.
Proof.
  simpl. destruct (decide (k.1.1 = user_id u)) as [Hk|Hk].
  - apply map_lookup_filter_None. right. intros q _. unfold cart_user. simpl. by intros ?.
  - destruct (cart db !! k) as [q|] eqn:Hq.
    + by apply map_lookup_filter_Some.
    + apply map_lookup_filter_None. by left.
Qed.

(** The rows a commit adds. *)
Lemma committed_rows (u : User) (f : Fields) (now : str) (db : DB) :
  let db' := committed u f now db in
  let id := orders_seq db + 1 in
  ∃ o its,
    orders db' = orders db ++ [o] ∧ order_items db' = order_items db ++ its
    ∧ o_id o = id ∧ o_user_id o = user_id u
    ∧ o_total o = cart_total db (user_id u)
    ∧ o_total o = py_sum ((λ it, oi_qty it * oi_price it) <$> its)
    ∧ Forall2 (λ row it,
         oi_order_id it = id ∧ oi_product_id it = i_pid row
         ∧ oi_title it = i_title row ∧ oi_price it = i_price row
         ∧ oi_variant it = i_variant row ∧ oi_qty it = i_qty row)
        (cart_items db (user_id u)) its
    ∧ (∀ k q, cart db' !! k = Some q → k.1.1 ≠ user_id u)
    ∧ products db' = products db.
Proof.
  intros db' id. eexists _, _. split; [reflexivity|]. split; [reflexivity|].
  split; [done|]. split; [done|]. split; [done|]. split; [|split; [|split; [|done]]].
  - simpl. rewrite cart_total_items. f_equal. rewrite <- list_fmap_compose.
    by apply list_fmap_ext.
  - apply Forall2_fmap_r, Forall_Forall2_diag, Forall_forall. intros row _.
    pose proof (order_item_of_variant id row). done.
  - intros k q. unfold db'. rewrite committed_cart.
    by destruct (decide (k.1.1 = user_id u)).
Qed.

(** C1. A confirm pressed in the [Checkout.confirm] state with a cart that
    lists at least one row either commits as a whole (one order whose total
    is the total of the live cart and the sum of its items, one item per
    listed row with the title, price, variant and quantity of that row, no
    cart row of the user left, session cleared) or raises and leaves
    database and session as they were, with no reply.  When the storage
    call after the order insert fails, the second holds: no order row, cart
    intact.  When no storage call fails and the session holds the seven
    fields, the first holds. *)
Theorem order_commit_atomic (ADMIN_IDS : list (option Z)) (send_ok : nat → Z → bool)
    (fails : nat → bool) (now : str) (c : CallbackQuery) (db : DB) (fsm : FSMContext) :
  checkout_confirm_filter c (db, fsm) = true →
  cart_items db (user_id (c_from_user c)) ≠ [] →
  let u := c_from_user c in
  let h := checkout_confirm ADMIN_IDS send_ok fails now in
  let r := h c (db, fsm) in
  guarded checkout_confirm_filter h c (db, fsm) = Ran r
  ∧ ((∃ f, read_fields (data fsm) = inl f ∧ err r = None
           ∧ post r = (committed u f now db, clear fsm))
     ∨ (err r ≠ None ∧ post r = (db, fsm) ∧ out r = []))
  ∧ (∀ f, ∃ o its,
        orders (committed u f now db) = orders db ++ [o]
        ∧ order_items (committed u f now db) = order_items db ++ its
        ∧ o_id o = orders_seq db + 1 ∧ o_user_id o = user_id u
        ∧ o_total o = cart_total db (user_id u)
        ∧ o_total o = py_sum ((λ it, oi_qty it * oi_price it) <$> its)
        ∧ Forall2 (λ row it,
             oi_order_id it = orders_seq db + 1 ∧ oi_product_id it = i_pid row
             ∧ oi_title it = i_title row ∧ oi_price it = i_price row
             ∧ oi_variant it = i_variant row ∧ oi_qty it = i_qty row)
            (cart_items db (user_id u)) its
        ∧ (∀ k q, cart (committed u f now db) !! k = Some q → k.1.1 ≠ user_id u)
        ∧ products (committed u f now db) = products db)
  ∧ (fails 0%nat = false → fails 1%nat = true → err r ≠ None ∧ post r = (db, fsm))
  ∧ ((∀ n, fails n = false) → ∀ f, read_fields (data fsm) = inl f →
       err r = None ∧ post r = (committed u f now db, clear fsm)).
Proof.
  intros Hfilter Hne u h r.
  pose proof (checkout_confirm_cases ADMIN_IDS send_ok fails now c db fsm Hne) as Hcases.
  fold u h r in Hcases. simpl in Hcases.
  split; [unfold guarded; by rewrite Hfilter|]. split; [|split; [|split]].
  - destruct (read_fields (data fsm)) as [f|e].
    + destruct Hcases as [Hr | Hr]; rewrite Hr; [right; by cbn|]. left. by exists f.
    + rewrite Hcases. right. by cbn.
  - intros f. apply committed_rows.
  - intros _ H1. unfold r, h, checkout_confirm.
    destruct (cart_items db (user_id (c_from_user c))) as [|i l]; [done|].
    destruct (read_fields (data fsm)) as [f|e]; [|done].
    by rewrite commit_block_fails_after_order.
  - intros Hok f Hf. unfold r, h, checkout_confirm.
    pose proof (commit_block_ok fails now (c_from_user c) f db (λ i _, Hok i)) as Hc.
    destruct (cart_items db (user_id (c_from_user c))) as [|i l]; [done|].
    by rewrite Hf, Hc.
Qed.

Lemma order_commit_atomic_witness :
  let fails := λ n : nat, bool_decide (n = 1%nat) in
  let r := checkout_confirm [Some 5] (λ _ _, true) fails (utf8 "2024-05-01 10:00:00")
             (Sample.click "checkout:confirm") (Sample.shop, Sample_filled) in
  checkout_confirm_filter (Sample.click "checkout:confirm") (Sample.shop, Sample_filled) = true
  ∧ cart_items Sample.shop 7 ≠ []
  ∧ err r ≠ None ∧ post r = (Sample.shop, Sample_filled).
Proof.
  intros fails r.
  assert (Hne : cart_items Sample.shop (user_id (c_from_user (Sample.click "checkout:confirm"))) ≠ [])
    by (vm_compute; discriminate).
  split; [reflexivity|]. split; [exact Hne|].
  pose proof (order_commit_atomic [Some 5] (λ _ _, true) fails (utf8 "2024-05-01 10:00:00")
                (Sample.click "checkout:confirm") Sample.shop Sample_filled eq_refl Hne)
    as (_ & _ & _ & Hfail & _).
  apply Hfail; reflexivity.
Defined.

(** C2. When the listing of the user is empty at the moment confirm is
    pressed in the [Checkout.confirm] state, the handler writes nothing
    (no order, no item, cart as it was), shows the alert "Кошик порожній",
    raises nothing and leaves the session in [Checkout.confirm] with its
    data, where the cancel button is still handled and clears it. *)
Theorem confirm_on_empty_cart_aborts (ADMIN_IDS : list (option Z)) (send_ok : nat → Z → bool)
    (fails : nat → bool) (now : str) (c : CallbackQuery) (db : DB) (fsm : FSMContext) :
  checkout_confirm_filter c (db, fsm) = true →
  cart_items db (user_id (c_from_user c)) = [] →
  let h := checkout_confirm ADMIN_IDS send_ok fails now in
  let r := h c (db, fsm) in
  guarded checkout_confirm_filter h c (db, fsm) = Ran r
  ∧ post r = (db, fsm)
  ∧ out r = [answer (utf8 "Кошик порожній") true]
  ∧ err r = None
  ∧ state (post r).2 = Some Checkout_confirm
  ∧ (∀ c', c_data c' = utf8 "checkout:cancel" →
       ∃ r', guarded checkout_cancel_filter checkout_cancel c' (post r).2 = Ran r'
             ∧ state (post r') = None ∧ data (post r') = ∅ ∧ err r' = None).
Proof.
  intros Hfilter Hempty h r.
  assert (Hr : r = ret (db, fsm) [answer (utf8 "Кошик порожній") true])
    by (by apply checkout_confirm_empty).
  assert (Hstate : state fsm = Some Checkout_confirm).
  { unfold checkout_confirm_filter in Hfilter. simpl in Hfilter.
    apply andb_prop in Hfilter as [H _]. by apply bool_decide_eq_true in H. }
  split; [unfold guarded; by rewrite Hfilter|]. rewrite Hr.
  unfold ret. cbn [post out err snd].
  split; [reflexivity|]. split; [reflexivity|]. split; [reflexivity|].
  split; [exact Hstate|].
  intros c' Hc'. exists (checkout_cancel c' fsm). split.
  - unfold guarded, checkout_cancel_filter. rewrite Hstate, Hc'.
    by rewrite !bool_decide_eq_true_2.
  - unfold checkout_cancel, ret, clear. cbn [post err state data]. done.
Qed.

Lemma confirm_on_empty_cart_aborts_witness :
  let db := Sample.store Sample.catalog ∅ in
  let r := checkout_confirm [Some 5] (λ _ _, true) (λ _, false) (utf8 "2024-05-01 10:00:00")
             (Sample.click "checkout:confirm") (db, Sample_filled) in
  checkout_confirm_filter (Sample.click "checkout:confirm") (db, Sample_filled) = true
  ∧ cart_items db 7 = []
  ∧ post r = (db, Sample_filled) ∧ out r = [answer (utf8 "Кошик порожній") true].
Proof.
  intros db r.
  pose proof (confirm_on_empty_cart_aborts [Some 5] (λ _ _, true) (λ _, false)
                (utf8 "2024-05-01 10:00:00") (Sample.click "checkout:confirm")
                db Sample_filled eq_refl eq_refl) as (_ & Hpost & Hout & _).
  split; [reflexivity|]. split; [reflexivity|]. split; [exact Hpost|exact Hout].
Defined.

(** C3, as amended.  A confirm that goes through deletes every cart row
    of the committing user, those of the snapshot and those outside it
    alike; the order holds the rows of the snapshot and nothing else; the
    cart rows of other users are unchanged. *)
Theorem order_commit_clears_whole_cart (ADMIN_IDS : list (option Z))
    (send_ok : nat → Z → bool) (fails : nat → bool) (now : str)
    (c : CallbackQuery) (db : DB) (fsm : FSMContext) :
  cart_items db (user_id (c_from_user c)) ≠ [] →
  let u := user_id (c_from_user c) in
  let r := checkout_confirm ADMIN_IDS send_ok fails now c (db, fsm) in
  err r = None →
  (∀ pid variant, cart (post r).1 !! (u, pid, variant) = None)
  ∧ (∀ k, k.1.1 ≠ u → cart (post r).1 !! k = cart db !! k)
  ∧ order_items (post r).1
    = order_items db ++ (order_item_of (orders_seq db + 1) <$> cart_items db u).
Proof.
  intros Hne u r Herr. unfold r in *. clear r.
  pose proof (checkout_confirm_cases ADMIN_IDS send_ok fails now c db fsm Hne) as Hcases.
  cbv zeta in Hcases.
  destruct (read_fields (data fsm)) as [f|e].
  - destruct Hcases as [Hr|Hr]; rewrite Hr in Herr |- *; [discriminate Herr|].
    unfold ret. cbn [post fst].
    split; [|split; [|reflexivity]].
    + intros pid variant. rewrite committed_cart. by rewrite decide_True.
    + intros k Hk. rewrite committed_cart. by rewrite decide_False.
  - rewrite Hcases in Herr. discriminate Herr.
Qed.

Lemma order_commit_clears_whole_cart_witness :
  let r := checkout_confirm [Some 5] (λ _ _, true) (λ _, false) (utf8 "2024-05-01 10:00:00")
             (Sample.click "checkout:confirm") (Sample_shop_b_off, Sample_filled) in
  cart_items Sample_shop_b_off 7 ≠ [] ∧ err r = None
  ∧ cart (post r).1 !! (7, 2, utf8 "M") = None
  ∧ length (order_items (post r).1) = 1%nat.
Proof.
  intros r.
  assert (Hne : cart_items Sample_shop_b_off
                  (user_id (c_from_user (Sample.click "checkout:confirm"))) ≠ [])
    by (vm_compute; discriminate).
  pose proof (order_commit_clears_whole_cart [Some 5] (λ _ _, true) (λ _, false)
                (utf8 "2024-05-01 10:00:00") (Sample.click "checkout:confirm")
                Sample_shop_b_off Sample_filled Hne eq_refl) as (Hgone & _ & Hitems).
  split; [exact Hne|]. split; [reflexivity|]. split; [apply Hgone|].
  unfold r. rewrite Hitems. reflexivity.
Defined.

(** C3, as stated, fails: product 2 is inactive, the cart row
    (7, 2, "M") is not part of the snapshot, and the commit deletes it. *)
Lemma order_commit_drops_unlisted_row :
  let r := checkout_confirm [Some 5] (λ _ _, true) (λ _, false) (utf8 "2024-05-01 10:00:00")
             (Sample.click "checkout:confirm") (Sample_shop_b_off, Sample_filled) in
  err r = None
  ∧ ¬ clears_snapshot_only Sample.buyer Sample_shop_b_off (post r).1.
Proof.
  intros r. split; [reflexivity|]. intros Hclaim.
  specialize (Hclaim 2 (utf8 "M") 1 eq_refl).
  assert (Hgone : cart (post r).1 !! (user_id Sample.buyer, 2, utf8 "M") = None)
    by reflexivity.
  rewrite Hgone in Hclaim. enough (None = Some 1) by discriminate. apply Hclaim.
  intros row Hrow [Hpid _].
  apply elem_of_cart_items in Hrow as (p & _ & Hp & Ha & _).
  rewrite Hpid in Hp. vm_compute in Hp. injection Hp as <-. vm_compute in Ha. discriminate.
Qed.

(** ** The notice does not touch the commit *)

Lemma shown_app (l1 l2 : list Effect) : shown (l1 ++ l2) = shown l1 ++ shown l2.
Proof. apply filter_app. Qed.

Lemma checkout_confirm_send_irrelevant (ADMIN_IDS : list (option Z))
    (send_ok send_ok' : nat → Z → bool) (fails : nat → bool) (now : str)
    (c : CallbackQuery) (s : DB * FSMContext) :
  let r := checkout_confirm ADMIN_IDS send_ok fails now c s in
  let r' := checkout_confirm ADMIN_IDS send_ok' fails now c s in
  post r' = post r ∧ err r' = err r ∧ shown (out r') = shown (out r).
Proof.
  unfold checkout_confirm. destruct s as [db fsm].
  destruct (cart_items db (user_id (c_from_user c))) as [|i l]; [done|].
  destruct (read_fields (data fsm)) as [f|e]; [|done].
  destruct (commit_block _ _ _ _ _ _ _) as [[db' id]|e]; [|done].
  unfold ret. cbn [post out err]. split; [reflexivity|]. split; [reflexivity|].
  by rewrite !shown_app, !shown_notify.
Qed.

(** C10. After a confirm that committed the order: the handler has tried
    the usable operator identities of [ADMIN_IDS] in order, one call of
    [send_message] each, up to the first that went through, and has tried
    the chat of the order exactly when none did (in particular when the list
    is empty or holds only [None] and 0); every failed call is followed by
    its log line and nothing else; the user is shown the confirmation and
    nothing about delivery; database, session, exception and what the user
    is shown are the same whatever the deliveries do. *)
Theorem notice_best_effort (ADMIN_IDS : list (option Z)) (send_ok : nat → Z → bool)
    (fails : nat → bool) (now : str) (c : CallbackQuery) (db : DB) (fsm : FSMContext) :
  let u := c_from_user c in
  let r := checkout_confirm ADMIN_IDS send_ok fails now c (db, fsm) in
  cart_items db (user_id u) ≠ [] →
  err r = None →
  ∃ f tr,
    read_fields (data fsm) = inl f
    ∧ post r = (committed u f now db, clear fsm)
    ∧ out r = tr ++ [message_answer (OrderPlaced (orders_seq db + 1));
                     answer (utf8 "Готово ✅") false]
    ∧ first_reachable ADMIN_IDS send_ok (c_chat_id c)
        (admin_text u f (cart_items db (user_id u)) (cart_total db (user_id u))
           (orders_seq db + 1)) tr
    ∧ (usable ADMIN_IDS = [] → ∃ ok text,
         tr = [send_message (c_chat_id c) text ok;
               print (if ok then FallbackSent (c_chat_id c) else FallbackFailed)])
    ∧ shown (out r) = [message_answer (OrderPlaced (orders_seq db + 1));
                       answer (utf8 "Готово ✅") false]
    ∧ ∀ send_ok',
        let r' := checkout_confirm ADMIN_IDS send_ok' fails now c (db, fsm) in
        post r' = post r ∧ err r' = err r ∧ shown (out r') = shown (out r).
Proof.
  intros u r Hne Herr. unfold r in *. clear r.
  pose proof (checkout_confirm_cases ADMIN_IDS send_ok fails now c db fsm Hne) as Hcases.
  cbv zeta in Hcases.
  destruct (read_fields (data fsm)) as [f|e].
  - destruct Hcases as [Hr|Hr]; [rewrite Hr in Herr; discriminate Herr|].
    pose proof (λ send_ok', checkout_confirm_send_irrelevant ADMIN_IDS send_ok send_ok'
                               fails now c (db, fsm)) as Hirr.
    cbv zeta in Hirr. rewrite Hr in Hirr.
    exists f. eexists. split; [reflexivity|]. rewrite Hr.
    unfold ret in *. cbn [post out err] in *.
    split; [reflexivity|]. split; [reflexivity|].
    pose proof (notify_first_reachable send_ok
                  (admin_text u f (cart_items db (user_id u)) (cart_total db (user_id u))
                     (orders_seq db + 1)) ADMIN_IDS (c_chat_id c)) as Hshape.
    split; [exact Hshape|]. split; [|split].
    + intros Hnone. destruct Hshape as [(pre & a & rest & Hus & _)|(_ & ok & _ & Htr)].
      * rewrite Hnone in Hus. by destruct pre.
      * rewrite Hnone in Htr. exists ok. eexists. exact Htr.
    + unfold confirmed_trace. by rewrite shown_app, shown_notify.
    + exact Hirr.
  - rewrite Hcases in Herr. discriminate Herr.
Qed.

Lemma notice_best_effort_witness :
  let send_ok := λ (n : nat) (chat : Z), bool_decide (chat = 6) in
  let r := checkout_confirm [Some 0; None; Some 5; Some 6; Some 8] send_ok (λ _, false)
             (utf8 "2024-05-01 10:00:00") (Sample.click "checkout:confirm")
             (Sample.shop, Sample_filled) in
  cart_items Sample.shop 7 ≠ [] ∧ err r = None
  ∧ shown (out r) = [message_answer (OrderPlaced 1); answer (utf8 "Готово ✅") false].
Proof.
  intros send_ok r.
  assert (Hne : cart_items Sample.shop
                  (user_id (c_from_user (Sample.click "checkout:confirm"))) ≠ [])
    by (vm_compute; discriminate).
  pose proof (notice_best_effort [Some 0; None; Some 5; Some 6; Some 8] send_ok (λ _, false)
                (utf8 "2024-05-01 10:00:00") (Sample.click "checkout:confirm")
                Sample.shop Sample_filled Hne eq_refl)
    as (f & tr & _ & _ & _ & _ & _ & Hshown & _).
  split; [exact Hne|]. split; [reflexivity|]. exact Hshown.
Defined.

(** ** Text helpers *)

Lemma startswith_app (s p : str) : startswith s p = true ↔ ∃ rest, s = p ++ rest.
Proof.
  revert s. induction p as [|ch p IH]; intros s; simpl.
  - split; [intros _; by exists s|done].
  - destruct s as [|d s]; [split; [done|by intros [? ?]]|].
    rewrite andb_true_iff, bool_decide_eq_true, IH. split.
    + intros [-> [rest ->]]. by exists rest.
    + intros [rest [= -> ->]]. eauto.
Qed.

Lemma split_nonempty (sep : N) (s : str) : ∃ f fs, split sep s = f :: fs.
Proof.
  induction s as [|ch s (f & fs & IH)]; simpl; [eauto|].
  destruct (bool_decide (ch = sep)); [eauto|]. rewrite IH. eauto.
Qed.

(** A field without separator in front of a separator is the first field. *)
Lemma split_field (sep : N) (f s : str) :
  sep ∉ f → split sep (f ++ sep :: s) = f :: split sep s.
Proof.
  induction f as [|ch f IH]; intros Hf; simpl.
  - by rewrite bool_decide_eq_true_2.
  - rewrite bool_decide_eq_false_2 by (intros ->; apply Hf; left).
    rewrite IH; [done|]. intros ?. apply Hf. by right.
Qed.

Lemma split_np_type (rest : str) :
  ∃ token fs, split colon rest = token :: fs
              ∧ split colon (utf8 "np:type:" ++ rest) !! 2%nat = Some token.
Proof.
  destruct (split_nonempty colon rest) as (token & fs & Hrest).
  exists token, fs. split; [done|].
  change (utf8 "np:type:" ++ rest)
    with (utf8 "np" ++ colon :: (utf8 "type" ++ colon :: rest)).
  rewrite !split_field, Hrest; [done|..]; no_colon.
Qed.

Lemma split_pay (rest : str) :
  ∃ token fs, split colon rest = token :: fs
              ∧ split colon (utf8 "pay:" ++ rest) !! 1%nat = Some token.
Proof.
  destruct (split_nonempty colon rest) as (token & fs & Hrest).
  exists token, fs. split; [done|].
  change (utf8 "pay:" ++ rest) with (utf8 "pay" ++ colon :: rest).
  rewrite split_field, Hrest; [done|]. no_colon.
Qed.

Lemma filter_lstrip (P : N → Prop) `{∀ ch, Decision (P ch)} (s : str) :
  (∀ ch, py_isspace ch = true → ¬ P ch) → filter P (lstrip s) = filter P s.
Proof.
  intros Hsp. induction s as [|ch s IH]; [done|]. simpl.
  destruct (py_isspace ch) eqn:Hch; [|done].
  rewrite IH. by rewrite filter_cons_False by auto.
Qed.

(** Stripping does not change what a filter keeps when the filter keeps
    no white space. *)
Lemma filter_strip (P : N → Prop) `{∀ ch, Decision (P ch)} (s : str) :
  (∀ ch, py_isspace ch = true → ¬ P ch) → filter P (strip s) = filter P s.
Proof.
  intros Hsp. unfold strip.
  rewrite filter_reverse, filter_lstrip, filter_reverse, filter_lstrip by done.
  apply reverse_involutive.
Qed.

(** ** The choice steps *)

(** C4, as amended.  In [Checkout.np_type] the handler runs for every
    callback whose data starts with "np:type:", whatever follows, and only
    for those; it stores the third field of the data as it came and moves
    to [Checkout.np_point].  In [Checkout.payment] the handler runs for
    every callback whose data starts with "pay:", and only for those; it
    stores cash on delivery for the token "cod" and prepayment for every
    other token and moves to [Checkout.comment].  The four buttons store
    branch, locker, cash on delivery and prepayment.  A callback the
    filters reject is not handled by the step. *)
Theorem choice_steps_accept_by_prefix (c : CallbackQuery) (fsm : FSMContext) :
  (co_np_type_filter c fsm = true ↔
     state fsm = Some Checkout_np_type ∧ ∃ rest, c_data c = utf8 "np:type:" ++ rest)
  ∧ (co_np_type_filter c fsm = true →
       ∃ token r,
         split colon (c_data c) !! 2%nat = Some token
         ∧ guarded co_np_type_filter co_np_type c fsm = Ran r
         ∧ err r = None
         ∧ state (post r) = next_state Checkout_np_type
         ∧ data (post r) = <["np_type" := token]> (data fsm)
         ∧ (c_data c = utf8 "np:type:branch" → token = utf8 "branch")
         ∧ (c_data c = utf8 "np:type:locker" → token = utf8 "locker"))
  ∧ (co_np_type_filter c fsm = false →
       guarded co_np_type_filter co_np_type c fsm = Skipped)
  ∧ (co_payment_filter c fsm = true ↔
       state fsm = Some Checkout_payment ∧ ∃ rest, c_data c = utf8 "pay:" ++ rest)
  ∧ (co_payment_filter c fsm = true →
       ∃ token r,
         split colon (c_data c) !! 1%nat = Some token
         ∧ guarded co_payment_filter co_payment c fsm = Ran r
         ∧ err r = None
         ∧ state (post r) = next_state Checkout_payment
         ∧ data (post r)
           = <["payment" := if decide (token = utf8 "cod") then cash_on_delivery
                            else prepayment]> (data fsm)
         ∧ (c_data c = utf8 "pay:cod" → token = utf8 "cod")
         ∧ (c_data c = utf8 "pay:prepay" → token = utf8 "prepay"))
  ∧ (co_payment_filter c fsm = false →
       guarded co_payment_filter co_payment c fsm = Skipped).
Proof.
  assert (Hnp : co_np_type_filter c fsm = true ↔
     state fsm = Some Checkout_np_type ∧ ∃ rest, c_data c = utf8 "np:type:" ++ rest).
  { unfold co_np_type_filter. by rewrite andb_true_iff, bool_decide_eq_true, startswith_app. }
  assert (Hpay : co_payment_filter c fsm = true ↔
     state fsm = Some Checkout_payment ∧ ∃ rest, c_data c = utf8 "pay:" ++ rest).
  { unfold co_payment_filter. by rewrite andb_true_iff, bool_decide_eq_true, startswith_app. }
  split; [exact Hnp|]. split; [|split; [|split; [exact Hpay|split]]].
  - intros Hf. pose proof Hf as Hf'. apply Hnp in Hf' as [_ [rest Hdata]].
    destruct (split_np_type rest) as (token & fs & Hrest & Htok).
    exists token. unfold guarded. rewrite Hf. unfold co_np_type.
    rewrite Hdata, Htok. eexists. split; [done|]. split; [reflexivity|].
    assert (Hbutton : ∀ t, utf8 "np:type:" ++ rest = utf8 "np:type:" ++ t →
                        split colon t = [t] → token = t).
    { intros t Ht Hsplit. apply app_inv_head in Ht. subst rest. congruence. }
    split; [by destruct (decide (token = utf8 "branch"))|].
    split; [by destruct (decide (token = utf8 "branch"))|].
    split; [by destruct (decide (token = utf8 "branch"))|].
    split; intros Hb; by apply Hbutton.
  - intros Hf. unfold guarded. by rewrite Hf.
  - intros Hf. pose proof Hf as Hf'. apply Hpay in Hf' as [_ [rest Hdata]].
    destruct (split_pay rest) as (token & fs & Hrest & Htok).
    exists token. unfold guarded. rewrite Hf. unfold co_payment.
    rewrite Hdata, Htok. eexists. split; [done|]. split; [reflexivity|].
    assert (Hbutton : ∀ t, utf8 "pay:" ++ rest = utf8 "pay:" ++ t →
                        split colon t = [t] → token = t).
    { intros t Ht Hsplit. apply app_inv_head in Ht. subst rest. congruence. }
    split; [reflexivity|]. split; [reflexivity|]. split; [reflexivity|].
    split; intros Hb; by apply Hbutton.
  - intros Hf. unfold guarded. by rewrite Hf.
Qed.

Lemma choice_steps_accept_by_prefix_witness :
  co_np_type_filter (Sample.click "np:type:locker") (Sample_waiting Checkout_np_type) = true
  ∧ ∃ r, guarded co_np_type_filter co_np_type
           (Sample.click "np:type:locker") (Sample_waiting Checkout_np_type) = Ran r
         ∧ state (post r) = Some Checkout_np_point
         ∧ data (post r) = <["np_type" := utf8 "locker"]> ∅.
Proof.
  split; [reflexivity|].
  pose proof (choice_steps_accept_by_prefix (Sample.click "np:type:locker")
                (Sample_waiting Checkout_np_type)) as (_ & Hrun & _).
  destruct (Hrun eq_refl) as (token & r & _ & Hr & _ & Hstate & Hdata & _ & Hlocker).
  exists r. split; [exact Hr|]. split; [exact Hstate|].
  rewrite Hdata, (Hlocker eq_refl). reflexivity.
Defined.

(** C4, as stated, fails: "np:type:drone" is none of the two delivery
    buttons and "pay:bitcoin" none of the two payment buttons; both are
    handled, stored (the second as prepayment) and move the session on. *)
Lemma choice_steps_not_closed :
  ¬ delivery_choice_closed (Sample.click "np:type:drone") (Sample_waiting Checkout_np_type)
  ∧ ¬ payment_choice_closed (Sample.click "pay:bitcoin") (Sample_waiting Checkout_payment)
  ∧ post (co_np_type (Sample.click "np:type:drone") (Sample_waiting Checkout_np_type))
    = {| state := Some Checkout_np_point; data := <["np_type" := utf8 "drone"]> ∅ |}
  ∧ post (co_payment (Sample.click "pay:bitcoin") (Sample_waiting Checkout_payment))
    = {| state := Some Checkout_comment; data := <["payment" := prepayment]> ∅ |}.
Proof.
  split; [|split; [|split; reflexivity]].
  - intros Hclosed. unfold delivery_choice_closed in Hclosed.
    assert (Hran : guarded co_np_type_filter co_np_type (Sample.click "np:type:drone")
                     (Sample_waiting Checkout_np_type) ≠ Skipped) by (vm_compute; discriminate).
    apply Hran, Hclosed. vm_compute.
    intros H; repeat (apply elem_of_cons in H as [H|H]; [discriminate H|]).
    by apply elem_of_nil in H.
  - intros Hclosed. unfold payment_choice_closed in Hclosed.
    assert (Hran : guarded co_payment_filter co_payment (Sample.click "pay:bitcoin")
                     (Sample_waiting Checkout_payment) ≠ Skipped) by (vm_compute; discriminate).
    apply Hran, Hclosed. vm_compute.
    intros H; repeat (apply elem_of_cons in H as [H|H]; [discriminate H|]).
    by apply elem_of_nil in H.
Qed.

(** ** The phone step *)

(** Two filters that agree on the elements of a list keep the same. *)
Lemma filter_agree {A} (P Q R : A → Prop) `{∀ x, Decision (P x)} `{∀ x, Decision (Q x)}
    (l : list A) :
  Forall R l → (∀ x, R x → (P x ↔ Q x)) → filter P l = filter Q l.
Proof.
  intros Hl Hagree. induction Hl as [|x l Hx _ IH]; [done|].
  rewrite !filter_cons, IH. specialize (Hagree x Hx).
  destruct (decide (P x)), (decide (Q x)); tauto.
Qed.

Section PhoneStep.
Variable isdigit : N → bool.
(** No white space character is a decimal digit. *)
Hypothesis space_not_digit : ∀ ch, py_isspace ch = true → isdigit ch = false.

Lemma plus_not_space : py_isspace plus_sign = false.
Proof. reflexivity. Qed.

Lemma keep_digits_plus_strip (t : str) :
  keep_digits_plus isdigit (strip t) = keep_digits_plus isdigit t.
Proof.
  unfold keep_digits_plus. apply filter_strip. intros ch Hsp [Hd| ->].
  - rewrite space_not_digit in Hd by done. discriminate.
  - rewrite plus_not_space in Hsp. discriminate.
Qed.

Lemma keep_digits_of_residue (t : str) :
  keep_digits isdigit (keep_digits_plus isdigit t) = keep_digits isdigit t.
Proof. unfold keep_digits, keep_digits_plus. apply list_filter_filter_l. auto. Qed.

Lemma co_phone_cases (m : Message) (fsm : FSMContext) (t : str) :
  m_text m = Some t →
  co_phone isdigit m fsm
  = if decide (length (keep_digits isdigit t) < 9)%nat
    then ret fsm [message_answer BadPhone]
    else ret (set_state Checkout_city
                (update_data "phone" (keep_digits_plus isdigit t) fsm))
             [message_answer AskCity].
Proof.
  intros Ht. unfold co_phone. rewrite Ht.
  by rewrite keep_digits_plus_strip, keep_digits_of_residue.
Qed.
End PhoneStep.

(** C5. For a text message handled in [Checkout.phone], with [t] its
    text and the residue what is left of [t] when every character that is
    neither a digit nor "+" is removed: when the residue holds 9 digits or
    more, the residue is stored as the phone, nothing else of the session
    changes and the state is the next one, [Checkout.city]; when it holds
    fewer, nothing is stored, the state stays [Checkout.phone] and the
    user is asked again.  "12345" is rejected and "0981234567" is stored
    and moves on. *)
Theorem phone_step_nine_digits (isdigit : N → bool) (m : Message) (fsm : FSMContext) (t : str) :
  (∀ ch, py_isspace ch = true → isdigit ch = false) →
  (∀ ch, (ch < 128)%N → isdigit ch = ascii_digit ch) →
  state fsm = Some Checkout_phone →
  m_text m = Some t →
  let residue := filter (λ ch, isdigit ch = true ∨ ch = plus_sign) t in
  let digits := length (filter (λ ch, isdigit ch = true) residue) in
  let r := co_phone isdigit m fsm in
  guarded (in_state Checkout_phone) (co_phone isdigit) m fsm = Ran r
  ∧ err r = None
  ∧ digits = length (filter (λ ch, isdigit ch = true) t)
  ∧ ((9 ≤ digits)%nat →
       state (post r) = next_state Checkout_phone
       ∧ state (post r) = Some Checkout_city
       ∧ data (post r) = <["phone" := residue]> (data fsm)
       ∧ out r = [message_answer AskCity])
  ∧ ((digits < 9)%nat →
       post r = fsm ∧ state (post r) = Some Checkout_phone
       ∧ out r = [message_answer BadPhone])
  ∧ (∀ fsm', post (co_phone isdigit (Sample.text "12345") fsm') = fsm')
  ∧ (∀ fsm', post (co_phone isdigit (Sample.text "0981234567") fsm')
             = set_state Checkout_city (update_data "phone" (utf8 "0981234567") fsm')).
Proof.
  intros Hspace Hascii Hstate Ht residue digits r.
  assert (Hdigits : digits = length (keep_digits isdigit t)).
  { unfold digits, residue. fold (keep_digits_plus isdigit t).
    fold (keep_digits isdigit (keep_digits_plus isdigit t)).
    by rewrite keep_digits_of_residue. }
  assert (Hr : r = co_phone isdigit m fsm) by reflexivity.
  rewrite (co_phone_cases isdigit Hspace m fsm t Ht), <- Hdigits in Hr.
  assert (Hex : ∀ s fsm', Forall (λ ch, (ch < 128)%N) (utf8 s) →
            co_phone isdigit (Sample.text s) fsm'
            = if decide (length (keep_digits ascii_digit (utf8 s)) < 9)%nat
              then ret fsm' [message_answer BadPhone]
              else ret (set_state Checkout_city
                          (update_data "phone" (keep_digits_plus ascii_digit (utf8 s)) fsm'))
                       [message_answer AskCity]).
  { intros s fsm' Hs. rewrite (co_phone_cases isdigit Hspace (Sample.text s) fsm' (utf8 s) eq_refl).
    assert (Hd : keep_digits isdigit (utf8 s) = keep_digits ascii_digit (utf8 s)).
    { unfold keep_digits. apply (filter_agree _ _ _ _ Hs).
      intros ch Hch. by rewrite (Hascii ch Hch). }
    assert (Hp : keep_digits_plus isdigit (utf8 s) = keep_digits_plus ascii_digit (utf8 s)).
    { unfold keep_digits_plus. apply (filter_agree _ _ _ _ Hs).
      intros ch Hch. by rewrite (Hascii ch Hch). }
    by rewrite Hd, Hp. }
  split; [unfold guarded, in_state; by rewrite Hstate, bool_decide_eq_true_2|].
  split; [rewrite Hr; by destruct (decide _)|].
  split; [by rewrite Hdigits|]. split; [|split; [|split]].
  - intros Hge. rewrite Hr, decide_False by lia. done.
  - intros Hlt. rewrite Hr, decide_True by lia. done.
  - intros fsm'. rewrite Hex; [reflexivity|]. vm_compute. repeat constructor.
  - intros fsm'. rewrite Hex; [reflexivity|]. vm_compute. repeat constructor.
Qed.

Lemma ascii_digit_not_space (ch : N) : py_isspace ch = true → ascii_digit ch = false.
Proof.
  unfold py_isspace, ascii_digit.
  rewrite !orb_true_iff, !andb_true_iff, !N.leb_le, !N.eqb_eq, andb_false_iff, !N.leb_gt.
  lia.
Qed.

Lemma phone_step_nine_digits_witness :
  let m := Sample.text "+38 (098) 123-45-67" in
  let r := co_phone ascii_digit m (Sample_waiting Checkout_phone) in
  state (Sample_waiting Checkout_phone) = Some Checkout_phone
  ∧ m_text m = Some (utf8 "+38 (098) 123-45-67")
  ∧ state (post r) = Some Checkout_city
  ∧ data (post r) = <["phone" := utf8 "+380981234567"]> ∅.
Proof.
  intros m r.
  pose proof (phone_step_nine_digits ascii_digit m (Sample_waiting Checkout_phone)
                (utf8 "+38 (098) 123-45-67") ascii_digit_not_space (λ _ _, eq_refl)
                eq_refl eq_refl) as (_ & _ & _ & Hok & _).
  split; [reflexivity|]. split; [reflexivity|].
  destruct Hok as (_ & Hstate & Hdata & _); [vm_compute; lia|].
  split; [exact Hstate|]. etransitivity; [exact Hdata|reflexivity].
Defined.

(** * Further properties *)

(** ** What one cart line adds to the total *)

Lemma line_amount_active (db : DB) (u pid : Z) (v : str) (q : Z) (p : Product) :
  active_product db pid = Some p → line_amount db u ((u, pid, v), q) = q * price p.
Proof.
  unfold active_product, line_amount. simpl. intros Hp.
  rewrite decide_True by done.
  destruct (products db !! pid) as [p'|]; [|done].
  destruct (decide (active p' = 1)); [|done]. by injection Hp as ->.
Qed.

Lemma line_amount_other_user (db : DB) (u : Z) (k : CartKey) (q : Z) :
  k.1.1 ≠ u → line_amount db u (k, q) = 0.
Proof.
  destruct k as [[u' pid] v]. unfold line_amount. simpl. intros Hne.
  by rewrite decide_False.
Qed.

Lemma cart_total_insert_fresh (db : DB) (k : CartKey) (q u : Z) :
  cart db !! k = None →
  cart_total (set_cart db (<[k := q]> (cart db))) u = line_amount db u (k, q) + cart_total db u.
Proof.
  intros Hk. rewrite !cart_total_amounts. unfold cart_join, line_amount.
  change (cart (set_cart db (<[k := q]> (cart db)))) with (<[k := q]> (cart db)).
  change (join_row (set_cart db (<[k := q]> (cart db))) u) with (join_row db u).
  rewrite (py_sum_Permutation _ (amount <$> omap (join_row db u) ((k, q) :: map_to_list (cart db)))).
  - cbn [omap list_omap]. destruct (join_row db u (k, q)) as [r|].
    + by rewrite fmap_cons, py_sum_cons.
    + lia.
  - by rewrite (map_to_list_insert (cart db) k q Hk).
Qed.

Lemma cart_total_set_line (db : DB) (k : CartKey) (q u : Z) :
  cart_total (set_cart db (<[k := q]> (cart db))) u
  = line_amount db u (k, q) + cart_total (set_cart db (delete k (cart db))) u.
Proof.
  rewrite <- (insert_delete_eq (cart db)).
  exact (cart_total_insert_fresh (set_cart db (delete k (cart db))) k q u
           (lookup_delete_eq (cart db) k)).
Qed.

Lemma cart_total_split_line (db : DB) (k : CartKey) (q u : Z) :
  cart db !! k = Some q →
  cart_total db u = line_amount db u (k, q) + cart_total (set_cart db (delete k (cart db))) u.
Proof.
  intros Hk. rewrite <- cart_total_set_line. by rewrite insert_id, set_cart_id.
Qed.

Lemma cart_total_absent_line (db : DB) (k : CartKey) (u : Z) :
  cart db !! k = None → cart_total (set_cart db (delete k (cart db))) u = cart_total db u.
Proof. intros Hk. by rewrite delete_id, set_cart_id. Qed.

(** X1. On a line that exists with a quantity of 1 or more and whose
    product is active, [+] raises the total of the user by exactly the unit
    price and [-] lowers it by exactly the unit price, also when [-] removes
    the line. *)
Theorem press_moves_total_by_price (pid : Z) (variant : str) (c : CallbackQuery)
    (db : DB) (q : Z) (p : Product) :
  let u := user_id (c_from_user c) in
  cart db !! (u, pid, variant) = Some q → 1 ≤ q →
  active_product db pid = Some p →
  cart_total (post (cart_inc pid variant c db)) u = cart_total db u + price p
  ∧ cart_total (post (cart_dec pid variant c db)) u = cart_total db u - price p.
Proof.
  intros u Hk Hq Hp.
  pose proof (cart_total_split_line db _ _ u Hk) as Hsplit.
  rewrite (line_amount_active db u pid variant q p Hp) in Hsplit. split.
  - unfold cart_inc, db_execute, sql_cart_qty_plus, ret. cbn [post]. fold u.
    replace (alter (λ q0, q0 + 1) (u, pid, variant) (cart db))
      with (<[(u, pid, variant) := q + 1]> (cart db)).
    + rewrite cart_total_set_line, (line_amount_active db u pid variant _ p Hp). lia.
    + apply map_eq. intros k'. rewrite lookup_alter, lookup_insert.
      destruct (decide ((u, pid, variant) = k')) as [<-|]; [by rewrite Hk|done].
  - unfold cart_dec. fold u. rewrite Hk. destruct (decide (q ≤ 1)).
    + unfold db_execute, sql_cart_delete, ret. cbn [post].
      assert (q = 1) as -> by lia. rewrite Hsplit. lia.
    + unfold db_execute, sql_cart_qty_minus, ret. cbn [post].
      replace (alter (λ q0, q0 - 1) (u, pid, variant) (cart db))
        with (<[(u, pid, variant) := q - 1]> (cart db)).
      * rewrite cart_total_set_line, (line_amount_active db u pid variant _ p Hp). lia.
      * apply map_eq. intros k'. rewrite lookup_alter, lookup_insert.
        destruct (decide ((u, pid, variant) = k')) as [<-|]; [by rewrite Hk|done].
Qed.

Lemma press_moves_total_by_price_witness :
  cart_total (post (cart_inc 1 [] (Sample.click "cart:inc:1:") Sample.shop)) 7 = 550
  ∧ cart_total (post (cart_dec 2 (utf8 "M") (Sample.click "cart:dec:2:M") Sample.shop)) 7 = 200.
Proof.
  split.
  - pose proof (press_moves_total_by_price 1 [] (Sample.click "cart:inc:1:") Sample.shop 2
                  (Sample.product "A" 100 [] 1) eq_refl ltac:(lia) eq_refl) as [Hinc _].
    etransitivity; [exact Hinc|reflexivity].
  - pose proof (press_moves_total_by_price 2 (utf8 "M") (Sample.click "cart:dec:2:M")
                  Sample.shop 1 (Sample.product "B" 250 [utf8 "M"] 1)
                  eq_refl ltac:(lia) eq_refl) as [_ Hdec].
    etransitivity; [exact Hdec|reflexivity].
Defined.

(** ** Adding to the cart *)

(** X2. [cart_add] on an active product.  Without variants it creates the
    line (user, product, "") with quantity 1 or raises its quantity by 1,
    touches no other line and no other table, raises the total of the user
    by the unit price and answers "Додано в кошик ✅".  With variants it
    writes nothing and offers exactly the variants of the product. *)
Theorem cart_add_active_product (pid : Z) (c : CallbackQuery) (db : DB) (p : Product) :
  active_product db pid = Some p →
  let u := user_id (c_from_user c) in
  let k := (u, pid, []) in
  let r := cart_add pid c db in
  err r = None
  ∧ (variants_json p = [] →
       cart (post r) !! k = Some (default 0 (cart db !! k) + 1)
       ∧ (∀ k', k' ≠ k → cart (post r) !! k' = cart db !! k')
       ∧ post r = set_cart db (cart (post r))
       ∧ cart_total (post r) u = cart_total db u + price p
       ∧ out r = [answer (utf8 "Додано в кошик ✅") false])
  ∧ (variants_json p ≠ [] →
       post r = db
       ∧ out r = [message_answer (ChooseVariant pid (variants_json p)); answer_empty]).
Proof.
  intros Hp u k r. unfold r, cart_add. rewrite Hp.
  destruct (variants_json p) as [|v vs] eqn:Hv.
  - unfold db_execute, sql_cart_upsert, connect. cbn [foreign_keys andb]. fold u k.
    split; [by destruct (cart db !! k)|]. split; [|done]. intros _.
    destruct (cart db !! k) as [q|] eqn:Hk; unfold ret; cbn [post out cart set_cart default].
    + split; [by rewrite lookup_insert_eq|]. split; [by intros k' Hk'; rewrite lookup_insert_ne|].
      split; [done|]. split; [|done].
      rewrite cart_total_set_line, (cart_total_split_line db k q u Hk).
      unfold k. rewrite !(line_amount_active db u pid [] _ p Hp). lia.
    + split; [by rewrite lookup_insert_eq|]. split; [by intros k' Hk'; rewrite lookup_insert_ne|].
      split; [done|]. split; [|done].
      rewrite cart_total_insert_fresh by done.
      unfold k. rewrite (line_amount_active db u pid [] _ p Hp). lia.
  - split; [done|]. split; [done|]. intros _. done.
Qed.

Lemma cart_add_active_product_witness :
  let r := cart_add 1 (Sample.click "cart:add:1") Sample.shop in
  active_product Sample.shop 1 = Some (Sample.product "A" 100 [] 1)
  ∧ cart (post r) !! (7, 1, []) = Some 3 ∧ cart_total (post r) 7 = 550.
Proof.
  intros r.
  pose proof (cart_add_active_product 1 (Sample.click "cart:add:1") Sample.shop
                (Sample.product "A" 100 [] 1) eq_refl) as (_ & Hadd & _).
  destruct (Hadd eq_refl) as (Hline & _ & _ & Htotal & _).
  split; [reflexivity|]. split.
  - etransitivity; [exact Hline|reflexivity].
  - etransitivity; [exact Htotal|reflexivity].
Defined.

(** ** Undoing a press *)

Lemma set_cart_eq (db : DB) (ct ct' : gmap CartKey Z) :
  ct' = cart db → set_cart (set_cart db ct) ct' = db.
Proof. intros ->. by destruct db. Qed.

(** X3. [-] undoes [+] and undoes an add: on a cart without zero or
    negative quantities, decrementing a line right after incrementing it,
    or right after [cart_add] created or raised it, gives back the database
    as it was.  The converse fails at quantity 1: [-] deletes the line and
    [+] does not bring it back. *)
Theorem cart_dec_undoes_inc_and_add (pid : Z) (variant : str) (c : CallbackQuery) (db : DB) :
  positive_quantities db →
  let u := user_id (c_from_user c) in
  post (cart_dec pid variant c (post (cart_inc pid variant c db))) = db
  ∧ (∀ p, active_product db pid = Some p → variants_json p = [] →
       post (cart_dec pid [] c (post (cart_add pid c db))) = db)
  ∧ (cart db !! (u, pid, variant) = Some 1 →
       cart (post (cart_inc pid variant c (post (cart_dec pid variant c db))))
         !! (u, pid, variant) = None).
Proof.
  intros Hpos u. split; [|split].
  - unfold cart_dec at 1. fold u. rewrite cart_inc_lookup, decide_True by done. fold u.
    destruct (cart db !! (u, pid, variant)) as [q|] eqn:Hk; cbn [fmap option_fmap option_map].
    + rewrite decide_False by (apply Hpos in Hk; lia).
      unfold cart_inc, db_execute, sql_cart_qty_minus, sql_cart_qty_plus, ret. cbn [post cart set_cart].
      fold u. apply set_cart_eq. rewrite alter_alter_eq. apply alter_id.
      intros x _. simpl. lia.
    + unfold cart_inc, db_execute, sql_cart_qty_plus, ret. cbn [post]. fold u.
      rewrite <- (set_cart_id db) at 1. apply set_cart_eq. apply map_eq. intros k'.
      rewrite lookup_alter.
      destruct (decide ((u, pid, variant) = k')) as [<-|]; [by rewrite Hk|done].
  - intros p Hp Hv. unfold cart_add. rewrite Hp, Hv.
    unfold db_execute, sql_cart_upsert, connect. cbn [foreign_keys andb]. fold u.
    destruct (cart db !! (u, pid, [])) as [q|] eqn:Hk; unfold ret; cbn [post];
      unfold cart_dec; fold u; cbn [cart set_cart]; rewrite lookup_insert_eq.
    + rewrite decide_False by (apply Hpos in Hk; lia).
      unfold db_execute, sql_cart_qty_minus. cbn [post cart set_cart].
      apply set_cart_eq. rewrite alter_insert_eq. apply insert_id.
      rewrite Hk. f_equal. lia.
    + rewrite decide_True by lia.
      unfold db_execute, sql_cart_delete. cbn [post cart set_cart].
      apply set_cart_eq. by rewrite delete_insert_id.
  - intros Hk. rewrite cart_inc_lookup, decide_True by done. fold u.
    rewrite cart_dec_lookup, decide_True by done. fold u. rewrite Hk.
    by rewrite decide_True by lia.
Qed.

Lemma sample_shop_positive : positive_quantities Sample.shop.
Proof.
  intros k q. unfold Sample.shop, Sample.two_lines. simpl.
  rewrite !lookup_insert_Some, lookup_empty.
  intros [[_ <-]|[_ [[_ <-]|[_ ?]]]]; [lia|lia|done].
Qed.

Lemma cart_dec_undoes_inc_and_add_witness :
  positive_quantities Sample.shop
  ∧ post (cart_dec 1 [] (Sample.click "cart:dec:1:")
            (post (cart_inc 1 [] (Sample.click "cart:dec:1:") Sample.shop))) = Sample.shop.
Proof.
  split; [exact sample_shop_positive|].
  exact (proj1 (cart_dec_undoes_inc_and_add 1 [] (Sample.click "cart:dec:1:") Sample.shop
                  sample_shop_positive)).
Defined.

(** ** Emptying the cart and removing a line *)

Lemma cart_join_same_lines (db db' : DB) (u : Z) :
  products db' = products db →
  (∀ pid v, cart db' !! (u, pid, v) = cart db !! (u, pid, v)) →
  cart_join db' u ≡ₚ cart_join db u.
Proof.
  intros Hprod Hsame. apply NoDup_Permutation; [apply NoDup_cart_join..|].
  intros r. rewrite !elem_of_cart_join, Hprod, Hsame. done.
Qed.

Lemma cart_delete_user_lookup (db : DB) (u : Z) (k : CartKey) :
  cart (sql_cart_delete_user u db) !! k = if decide (k.1.1 = u) then None else cart db !! k.
Proof.
  simpl. destruct (decide (k.1.1 = u)) as [Hk|Hk].
  - apply map_lookup_filter_None. right. intros q _. unfold cart_user. simpl. by intros ?.
  - destruct (cart db !! k) as [q|] eqn:Hq.
    + by apply map_lookup_filter_Some.
    + apply map_lookup_filter_None. by left.
Qed.

(** X4. [cart_clear] deletes every cart line of the caller, also the
    lines hidden by an inactive or missing product, and nothing else: the
    lines of the other users, their listings and totals, the products and
    the orders are as before.  Afterwards the caller's listing is empty,
    the total is 0 and [checkout_start] refuses with "Кошик порожній",
    leaving the session alone. *)
Theorem cart_clear_only_own_lines (c : CallbackQuery) (db : DB) :
  let u := user_id (c_from_user c) in
  let r := cart_clear c db in
  err r = None
  ∧ post r = set_cart db (cart (post r))
  ∧ (∀ pid v, cart (post r) !! (u, pid, v) = None)
  ∧ (∀ k, k.1.1 ≠ u → cart (post r) !! k = cart db !! k)
  ∧ (∀ u', u' ≠ u → cart_items (post r) u' ≡ₚ cart_items db u'
                     ∧ cart_total (post r) u' = cart_total db u')
  ∧ cart_items (post r) u = [] ∧ cart_total (post r) u = 0
  ∧ (∀ fsm, checkout_start c (post r) fsm = ret fsm [answer (utf8 "Кошик порожній") true]).
Proof.
  intros u r. unfold r, cart_clear, db_execute, ret. cbn [post err]. fold u.
  assert (Hown : ∀ pid v, cart (sql_cart_delete_user u db) !! (u, pid, v) = None).
  { intros pid v. rewrite cart_delete_user_lookup. by rewrite decide_True. }
  assert (Hother : ∀ k, k.1.1 ≠ u → cart (sql_cart_delete_user u db) !! k = cart db !! k).
  { intros k Hk. rewrite cart_delete_user_lookup. by rewrite decide_False. }
  assert (Hempty : cart_join (sql_cart_delete_user u db) u = []).
  { apply elem_of_nil_inv. intros row Hrow.
    apply elem_of_cart_join in Hrow as (p & Hc & _). by rewrite Hown in Hc. }
  assert (Hitems : cart_items (sql_cart_delete_user u db) u = []) by (by apply cart_items_nil).
  split; [done|]. split; [done|]. split; [exact Hown|]. split; [exact Hother|].
  split; [|split; [exact Hitems|split]].
  - intros u' Hu'.
    assert (Hperm : cart_join (sql_cart_delete_user u db) u' ≡ₚ cart_join db u').
    { apply cart_join_same_lines; [done|]. intros pid v. by apply Hother. }
    split; [by rewrite !cart_items_Permutation|].
    rewrite !cart_total_amounts. apply py_sum_Permutation. by rewrite Hperm.
  - rewrite cart_total_amounts, Hempty. reflexivity.
  - intros fsm. unfold checkout_start. fold u. by rewrite Hitems.
Qed.

(** X5. [cart_del] removes the one line it names whatever its quantity,
    touches no other line, is idempotent, and lowers the total of the user
    by quantity times unit price when the line existed with an active
    product; when the line did not exist or its product is hidden the total
    stays. *)
Theorem cart_del_removes_one_line (pid : Z) (variant : str) (c : CallbackQuery) (db : DB) :
  let u := user_id (c_from_user c) in
  let k := (u, pid, variant) in
  let r := cart_del pid variant c db in
  err r = None
  ∧ cart (post r) !! k = None
  ∧ (∀ k', k' ≠ k → cart (post r) !! k' = cart db !! k')
  ∧ post (cart_del pid variant c (post r)) = post r
  ∧ (∀ q p, cart db !! k = Some q → active_product db pid = Some p →
       cart_total (post r) u = cart_total db u - q * price p)
  ∧ (cart db !! k = None ∨ active_product db pid = None →
       cart_total (post r) u = cart_total db u).
Proof.
  intros u k r. unfold r, cart_del, db_execute, sql_cart_delete, ret. cbn [post err]. fold u k.
  split; [done|]. split; [apply lookup_delete_eq|].
  split; [by intros k' Hk'; apply lookup_delete_ne|]. split; [|split].
  - cbn [cart set_cart]. by rewrite delete_delete_eq.
  - intros q p Hk Hp. rewrite (cart_total_split_line db k q u Hk).
    unfold k. rewrite (line_amount_active db u pid variant q p Hp). lia.
  - intros [Hk|Hp]; [by apply cart_total_absent_line|].
    destruct (cart db !! k) as [q|] eqn:Hk; [|by apply cart_total_absent_line].
    rewrite (cart_total_split_line db k q u Hk).
    unfold line_amount, k. simpl. rewrite decide_True by done.
    unfold active_product in Hp. destruct (products db !! pid) as [p|]; [|lia].
    destruct (decide (active p = 1)); [done|lia].
Qed.

(** ** Deleting a product hides its lines *)

Lemma join_row_delete_product (db : DB) (u pid : Z) (kv : CartKey * Z) :
  join_row (sql_delete_product connect pid db) u kv
  = match join_row db u kv with
    | Some r => if decide (i_pid r ≠ pid) then Some r else None
    | None => None
    end.
Proof.
  destruct kv as [[[u' pid'] v] q]. simpl.
  destruct (decide (u' = u)) as [->|]; [|done].
  rewrite lookup_delete. destruct (decide (pid = pid')) as [<-|Hne].
  - destruct (products db !! pid) as [p|]; [|done].
    destruct (decide (active p = 1)); [|done].
    rewrite decide_False; [done|]. simpl. by intros ?.
  - destruct (products db !! pid') as [p|]; [|done].
    destruct (decide (active p = 1)); [|done].
    rewrite decide_True; [done|]. simpl. congruence.
Qed.

Lemma cart_join_delete_product (db : DB) (u pid : Z) :
  cart_join (sql_delete_product connect pid db) u
  = filter (λ r, i_pid r ≠ pid) (cart_join db u).
Proof.
  unfold cart_join.
  change (cart (sql_delete_product connect pid db)) with (cart db).
  induction (map_to_list (cart db)) as [|kv l IH]; [done|].
  cbn [omap list_omap]. rewrite IH, join_row_delete_product.
  destruct (join_row db u kv) as [r|]; [|done].
  destruct (decide (i_pid r ≠ pid)).
  - by rewrite filter_cons_True.
  - by rewrite filter_cons_False.
Qed.

(** X6. When an operator deletes a product, the product row is gone,
    the other products, the cart table, the orders and their items are
    untouched, and for every user the lines of that product leave the
    listing and the total drops by their amounts: the lines are hidden, not
    removed.  A user who is not an operator changes nothing. *)
Theorem admin_del_hides_lines (ADMIN_IDS : list (option Z)) (ADMIN_USERNAME : str)
    (lower : str → str) (pid : Z) (c : CallbackQuery) (db : DB) :
  let admin := is_admin_user ADMIN_IDS ADMIN_USERNAME lower
                 (user_id (c_from_user c)) (username (c_from_user c)) in
  let db' := post (admin_del ADMIN_IDS ADMIN_USERNAME lower pid c db) in
  (admin = false → db' = db)
  ∧ (admin = true →
       products db' !! pid = None
       ∧ (∀ i, i ≠ pid → products db' !! i = products db !! i)
       ∧ cart db' = cart db ∧ orders db' = orders db ∧ order_items db' = order_items db
       ∧ ∀ u, cart_items db' u ≡ₚ filter (λ r, i_pid r ≠ pid) (cart_items db u)
              ∧ cart_total db' u
                = cart_total db u
                  - py_sum (amount <$> filter (λ r, i_pid r = pid) (cart_items db u))).
Proof.
  intros admin db'. unfold db', admin_del. fold admin. split; intros Hadm; rewrite Hadm.
  - done.
  - unfold db_execute, ret. cbn [post].
    split; [apply lookup_delete_eq|]. split; [by intros i Hi; apply lookup_delete_ne|].
    split; [done|]. split; [done|]. split; [done|]. intros u.
    assert (Hperm : cart_items (sql_delete_product connect pid db) u
                    ≡ₚ filter (λ r, i_pid r ≠ pid) (cart_items db u)).
    { rewrite !cart_items_Permutation. by rewrite cart_join_delete_product. }
    split; [exact Hperm|].
    rewrite (cart_total_items (sql_delete_product connect pid db)), (cart_total_items db).
    rewrite (py_sum_filter_split amount (λ r, i_pid r = pid) (cart_items db u)).
    rewrite (py_sum_Permutation _ _ (fmap_Permutation amount _ _ Hperm)). lia.
Qed.

(** ** Invariants of the database *)

Lemma filter_none {A} (P : A → Prop) `{∀ x, Decision (P x)} (l : list A) :
  (∀ x, x ∈ l → ¬ P x) → filter P l = [].
Proof.
  intros Hl. apply elem_of_nil_inv. intros x Hx.
  apply list_elem_of_filter in Hx as [HP Hx]. by apply (Hl x).
Qed.

Lemma filter_all {A} (P : A → Prop) `{∀ x, Decision (P x)} (l : list A) :
  (∀ x, x ∈ l → P x) → filter P l = l.
Proof.
  induction l as [|x l IH]; intros Hl; [done|].
  rewrite filter_cons_True by (apply Hl; left). rewrite IH; [done|].
  intros y Hy. apply Hl. by right.
Qed.

Lemma checkout_confirm_db (ADMIN_IDS : list (option Z)) (send_ok : nat → Z → bool)
    (fails : nat → bool) (now : str) (c : CallbackQuery) (db : DB) (fsm : FSMContext) :
  let db' := (post (checkout_confirm ADMIN_IDS send_ok fails now c (db, fsm))).1 in
  db' = db ∨ ∃ f, db' = committed (c_from_user c) f now db.
Proof.
  intros db'. unfold db'.
  destruct (cart_items db (user_id (c_from_user c))) as [|i l] eqn:Hitems.
  - left. by rewrite checkout_confirm_empty.
  - assert (Hne : cart_items db (user_id (c_from_user c)) ≠ []) by (by rewrite Hitems).
    pose proof (checkout_confirm_cases ADMIN_IDS send_ok fails now c db fsm Hne) as Hcases.
    cbv zeta in Hcases. destruct (read_fields (data fsm)) as [f|e].
    + destruct Hcases as [Hr|Hr]; rewrite Hr; [by left|]. right. by exists f.
    + rewrite Hcases. by left.
Qed.

Lemma committed_consistent (u : User) (f : Fields) (now : str) (db : DB) :
  orders_consistent db → orders_consistent (committed u f now db).
Proof.
  intros (Hnodup & Hseq & Hitems & Htotals).
  destruct (committed_rows u f now db) as (o & its & Ho & Hi & Hid & _ & _ & Hsum & Hrows & _).
  assert (Hnew : ∀ it, it ∈ its → oi_order_id it = orders_seq db + 1).
  { intros it Hit. apply list_elem_of_lookup in Hit as [n Hn].
    destruct (Forall2_lookup_r _ _ _ _ _ Hrows Hn) as (row & _ & Hrow & _). exact Hrow. }
  assert (Hold : ∀ it, it ∈ order_items db → oi_order_id it ≤ orders_seq db).
  { intros it Hit. destruct (Hitems it Hit) as (o' & Ho' & <-). by apply Hseq. }
  unfold orders_consistent. rewrite Ho, Hi. cbn [orders_seq committed].
  split; [|split; [|split]].
  - rewrite fmap_app. apply NoDup_app. split; [done|]. split; [|apply NoDup_singleton].
    intros x Hx Hx'. apply list_elem_of_fmap in Hx as (o' & -> & Ho').
    apply list_elem_of_singleton in Hx'. apply Hseq in Ho'. simpl in Hx'. lia.
  - intros o' Ho'. apply elem_of_app in Ho' as [Ho'|Ho'].
    + apply Hseq in Ho'. lia.
    + apply list_elem_of_singleton in Ho'. subst o'. lia.
  - intros it Hit. apply elem_of_app in Hit as [Hit|Hit].
    + destruct (Hitems it Hit) as (o' & Ho' & Heq). exists o'. split; [|done].
      apply elem_of_app. by left.
    + exists o. split; [apply elem_of_app; right; by apply list_elem_of_singleton|].
      rewrite (Hnew it Hit). done.
  - intros o' Ho'. rewrite filter_app, fmap_app, py_sum_app.
    apply elem_of_app in Ho' as [Ho'|Ho'].
    + rewrite (filter_none _ its).
      * rewrite (Htotals o' Ho'). unfold py_sum at 3. simpl. lia.
      * intros it Hit Heq. rewrite (Hnew it Hit) in Heq. apply Hseq in Ho'. lia.
    + apply list_elem_of_singleton in Ho'. subst o'.
      rewrite (filter_none _ (order_items db)), (filter_all _ its).
      * rewrite Hsum. unfold py_sum at 2. simpl. lia.
      * intros it Hit. rewrite (Hnew it Hit). done.
      * intros it Hit Heq. apply Hold in Hit. lia.
Qed.

Section Actions.
Variables (ADMIN_IDS : list (option Z)) (ADMIN_USERNAME : str) (lower : str → str).

(** An action either leaves the order tables alone or is a commit. *)
Lemma act_order_tables (db : DB) (a : Action) (c : CallbackQuery) :
  let db' := act ADMIN_IDS ADMIN_USERNAME lower db (a, c) in
  (orders db' = orders db ∧ orders_seq db' = orders_seq db
   ∧ order_items db' = order_items db)
  ∨ ∃ f now, db' = committed (c_from_user c) f now db.
Proof.
  destruct a as [w pid| |pid|pid|send_ok fails now fsm]; cbn [act].
  - left. destruct (handle_frame w pid c db) as (ct & -> & _). done.
  - left. done.
  - left. unfold admin_toggle. destruct (is_admin_user _ _ _ _ _); [|done].
    by destruct (products db !! pid).
  - left. unfold admin_del. by destruct (is_admin_user _ _ _ _ _).
  - destruct (checkout_confirm_db ADMIN_IDS send_ok fails now c db fsm) as [->|[f ->]].
    + by left.
    + right. by exists f, now.
Qed.

Lemma act_consistent (db : DB) (ac : Action * CallbackQuery) :
  orders_consistent db → orders_consistent (act ADMIN_IDS ADMIN_USERNAME lower db ac).
Proof.
  intros Hdb. destruct ac as [a c].
  destruct (act_order_tables db a c) as [(Ho & Hs & Hi)|(f & now & ->)].
  - unfold orders_consistent. by rewrite Ho, Hs, Hi.
  - by apply committed_consistent.
Qed.

Lemma act_positive (db : DB) (ac : Action * CallbackQuery) :
  positive_quantities db → positive_quantities (act ADMIN_IDS ADMIN_USERNAME lower db ac).
Proof.
  intros Hpos. destruct ac as [[w pid| |pid|pid|send_ok fails now fsm] c]; cbn [act].
  - by apply handle_positive.
  - intros k q. unfold cart_clear, db_execute, ret. cbn [post].
    rewrite cart_delete_user_lookup. destruct (decide _); [done|apply Hpos].
  - unfold admin_toggle. destruct (is_admin_user _ _ _ _ _); [|done].
    by destruct (products db !! pid).
  - intros k q. rewrite admin_del_cart. apply Hpos.
  - destruct (checkout_confirm_db ADMIN_IDS send_ok fails now c db fsm) as [->|[f ->]]; [done|].
    intros k q. rewrite committed_cart. destruct (decide _); [done|apply Hpos].
Qed.

Lemma act_append_only (db : DB) (ac : Action * CallbackQuery) :
  orders db `prefix_of` orders (act ADMIN_IDS ADMIN_USERNAME lower db ac)
  ∧ order_items db `prefix_of` order_items (act ADMIN_IDS ADMIN_USERNAME lower db ac).
Proof.
  destruct ac as [a c].
  destruct (act_order_tables db a c) as [(-> & _ & ->)|(f & now & ->)]; [done|].
  split; by eexists.
Qed.
End Actions.

(** X7. Every handler that writes to the database keeps the order
    tables consistent, whatever the storage and the deliveries do: order
    ids stay unique and within the sequence, every order item belongs to a
    stored order, and the total of every stored order is the sum of
    quantity times price over its own items. *)
Theorem order_tables_stay_consistent (ADMIN_IDS : list (option Z)) (ADMIN_USERNAME : str)
    (lower : str → str) (db : DB) (l : list (Action * CallbackQuery)) :
  orders_consistent db →
  orders_consistent (acts ADMIN_IDS ADMIN_USERNAME lower db l).
Proof.
  revert db. induction l as [|ac l IH]; intros db Hdb; [done|].
  apply IH. by apply act_consistent.
Qed.

(** X8. No handler changes or deletes a stored order or order item:
    after any sequence of cart writes, clears, product switches, product
    deletions and confirms, the orders and the items that were stored are
    still there, unchanged and in place, as a prefix of the tables. *)
Theorem orders_are_append_only (ADMIN_IDS : list (option Z)) (ADMIN_USERNAME : str)
    (lower : str → str) (db : DB) (l : list (Action * CallbackQuery)) :
  orders db `prefix_of` orders (acts ADMIN_IDS ADMIN_USERNAME lower db l)
  ∧ order_items db `prefix_of` order_items (acts ADMIN_IDS ADMIN_USERNAME lower db l).
Proof.
  revert db. induction l as [|ac l IH]; intros db; [done|].
  destruct (act_append_only ADMIN_IDS ADMIN_USERNAME lower db ac) as [Ho Hi].
  destruct (IH (act ADMIN_IDS ADMIN_USERNAME lower db ac)) as [Ho' Hi'].
  split; etransitivity; eauto.
Qed.

(** X9. Every handler that writes to the database keeps every stored
    cart quantity at 1 or more. *)
Theorem quantities_stay_positive (ADMIN_IDS : list (option Z)) (ADMIN_USERNAME : str)
    (lower : str → str) (db : DB) (l : list (Action * CallbackQuery)) :
  positive_quantities db →
  positive_quantities (acts ADMIN_IDS ADMIN_USERNAME lower db l).
Proof.
  revert db. induction l as [|ac l IH]; intros db Hdb; [done|].
  apply IH. by apply act_positive.
Qed.

Lemma sample_shop_consistent : orders_consistent Sample.shop.
Proof.
  split; [constructor|]. split; [|split]; intros x Hx; by apply elem_of_nil in Hx.
Qed.

Lemma order_tables_stay_consistent_witness :
  orders_consistent Sample.shop
  ∧ orders_consistent
      (acts [Some 7] (utf8 "boss") id Sample.shop
         [(AConfirm (λ _ _, true) (λ _, false) (utf8 "2024-05-01 10:00:00") Sample_filled,
           Sample.click "checkout:confirm");
          (ACart (AddVariant (utf8 "M")) 2, Sample.click "cart:addv:2:M");
          (ADelete 2, Sample.click "admin:del:2")]).
Proof.
  split; [exact sample_shop_consistent|].
  apply order_tables_stay_consistent. exact sample_shop_consistent.
Defined.

Lemma quantities_stay_positive_witness :
  positive_quantities Sample.shop
  ∧ positive_quantities
      (acts [Some 7] (utf8 "boss") id Sample.shop
         [(ACart (Decrement []) 1, Sample.click "cart:dec:1:");
          (ACart Add 1, Sample.click "cart:add:1");
          (AClear, Sample.click "cart:clear")]).
Proof.
  split; [exact sample_shop_positive|].
  apply quantities_stay_positive. exact sample_shop_positive.
Defined.

(** ** Bounds on the operator notice *)

Lemma sends_failed (text : Notice) (l : list Z) :
  length (filter is_send (failed text l)) = length l
  ∧ filter is_delivery (failed text l) = [].
Proof.
  induction l as [|a l [IH1 IH2]]; [done|]. split.
  - simpl. by rewrite <- IH1.
  - exact IH2.
Qed.

Lemma length_usable (ids : list (option Z)) : (length (usable ids) ≤ length ids)%nat.
Proof.
  induction ids as [|[a|] ids IH]; simpl; [lia| |lia].
  unfold usable in *. simpl. destruct (decide (a ≠ 0)); simpl; lia.
Qed.

(** X10. For one order the handler calls [send_message] at most once per
    entry of [ADMIN_IDS] plus once for the fallback, at most one of these
    calls delivers the notice, and none delivers it only when every usable
    operator and then the chat of the order failed. *)
Theorem notice_attempts_bounded (ADMIN_IDS : list (option Z)) (send_ok : nat → Z → bool)
    (chat_id : Z) (text : Notice) :
  let tr := notify ADMIN_IDS send_ok chat_id text in
  (length (filter is_send tr) ≤ length (usable ADMIN_IDS) + 1)%nat
  ∧ (length (filter is_send tr) ≤ length ADMIN_IDS + 1)%nat
  ∧ (1 ≤ length (filter is_send tr))%nat
  ∧ (length (filter is_delivery tr) ≤ 1)%nat
  ∧ (filter is_delivery tr = [] ↔
       (∀ i x, usable ADMIN_IDS !! i = Some x → send_ok i x = false)
       ∧ send_ok (length (usable ADMIN_IDS)) chat_id = false).
Proof.
  intros tr. pose proof (length_usable ADMIN_IDS) as Hlen.
  destruct (notify_first_reachable send_ok text ADMIN_IDS chat_id)
    as [(pre & a & rest & Hus & Hpre & Ha & Htr)|(Hall & ok & Hok & Htr)];
    fold tr in Htr; rewrite Htr, !filter_app, !length_app.
  - destruct (sends_failed text pre) as [Hs1 Hd1]. rewrite Hs1, Hd1.
    rewrite Hus, length_app in *. simpl in *.
    split; [lia|]. split; [lia|]. split; [lia|]. split; [lia|].
    split; [done|]. intros [Hall Hchat].
    rewrite (Hall (length pre) a) in Ha; [done|].
    by rewrite lookup_app_r, Nat.sub_diag by lia.
  - destruct (sends_failed text (usable ADMIN_IDS)) as [Hs2 Hd2]. rewrite Hs2, Hd2.
    rewrite <- Hok. destruct ok; simpl.
    + split; [lia|]. split; [lia|]. split; [lia|]. split; [lia|].
      split; [done|]. intros [_ Hchat]. done.
    + split; [lia|]. split; [lia|]. split; [lia|]. split; [lia|]. done.
Qed.

(** ** The checkout conversation collects what the commit reads *)

Section WizardInvariant.
Variable isdigit : N → bool.

Lemma collected_no_state (fsm : FSMContext) : state fsm = None → collected isdigit fsm.
Proof. unfold collected. by intros ->. Qed.

Lemma collected_clear (fsm : FSMContext) : collected isdigit (clear fsm).
Proof. by apply collected_no_state. Qed.

Lemma collected_started (fsm : FSMContext) :
  collected isdigit (set_state Checkout_full_name (clear fsm)).
Proof.
  unfold collected. cbn [state set_state fields_before data clear]. intros _.
  split; [constructor|]. split; intros x Hx; by rewrite lookup_empty in Hx.
Qed.

(** Storing the field of a step keeps what was collected. *)
Lemma collected_update (fsm : FSMContext) (key : string) (v : str) :
  collected isdigit fsm →
  (key = "phone" → (9 ≤ length (keep_digits isdigit v))%nat) →
  (key = "payment" → v = cash_on_delivery ∨ v = prepayment) →
  collected isdigit (update_data key v fsm).
Proof.
  unfold collected. cbn [state update_data data]. intros Hc Hphone Hpay.
  destruct (state fsm) as [s|]; [|done]. intros Hs.
  destruct (Hc Hs) as (Hall & Hph & Hpa). split; [|split].
  - eapply Forall_impl; [exact Hall|]. intros k Hk. simpl.
    rewrite lookup_insert_is_Some. destruct (decide (key = k)); auto.
  - intros ph. rewrite lookup_insert_Some. intros [[Hkey <-]|[_ Hold]]; auto.
  - intros pa. rewrite lookup_insert_Some. intros [[Hkey <-]|[_ Hold]]; auto.
Qed.

(** Storing the field of a step and moving to the next state. *)
Lemma collected_advance (fsm : FSMContext) (s s' : State) (key : string) (v : str) :
  collected isdigit fsm → state fsm = Some s → is_checkout s = true →
  fields_before s' = fields_before s ++ [key] →
  (key = "phone" → (9 ≤ length (keep_digits isdigit v))%nat) →
  (key = "payment" → v = cash_on_delivery ∨ v = prepayment) →
  collected isdigit (set_state s' (update_data key v fsm)).
Proof.
  intros Hc Hstate Hs Hfields Hphone Hpay.
  pose proof (collected_update fsm key v Hc Hphone Hpay) as Hu.
  unfold collected in *. cbn [state set_state update_data data] in *.
  rewrite Hstate in Hu. destruct (Hu Hs) as (Hall & Hph & Hpa). intros _.
  split; [|by split]. rewrite Hfields. apply Forall_app. split; [exact Hall|].
  constructor; [|constructor]. simpl. rewrite lookup_insert_eq. by eexists.
Qed.

Lemma collected_text_step (key : string) (s next : State) (prompt : Screen)
    (m : Message) (fsm : FSMContext) :
  collected isdigit fsm → state fsm = Some s → is_checkout s = true →
  fields_before next = fields_before s ++ [key] →
  key ≠ "phone" → key ≠ "payment" →
  collected isdigit (post (text_step key next prompt m fsm)).
Proof.
  intros Hc Hstate Hs Hfields Hk1 Hk2. unfold text_step.
  destruct (m_text m) as [t|]; [|exact Hc].
  unfold ret. cbn [post]. by eapply collected_advance.
Qed.

Lemma filter_state_np_type (c : CallbackQuery) (fsm : FSMContext) :
  co_np_type_filter c fsm = true → state fsm = Some Checkout_np_type.
Proof.
  unfold co_np_type_filter.
  destruct (decide (state fsm = Some Checkout_np_type)) as [Hs|Hs]; [intros _; exact Hs|].
  rewrite (bool_decide_eq_false_2 _ Hs). intros H. discriminate H.
Qed.

Lemma filter_state_payment (c : CallbackQuery) (fsm : FSMContext) :
  co_payment_filter c fsm = true → state fsm = Some Checkout_payment.
Proof.
  unfold co_payment_filter.
  destruct (decide (state fsm = Some Checkout_payment)) as [Hs|Hs]; [intros _; exact Hs|].
  rewrite (bool_decide_eq_false_2 _ Hs). intros H. discriminate H.
Qed.

(** Every step of the conversation keeps what was collected. *)
Lemma wizard_step_collected (fsm fsm' : FSMContext) :
  wizard_step isdigit fsm fsm' → collected isdigit fsm → collected isdigit fsm'.
Proof.
  intros Hstep Hc.
  destruct Hstep as [c db fsm|m fsm Hs|m fsm Hs|m fsm Hs|c fsm Hf|m fsm Hs|c fsm Hf
                    |m db fsm Hs|c fsm Hf|ids send_ok fails now c db fsm Hf].
  - unfold checkout_start. destruct (cart_items db _); [exact Hc|].
    unfold ret. cbn [post]. apply collected_started.
  - by eapply (collected_text_step "full_name" Checkout_full_name).
  - unfold co_phone. destruct (m_text m) as [t|]; [|exact Hc].
    destruct (decide (length _ < 9)%nat) as [|Hlen]; [exact Hc|].
    unfold ret. cbn [post].
    eapply (collected_advance fsm Checkout_phone); try done. intros _. lia.
  - by eapply (collected_text_step "city" Checkout_city).
  - apply filter_state_np_type in Hf. unfold co_np_type.
    destruct (split colon (c_data c) !! 2%nat) as [token|]; [|exact Hc].
    assert (Hadv : collected isdigit
              (set_state Checkout_np_point (update_data "np_type" token fsm)))
      by (by eapply (collected_advance fsm Checkout_np_type)).
    destruct (decide (token = utf8 "branch")); exact Hadv.
  - by eapply (collected_text_step "np_point" Checkout_np_point).
  - apply filter_state_payment in Hf. unfold co_payment.
    destruct (split colon (c_data c) !! 1%nat) as [token|]; [|exact Hc].
    unfold ret. cbn [post].
    eapply (collected_advance fsm Checkout_payment); try done.
    intros _. destruct (decide (token = utf8 "cod")); [left|right]; reflexivity.
  - unfold co_comment. destruct (m_text m) as [t|]; [|exact Hc].
    destruct (read_fields _) as [f|e].
    + unfold ret. cbn [post]. by eapply (collected_advance fsm Checkout_comment).
    + unfold raise. cbn [post]. by apply collected_update.
  - apply collected_clear.
  - unfold checkout_confirm. destruct (cart_items db _); [exact Hc|].
    destruct (read_fields _) as [f|e]; [|exact Hc].
    destruct (commit_block _ _ _ _ _ _ _) as [[db' id]|e]; [|exact Hc].
    apply collected_clear.
Qed.

Lemma wizard_run_collected (fsm0 fsm : FSMContext) :
  rtc (wizard_step isdigit) fsm0 fsm → collected isdigit fsm0 → collected isdigit fsm.
Proof.
  intros Hrun. induction Hrun as [fsm1|fsm1 fsm2 fsm3 Hstep _ IH]; intros Hc; [exact Hc|].
  apply IH. exact (wizard_step_collected fsm1 fsm2 Hstep Hc).
Qed.

(** A session that holds the seven keys gives the seven fields. *)
Lemma read_fields_collected (fsm : FSMContext) :
  collected isdigit fsm → state fsm = Some Checkout_confirm →
  ∃ f, read_fields (data fsm) = inl f
       ∧ data fsm !! "phone" = Some (f_phone f)
       ∧ data fsm !! "payment" = Some (f_payment f).
Proof.
  unfold collected. intros Hc Hs. rewrite Hs in Hc.
  destruct (Hc eq_refl) as (Hall & _). cbn [fields_before] in Hall.
  repeat (apply Forall_cons in Hall as [[? ?] Hall]).
  unfold read_fields, getitem.
  repeat match goal with H : data fsm !! _ = Some _ |- _ => rewrite H; clear H end.
  eexists. split; [reflexivity|]. done.
Qed.
End WizardInvariant.

(** With a storage that does not fail the commit goes through. *)
Lemma order_commit_ok_aux (ids : list (option Z)) (send_ok : nat → Z → bool) (now : str)
    (c : CallbackQuery) (db : DB) (fsm : FSMContext) (f : Fields) :
  cart_items db (user_id (c_from_user c)) ≠ [] →
  read_fields (data fsm) = inl f →
  err (checkout_confirm ids send_ok (λ _, false) now c (db, fsm)) = None
  ∧ (post (checkout_confirm ids send_ok (λ _, false) now c (db, fsm))).1
    = committed (c_from_user c) f now db.
Proof.
  intros Hne Hf. unfold checkout_confirm.
  pose proof (commit_block_ok (λ _, false) now (c_from_user c) f db (λ i _, eq_refl)) as Hc.
  destruct (cart_items db (user_id (c_from_user c))) as [|i l]; [done|].
  by rewrite Hf, Hc.
Qed.

(** X11. Whatever the user sends and in whatever order, a session that
    the handlers of the checkout flow have brought from no state to
    [Checkout.confirm] holds the seven fields the commit reads, a phone with
    9 digits or more and one of the two payment labels.  So the preview and
    the commit never fail on a missing key, and a confirm with a listed
    cart and a working storage commits the order and clears the session. *)
Theorem wizard_collects_what_commit_reads (isdigit : N → bool) (fsm0 fsm : FSMContext) :
  state fsm0 = None →
  rtc (wizard_step isdigit) fsm0 fsm →
  (state fsm = Some Checkout_confirm →
     ∃ f, read_fields (data fsm) = inl f
          ∧ (9 ≤ length (keep_digits isdigit (f_phone f)))%nat
          ∧ (f_payment f = cash_on_delivery ∨ f_payment f = prepayment)
          ∧ ∀ ids send_ok now c db,
              cart_items db (user_id (c_from_user c)) ≠ [] →
              checkout_confirm ids send_ok (λ _, false) now c (db, fsm)
              = ret (committed (c_from_user c) f now db, clear fsm)
                    (confirmed_trace ids send_ok c f db))
  ∧ (state fsm = Some Checkout_comment →
     ∀ m db, is_Some (m_text m) →
       err (co_comment m db fsm) = None
       ∧ state (post (co_comment m db fsm)) = Some Checkout_confirm).
Proof.
  intros Hstart Hrun.
  pose proof (wizard_run_collected isdigit fsm0 fsm Hrun
                (collected_no_state isdigit fsm0 Hstart)) as Hc.
  split.
  - intros Hs. destruct (read_fields_collected isdigit fsm Hc Hs) as (f & Hf & Hph & Hpa).
    unfold collected in Hc. rewrite Hs in Hc. destruct (Hc eq_refl) as (_ & Hphone & Hpay).
    exists f. split; [exact Hf|]. split; [by apply Hphone|]. split; [by apply Hpay|].
    intros ids send_ok now c db Hne.
    pose proof (checkout_confirm_cases ids send_ok (λ _, false) now c db fsm Hne) as Hcases.
    cbv zeta in Hcases. rewrite Hf in Hcases. destruct Hcases as [Hr|Hr]; [|exact Hr].
    exfalso.
    destruct (order_commit_ok_aux ids send_ok now c db fsm f Hne Hf) as [Herr _].
    rewrite Hr in Herr. discriminate Herr.
  - intros Hs m db [t Ht].
    assert (Hc' : collected isdigit (set_state Checkout_confirm
                                        (update_data "comment" (strip t) fsm))).
    { by eapply (collected_advance isdigit fsm Checkout_comment). }
    destruct (read_fields_collected isdigit _ Hc' eq_refl) as (f & Hf & _).
    unfold co_comment. rewrite Ht. cbn [set_state data] in Hf. rewrite Hf. done.
Qed.

Lemma wizard_collects_what_commit_reads_witness :
  ∃ fsm, rtc (wizard_step ascii_digit) {| state := None; data := ∅ |} fsm
         ∧ state fsm = Some Checkout_confirm
         ∧ ∃ f, read_fields (data fsm) = inl f
                ∧ (9 ≤ length (keep_digits ascii_digit (f_phone f)))%nat.
Proof.
  set (s0 := {| state := None; data := ∅ |}).
  set (s1 := post (checkout_start (Sample.click "checkout:start") Sample.shop s0)).
  set (s2 := post (co_full_name (Sample.text "Taras Shevchenko") s1)).
  set (s3 := post (co_phone ascii_digit (Sample.text "+38 (098) 123-45-67") s2)).
  set (s4 := post (co_city (Sample.text "Kyiv") s3)).
  set (s5 := post (co_np_type (Sample.click "np:type:branch") s4)).
  set (s6 := post (co_np_point (Sample.text "12") s5)).
  set (s7 := post (co_payment (Sample.click "pay:cod") s6)).
  set (s8 := post (co_comment (Sample.text "-") Sample.shop s7)).
  assert (Hrun : rtc (wizard_step ascii_digit) s0 s8).
  { eapply rtc_l; [exact (step_start ascii_digit (Sample.click "checkout:start") Sample.shop s0)|].
    eapply rtc_l; [apply (step_full_name ascii_digit (Sample.text "Taras Shevchenko") s1);
                   vm_compute; reflexivity|].
    eapply rtc_l; [apply (step_phone ascii_digit (Sample.text "+38 (098) 123-45-67") s2);
                   vm_compute; reflexivity|].
    eapply rtc_l; [apply (step_city ascii_digit (Sample.text "Kyiv") s3);
                   vm_compute; reflexivity|].
    eapply rtc_l; [apply (step_np_type ascii_digit (Sample.click "np:type:branch") s4);
                   vm_compute; reflexivity|].
    eapply rtc_l; [apply (step_np_point ascii_digit (Sample.text "12") s5);
                   vm_compute; reflexivity|].
    eapply rtc_l; [apply (step_payment ascii_digit (Sample.click "pay:cod") s6);
                   vm_compute; reflexivity|].
    eapply rtc_l; [apply (step_comment ascii_digit (Sample.text "-") Sample.shop s7);
                   vm_compute; reflexivity|].
    apply rtc_refl. }
  assert (Hs8 : state s8 = Some Checkout_confirm) by (vm_compute; reflexivity).
  exists s8. split; [exact Hrun|]. split; [exact Hs8|].
  destruct (wizard_collects_what_commit_reads ascii_digit s0 s8 eq_refl Hrun) as [Hconf _].
  destruct (Hconf Hs8) as (f & Hf & Hphone & _).
  exists f. split; [exact Hf|exact Hphone].
Defined.

(** ** Variants typed by the operator *)

Lemma lstrip_head (s : str) (ch : N) : head (lstrip s) = Some ch → py_isspace ch = false.
Proof.
  induction s as [|a s IH]; simpl; [done|].
  destruct (py_isspace a) eqn:Ha; [exact IH|]. simpl. by intros [= <-].
Qed.

Lemma elem_of_lstrip (s : str) (ch : N) : ch ∈ lstrip s → ch ∈ s.
Proof.
  induction s as [|a s IH]; simpl; [done|].
  destruct (py_isspace a); [|done]. intros H. right. by apply IH.
Qed.

Lemma last_lstrip (s : str) (ch : N) : last (lstrip s) = Some ch → last s = Some ch.
Proof.
  induction s as [|a s IH]; simpl; [done|].
  destruct (py_isspace a); [|done]. intros H. rewrite last_cons, (IH H). done.
Qed.

Lemma lstrip_fixed (s : str) :
  (∀ ch, head s = Some ch → py_isspace ch = false) → lstrip s = s.
Proof. destruct s as [|a s]; [done|]. simpl. intros H. by rewrite (H a). Qed.

Lemma elem_of_strip (s : str) (ch : N) : ch ∈ strip s → ch ∈ s.
Proof.
  unfold strip. rewrite elem_of_reverse. intros H.
  apply elem_of_lstrip, elem_of_reverse, elem_of_lstrip in H. exact H.
Qed.

(** What [strip] returns has no white space at either end. *)
Lemma strip_ends (s : str) (ch : N) :
  head (strip s) = Some ch ∨ last (strip s) = Some ch → py_isspace ch = false.
Proof.
  unfold strip. rewrite head_reverse, last_reverse. intros [H|H].
  - apply last_lstrip in H. rewrite last_reverse in H. by apply lstrip_head in H.
  - by apply lstrip_head in H.
Qed.

Lemma strip_fixed (s : str) :
  (∀ ch, head s = Some ch → py_isspace ch = false) →
  (∀ ch, last s = Some ch → py_isspace ch = false) →
  strip s = s.
Proof.
  intros Hhead Hlast. unfold strip. rewrite (lstrip_fixed s Hhead).
  rewrite lstrip_fixed; [apply reverse_involutive|].
  intros ch. rewrite head_reverse. apply Hlast.
Qed.

Lemma re_split_pieces (sep : N → bool) (s : str) (b : bool) (p : str) :
  p ∈ re_split sep b s → Forall (λ ch, sep ch = false ∧ ch ∈ s) p.
Proof.
  revert b p. induction s as [|ch s IH]; intros b p; simpl.
  - intros Hp. apply list_elem_of_singleton in Hp. subst p. constructor.
  - assert (Hweak : ∀ q, Forall (λ x, sep x = false ∧ x ∈ s) q →
                         Forall (λ x, sep x = false ∧ x ∈ ch :: s) q).
    { intros q Hq. eapply Forall_impl; [exact Hq|].
      intros x [? ?]. split; [done|by right]. }
    destruct (sep ch) eqn:Hch.
    + destruct b.
      * intros Hp. apply Hweak. by eapply IH.
      * intros Hp. apply elem_of_cons in Hp as [->|Hp]; [constructor|].
        apply Hweak. by eapply IH.
    + pose proof (IH false) as IH'.
      destruct (re_split sep false s) as [|f fs].
      * intros Hp. apply list_elem_of_singleton in Hp. subst p.
        constructor; [|constructor]. split; [done|by left].
      * intros Hp. apply elem_of_cons in Hp as [->|Hp].
        -- constructor; [split; [done|by left]|]. apply Hweak, IH'. by left.
        -- apply Hweak, IH'. by right.
Qed.

Lemma elem_of_first_occurrences (seen l : list str) (v : str) :
  v ∈ first_occurrences seen l → v ∈ l ∧ v ∉ seen.
Proof.
  revert seen. induction l as [|x l IH]; intros seen; simpl.
  - intros H. by apply elem_of_nil in H.
  - destruct (decide (x ∈ seen)) as [Hx|Hx].
    + intros H. destruct (IH _ H). split; [by right|done].
    + intros H. apply elem_of_cons in H as [->|H]; [split; [by left|done]|].
      destruct (IH _ H) as [Hl Hseen]. split; [by right|].
      intros Hv. apply Hseen. by right.
Qed.

Lemma NoDup_first_occurrences (seen l : list str) : NoDup (first_occurrences seen l).
Proof.
  revert seen. induction l as [|x l IH]; intros seen; simpl; [constructor|].
  destruct (decide (x ∈ seen)); [apply IH|]. constructor; [|apply IH].
  intros H. apply elem_of_first_occurrences in H as [_ H]. apply H. by left.
Qed.

Lemma first_occurrences_NoDup (seen l : list str) :
  NoDup l → (∀ v, v ∈ l → v ∉ seen) → first_occurrences seen l = l.
Proof.
  revert seen. induction l as [|x l IH]; intros seen Hnd Hseen; simpl; [done|].
  apply NoDup_cons in Hnd as [Hx Hnd].
  rewrite decide_False by (apply Hseen; left). f_equal. apply IH; [done|].
  intros v Hv Hin. apply elem_of_cons in Hin as [->|Hin]; [done|].
  apply (Hseen v); [by right|done].
Qed.

Lemma elem_of_stripped_parts (parts : list str) (v : str) :
  v ∈ stripped_parts parts → v ≠ [] ∧ ∃ p, p ∈ parts ∧ v = strip p.
Proof.
  unfold stripped_parts. rewrite list_elem_of_omap. intros (p & Hp & Hv).
  destruct (strip p) as [|a q] eqn:Hs; [done|]. injection Hv as <-.
  split; [done|]. by exists p.
Qed.

(** X12. Whatever the operator types, [parse_variants] returns labels
    without repetition, none of them empty, none containing a comma, a
    semicolon or a space, none with white space at either end, and made of
    characters of the text; a text that is blank or "-" once stripped gives
    no label at all. *)
Theorem parse_variants_clean (text : str) :
  NoDup (parse_variants text)
  ∧ (∀ v, v ∈ parse_variants text →
       v ≠ []
       ∧ Forall (λ ch, is_variant_sep ch = false ∧ ch ∈ text) v
       ∧ (∀ ch, head v = Some ch ∨ last v = Some ch → py_isspace ch = false))
  ∧ (strip text = [] ∨ strip text = utf8 "-" → parse_variants text = []).
Proof.
  unfold parse_variants. split; [|split].
  - destruct (decide _); [constructor|apply NoDup_first_occurrences].
  - intros v. destruct (decide _) as [|_]; [intros H; by apply elem_of_nil in H|].
    intros Hv. apply elem_of_first_occurrences in Hv as [Hv _].
    apply elem_of_stripped_parts in Hv as (Hne & p & Hp & ->).
    split; [exact Hne|]. split; [|apply strip_ends].
    apply re_split_pieces in Hp. rewrite Forall_forall in Hp. apply Forall_forall.
    intros ch Hch. apply elem_of_strip in Hch. destruct (Hp ch Hch) as [Hsep Hin].
    split; [exact Hsep|]. by apply elem_of_strip.
  - intros [H|H]; rewrite decide_True; auto.
Qed.

Lemma re_split_nonempty (sep : N → bool) (b : bool) (s : str) : re_split sep b s ≠ [].
Proof.
  revert b. induction s as [|ch s IH]; intros b; simpl; [done|].
  destruct (sep ch); [destruct b; [apply IH|done]|].
  by destruct (re_split sep false s).
Qed.

(** A piece without separator in front of the rest joins the first piece
    of the rest. *)
Lemma re_split_label (sep : N → bool) (v s : str) :
  Forall (λ ch, sep ch = false) v →
  re_split sep false (v ++ s)
  = match re_split sep false s with
    | f :: fs => (v ++ f) :: fs
    | [] => [v]
    end.
Proof.
  induction 1 as [|ch v Hch _ IH]; simpl.
  - pose proof (re_split_nonempty sep false s). by destruct (re_split sep false s).
  - rewrite Hch, IH. by destruct (re_split sep false s).
Qed.

Lemma re_split_after_run (sep : N → bool) (v s : str) :
  v ≠ [] → Forall (λ ch, sep ch = false) v →
  re_split sep true (v ++ s) = re_split sep false (v ++ s).
Proof.
  intros Hne Hv. destruct v as [|ch v]; [done|].
  apply Forall_cons in Hv as [Hch _]. simpl. by rewrite Hch.
Qed.

Lemma plain_label_no_sep (v : str) :
  plain_label v → Forall (λ ch, is_variant_sep ch = false) v.
Proof. intros [_ Hv]. eapply Forall_impl; [exact Hv|]. by intros ch [? _]. Qed.

Lemma join_cons_cons (sep v v' : str) (l : list str) :
  join sep (v :: v' :: l) = v ++ sep ++ join sep (v' :: l).
Proof. reflexivity. Qed.

Lemma join_starts (sep v : str) (l : list str) : ∃ rest, join sep (v :: l) = v ++ rest.
Proof.
  destruct l as [|v' l]; [exists []; by rewrite app_nil_r|].
  rewrite join_cons_cons. eauto.
Qed.

Lemma re_split_join (vs : list str) :
  vs ≠ [] → Forall plain_label vs →
  re_split is_variant_sep false (join [44; 32]%N vs) = vs.
Proof.
  induction vs as [|v vs IH]; [done|]. intros _ Hvs.
  apply Forall_cons in Hvs as [Hv Hvs]. destruct vs as [|v' vs].
  - rewrite <- (app_nil_r (join _ [v])). cbn [join].
    rewrite (re_split_label _ v [] (plain_label_no_sep v Hv)). simpl. by rewrite app_nil_r.
  - rewrite join_cons_cons, (re_split_label _ v _ (plain_label_no_sep v Hv)).
    cbn [app re_split]. change (is_variant_sep 44) with true.
    change (is_variant_sep 32) with true. cbn iota.
    pose proof Hvs as Hvs'. apply Forall_cons in Hvs' as [Hv' _].
    destruct (join_starts [44; 32]%N v' vs) as [rest Hrest].
    rewrite Hrest, (re_split_after_run _ v' rest (proj1 Hv') (plain_label_no_sep v' Hv')).
    rewrite <- Hrest, IH by done. by rewrite app_nil_r.
Qed.

Lemma plain_label_ends (v : str) (ch : N) :
  plain_label v → head v = Some ch ∨ last v = Some ch → py_isspace ch = false.
Proof.
  intros [_ Hv] H. rewrite Forall_forall in Hv. apply (Hv ch).
  destruct H as [H|H]; [by apply head_Some_elem_of|by apply last_Some_elem_of].
Qed.

Lemma head_join (sep v : str) (l : list str) :
  v ≠ [] → head (join sep (v :: l)) = head v.
Proof.
  intros Hv. destruct (join_starts sep v l) as [rest ->].
  destruct v; [done|reflexivity].
Qed.

Lemma last_join (sep : str) (vs : list str) (ch : N) :
  Forall (λ v, v ≠ []) vs →
  last (join sep vs) = Some ch → ∃ v, last vs = Some v ∧ last v = Some ch.
Proof.
  induction vs as [|v vs IH]; [done|]. intros Hvs.
  apply Forall_cons in Hvs as [Hv Hvs]. destruct vs as [|v' vs].
  - intros H. by exists v.
  - rewrite join_cons_cons, !last_app. intros H.
    assert (Hne : last (join sep (v' :: vs)) ≠ None).
    { rewrite last_None. destruct (join_starts sep v' vs) as [rest ->].
      apply Forall_cons in Hvs as [Hv' _]. by destruct v'. }
    destruct (last (join sep (v' :: vs))) as [x|] eqn:Hl; [|done].
    destruct (IH Hvs H) as (w & Hw & Hch). exists w. by rewrite last_cons_cons.
Qed.

Lemma stripped_parts_plain (vs : list str) :
  Forall plain_label vs → stripped_parts vs = vs.
Proof.
  induction 1 as [|v vs Hv _ IH]; [done|]. unfold stripped_parts in *.
  cbn [omap list_omap]. rewrite IH.
  rewrite (strip_fixed v) by (intros ch H; apply (plain_label_ends v ch Hv); auto).
  destruct Hv as [Hne _]. by destruct v.
Qed.

(** X13. The labels shown on a product card, joined with ", ", parse
    back to themselves: for labels without repetition, each not empty and
    free of separators and white space, [parse_variants] of the joined text
    is the list again.  The one exception is the single label "-", which
    reads as "no variants". *)
Theorem parse_variants_round_trip (vs : list str) :
  NoDup vs → Forall plain_label vs →
  (vs ≠ [utf8 "-"] → parse_variants (join (utf8 ", ") vs) = vs)
  ∧ parse_variants (join (utf8 ", ") [utf8 "-"]) = [].
Proof.
  intros Hnd Hvs. split; [|reflexivity]. intros Hdash.
  change (utf8 ", ") with [44; 32]%N.
  destruct vs as [|v vs]; [reflexivity|].
  assert (Hne : Forall (λ v, v ≠ []) (v :: vs)).
  { eapply Forall_impl; [exact Hvs|]. by intros x [? _]. }
  pose proof Hvs as Hv. apply Forall_cons in Hv as [Hv _].
  assert (Hstrip : strip (join [44; 32]%N (v :: vs)) = join [44; 32]%N (v :: vs)).
  { apply strip_fixed.
    - intros ch. rewrite head_join by apply Hv. intros H. apply (plain_label_ends v ch Hv). auto.
    - intros ch H. destruct (last_join _ _ _ Hne H) as (w & Hw & Hch).
      apply last_Some_elem_of in Hw. rewrite Forall_forall in Hvs.
      apply (plain_label_ends w ch (Hvs w Hw)). auto. }
  unfold parse_variants. rewrite Hstrip. rewrite decide_False.
  - rewrite re_split_join, stripped_parts_plain by done.
    apply first_occurrences_NoDup; [done|]. intros x _ Hx. by apply elem_of_nil in Hx.
  - intros [H|H].
    + destruct vs as [|v' vs]; [apply Hdash; by rewrite <- H|].
      rewrite join_cons_cons in H. apply (f_equal length) in H.
      rewrite !length_app in H. destruct Hv as [Hv0 _]. destruct v; [done|].
      simpl in H. lia.
    + destruct (join_starts [44; 32]%N v vs) as [rest Hrest]. rewrite Hrest in H.
      destruct Hv as [Hv0 _]. by destruct v.
Qed.

Lemma parse_variants_round_trip_witness :
  NoDup [utf8 "S"; utf8 "M"; utf8 "XL"]
  ∧ Forall plain_label [utf8 "S"; utf8 "M"; utf8 "XL"]
  ∧ parse_variants (utf8 "S, M, XL") = [utf8 "S"; utf8 "M"; utf8 "XL"].
Proof.
  assert (Hnd : NoDup [utf8 "S"; utf8 "M"; utf8 "XL"]).
  { vm_compute. repeat constructor; intros H;
      repeat (apply elem_of_cons in H as [H|H]; [discriminate H|]); by apply elem_of_nil in H. }
  assert (Hpl : Forall plain_label [utf8 "S"; utf8 "M"; utf8 "XL"]).
  { vm_compute. repeat constructor; discriminate. }
  split; [exact Hnd|]. split; [exact Hpl|].
  apply (proj1 (parse_variants_round_trip _ Hnd Hpl)). vm_compute. discriminate.
Defined.

(** ** Pages of the catalogue *)

(** In a list without repetition every element is on exactly one page. *)
Lemma page_of_element {A} (l : list A) (x : A) (size : nat) :
  (0 < size)%nat → NoDup l → x ∈ l →
  ∃ n, x ∈ take size (drop (n * size) l)
       ∧ ∀ m, x ∈ take size (drop (m * size) l) → m = n.
Proof.
  intros Hsize Hnd Hx. apply list_elem_of_lookup in Hx as [i Hi].
  exists (i / size)%nat. split.
  - apply list_elem_of_lookup. exists (i mod size)%nat.
    rewrite lookup_take_lt by (apply Nat.mod_upper_bound; lia).
    rewrite lookup_drop, <- Hi. f_equal.
    pose proof (Nat.div_mod_eq i size). lia.
  - intros m Hm. apply list_elem_of_lookup in Hm as [j Hj].
    apply lookup_take_Some in Hj as [Hj Hlt]. rewrite lookup_drop in Hj.
    pose proof (NoDup_lookup l _ _ x Hnd Hj Hi) as Heq.
    apply (Nat.div_unique i size m j); lia.
Qed.

Lemma NoDup_sorted_rows (m : gmap Z Product) (P : Z * Product → Prop)
    `{∀ r, Decision (P r)} :
  NoDup (merge_sort product_id_desc (filter P (map_to_list m))).
Proof.
  rewrite merge_sort_Permutation. apply NoDup_filter, NoDup_map_to_list.
Qed.

Lemma elem_of_active_products_desc (db : DB) (r : Z * Product) :
  r ∈ active_products_desc db ↔ products db !! r.1 = Some r.2 ∧ active r.2 = 1.
Proof.
  unfold active_products_desc. rewrite merge_sort_Permutation, list_elem_of_filter.
  destruct r as [i p]. rewrite elem_of_map_to_list. simpl. tauto.
Qed.

Lemma limit_offset_page {A} (page : Z) (rows : list A) :
  limit_offset PAGE_SIZE (page * PAGE_SIZE) rows
  = take 5 (drop (Z.to_nat page * 5) rows).
Proof.
  unfold limit_offset, PAGE_SIZE. rewrite decide_False by lia.
  do 2 f_equal. lia.
Qed.

(** X14. The catalogue pages.  A page holds at most 5 rows, all of them
    active products with the row the table has for them; every active
    product is on exactly one page of number 0 or more; a page of negative
    number shows what page 0 shows, without "back" button; and page [n]
    has nothing to show exactly when no more than [5 n] products are
    active, although the "forward" button is on every page.  In the list
    of the operator every product, active or not, is on exactly one page. *)
Theorem catalog_pages_partition (db : DB) :
  (∀ page, (length (catalog_rows page db) ≤ 5)%nat
           ∧ ∀ r, r ∈ catalog_rows page db →
                  products db !! r.1 = Some r.2 ∧ active r.2 = 1)
  ∧ (∀ i p, products db !! i = Some p → active p = 1 →
       ∃ n : nat, (i, p) ∈ catalog_rows (Z.of_nat n) db
                  ∧ ∀ m : nat, (i, p) ∈ catalog_rows (Z.of_nat m) db → m = n)
  ∧ (∀ page, page ≤ 0 →
       catalog_rows page db = catalog_rows 0 db
       ∧ ∀ rows prev next, catalog page db = Page rows prev next → prev = None)
  ∧ (∀ page rows prev next, catalog page db = Page rows prev next →
       next = page + 1 ∧ (0 < page → prev = Some (page - 1)))
  ∧ (∀ n : nat, catalog (Z.of_nat n) db = NothingToShow
                ↔ (length (active_products_desc db) ≤ 5 * n)%nat)
  ∧ (∀ i p, products db !! i = Some p →
       ∃ n : nat, (i, p) ∈ admin_products_rows (Z.of_nat n) db
                  ∧ ∀ m : nat, (i, p) ∈ admin_products_rows (Z.of_nat m) db → m = n).
Proof.
  split; [|split; [|split; [|split; [|split]]]]; cycle 5.
  { intros i p Hp.
    assert (Hnd : NoDup (products_desc db)).
    { unfold products_desc. rewrite merge_sort_Permutation. apply NoDup_map_to_list. }
    assert (Hin : (i, p) ∈ products_desc db).
    { unfold products_desc. rewrite merge_sort_Permutation. by apply elem_of_map_to_list. }
    destruct (page_of_element (products_desc db) (i, p) 5 ltac:(lia) Hnd Hin)
      as (n & Hn & Huniq).
    exists n. unfold admin_products_rows. setoid_rewrite limit_offset_page.
    rewrite !Nat2Z.id. split; [exact Hn|].
    intros m. rewrite Nat2Z.id. apply Huniq. }
  - intros page. unfold catalog_rows. rewrite limit_offset_page. split.
    + rewrite length_take. lia.
    + intros r Hr. apply elem_of_active_products_desc.
      apply list_elem_of_lookup in Hr as [j Hj].
      apply lookup_take_Some in Hj as [Hj _]. rewrite lookup_drop in Hj.
      apply list_elem_of_lookup. eauto.
  - intros i p Hp Ha.
    assert (Hin : (i, p) ∈ active_products_desc db)
      by (by apply elem_of_active_products_desc).
    destruct (page_of_element (active_products_desc db) (i, p) 5 ltac:(lia)
                (NoDup_sorted_rows _ _) Hin) as (n & Hn & Huniq).
    exists n. unfold catalog_rows. setoid_rewrite limit_offset_page.
    rewrite !Nat2Z.id. split; [exact Hn|].
    intros m. rewrite Nat2Z.id. apply Huniq.
  - intros page Hpage. split.
    + unfold catalog_rows. rewrite !limit_offset_page. do 3 f_equal. lia.
    + unfold catalog, listing. destruct (catalog_rows page db); [done|].
      intros rows prev next [= _ <- _]. by rewrite decide_False by lia.
  - intros page rows prev next. unfold catalog, listing.
    destruct (catalog_rows page db); [done|]. intros [= _ <- <-].
    split; [done|]. intros Hpos. by rewrite decide_True by lia.
  - intros n. unfold catalog, listing, catalog_rows. rewrite limit_offset_page, Nat2Z.id.
    destruct (take 5 (drop (n * 5) (active_products_desc db))) as [|r rows] eqn:Hrows.
    + split; [intros _|done]. apply (f_equal length) in Hrows.
      rewrite length_take, length_drop in Hrows. cbn [length] in Hrows. lia.
    + split; [done|]. intros Hlen. apply (f_equal length) in Hrows.
      rewrite length_take, length_drop in Hrows. cbn [length] in Hrows. lia.
Qed.

(** ** Delays between restarts *)

Lemma iter_next_delay (k : nat) : Nat.iter k next_delay 3 = Z.min (3 * 2 ^ Z.of_nat k) 60.
Proof.
  induction k as [|k IH]; [reflexivity|].
  rewrite Nat2Z.inj_succ, Z.pow_succ_r by lia. simpl. rewrite IH. unfold next_delay.
  pose proof (Z.pow_pos_nonneg 2 (Z.of_nat k)). lia.
Qed.

Lemma polling_sleeps_lookup (raised : list bool) (delay : Z) (k : nat) (d : Z) :
  polling_sleeps delay raised !! k = Some d → d = Nat.iter k next_delay delay.
Proof.
  revert delay k. induction raised as [|[|] raised IH]; intros delay k; simpl; [done| |apply IH].
  destruct k as [|k]; simpl; [by intros [= <-]|].
  intros H. apply IH in H. rewrite H. clear.
  induction k as [|k IHk]; [done|]. simpl. by rewrite IHk.
Qed.

(** X15. However the calls of [start_polling] end, the loop sleeps once
    after every call that raised and never after one that returned, and the
    sleep after the [k]-th failure (counted from 0) is [min(3 * 2^k, 60)]
    seconds: 3, 6, 12, 24, 48, then 60 for ever; the delay is never reset. *)
Theorem polling_delays_double_to_a_minute (raised : list bool) :
  let sleeps := start_polling_with_retries raised in
  length sleeps = length (filter (λ b, b = true) raised)
  ∧ ∀ k d, sleeps !! k = Some d →
      d = Z.min (3 * 2 ^ Z.of_nat k) 60 ∧ 3 ≤ d ≤ 60
      ∧ ((5 ≤ k)%nat → d = 60).
Proof.
  intros sleeps. split.
  - unfold sleeps, start_polling_with_retries. generalize 3.
    induction raised as [|[|] raised IH]; intros delay; [done| |].
    + rewrite filter_cons_True by done. cbn [polling_sleeps length]. by rewrite IH.
    + rewrite filter_cons_False by done. cbn [polling_sleeps]. apply IH.
  - intros k d Hd. apply polling_sleeps_lookup in Hd. rewrite iter_next_delay in Hd.
    pose proof (Z.pow_pos_nonneg 2 (Z.of_nat k)).
    split; [exact Hd|]. split; [lia|]. intros Hk.
    assert (2 ^ 5 ≤ 2 ^ Z.of_nat k) by (apply Z.pow_le_mono_r; lia).
    change (2 ^ 5) with 32 in *. lia.
Qed.

(** ** Text steps take any text *)

Lemma lstrip_blank (t : str) : Forall (λ ch, py_isspace ch = true) t → lstrip t = [].
Proof. induction 1 as [|ch t Hch _ IH]; [done|]. simpl. by rewrite Hch. Qed.

Lemma strip_blank (t : str) : Forall (λ ch, py_isspace ch = true) t → strip t = [].
Proof. intros H. unfold strip. by rewrite (lstrip_blank t H). Qed.

(** X16. The name, city and delivery point steps never reject a text:
    whatever the text, the stripped text is stored under the key of the
    step, without white space at either end, and the state is the next one;
    a text of white space only, or an empty one, is stored as the empty
    string.  A message without text raises and changes nothing. *)
Theorem text_steps_take_any_text (m : Message) (fsm : FSMContext) :
  let steps := [(co_full_name, "full_name", Checkout_full_name);
                (co_city, "city", Checkout_city);
                (co_np_point, "np_point", Checkout_np_point)] in
  ∀ h key s, (h, key, s) ∈ steps →
    (∀ t, m_text m = Some t →
       err (h m fsm) = None
       ∧ state (post (h m fsm)) = next_state s
       ∧ data (post (h m fsm)) = <[key := strip t]> (data fsm)
       ∧ (∀ ch, head (strip t) = Some ch ∨ last (strip t) = Some ch → py_isspace ch = false)
       ∧ (Forall (λ ch, py_isspace ch = true) t → data (post (h m fsm)) !! key = Some []))
    ∧ (m_text m = None → err (h m fsm) = Some AttributeError ∧ post (h m fsm) = fsm).
Proof.
  intros steps h key s Hin.
  assert (Hcases : (h, key, s) = (co_full_name, "full_name", Checkout_full_name)
                   ∨ (h, key, s) = (co_city, "city", Checkout_city)
                   ∨ (h, key, s) = (co_np_point, "np_point", Checkout_np_point)).
  { unfold steps in Hin. repeat (apply elem_of_cons in Hin as [Hin|Hin]; [auto|]).
    by apply elem_of_nil in Hin. }
  destruct Hcases as [[= -> -> ->]|[[= -> -> ->]|[= -> -> ->]]];
    unfold co_full_name, co_city, co_np_point, text_step;
    (split; [intros t Ht; rewrite Ht; unfold ret; cbn [post err state set_state data update_data next_state];
             split; [reflexivity|]; split; [reflexivity|]; split; [reflexivity|];
             split; [apply strip_ends|];
             intros Hblank; rewrite (strip_blank t Hblank); apply lookup_insert_eq
            |intros Ht; by rewrite Ht]).
Qed.

Lemma text_steps_take_any_text_witness :
  let m := Sample.text " Kyiv " in
  let fsm := Sample_waiting Checkout_city in
  (co_city, "city", Checkout_city)
    ∈ [(co_full_name, "full_name", Checkout_full_name);
       (co_city, "city", Checkout_city);
       (co_np_point, "np_point", Checkout_np_point)]
  ∧ err (co_city m fsm) = None
  ∧ state (post (co_city m fsm)) = next_state Checkout_city
  ∧ data (post (co_city m fsm)) = <["city" := strip (utf8 " Kyiv ")]> (data fsm).
Proof.
  intros m fsm.
  assert (Hin : (co_city, "city", Checkout_city)
                  ∈ [(co_full_name, "full_name", Checkout_full_name);
                     (co_city, "city", Checkout_city);
                     (co_np_point, "np_point", Checkout_np_point)]).
  { apply elem_of_cons. right. apply elem_of_cons. left. reflexivity. }
  split; [exact Hin|].
  destruct (text_steps_take_any_text m fsm co_city "city" Checkout_city Hin) as [H _].
  destruct (H (utf8 " Kyiv ") eq_refl) as (He & Hs & Hd & _).
  split; [exact He|]. split; [exact Hs|exact Hd].
Defined.

(** ** A variant is taken as it comes *)

(** X17. [cart_add_variant] does not compare the label with the variants
    of the product: for an active product and any label, also one the
    product does not have and also for a product without variants, it
    creates the line (user, product, label) with quantity 1 or raises it by
    1, touches no other line and raises the total of the user by the unit
    price. *)
Theorem cart_add_variant_takes_any_label (pid : Z) (variant : str) (c : CallbackQuery)
    (db : DB) (p : Product) :
  active_product db pid = Some p →
  let u := user_id (c_from_user c) in
  let k := (u, pid, variant) in
  let r := cart_add_variant pid variant c db in
  err r = None
  ∧ cart (post r) !! k = Some (default 0 (cart db !! k) + 1)
  ∧ (∀ k', k' ≠ k → cart (post r) !! k' = cart db !! k')
  ∧ cart_total (post r) u = cart_total db u + price p.
Proof.
  intros Hp u k r. unfold r, cart_add_variant, db_execute, sql_cart_upsert, connect.
  cbn [foreign_keys andb]. fold u k.
  destruct (cart db !! k) as [q|] eqn:Hk; unfold ret; cbn [post err cart set_cart default].
  - split; [done|]. split; [by rewrite lookup_insert_eq|].
    split; [by intros k' Hk'; rewrite lookup_insert_ne|].
    rewrite cart_total_set_line, (cart_total_split_line db k q u Hk).
    unfold k. rewrite !(line_amount_active db u pid variant _ p Hp). lia.
  - split; [done|]. split; [by rewrite lookup_insert_eq|].
    split; [by intros k' Hk'; rewrite lookup_insert_ne|].
    rewrite cart_total_insert_fresh by done.
    unfold k. rewrite (line_amount_active db u pid variant _ p Hp). lia.
Qed.

Lemma cart_add_variant_takes_any_label_witness :
  let r := cart_add_variant 1 (utf8 "XXL") (Sample.click "cart:addv:1:XXL") Sample.shop in
  active_product Sample.shop 1 = Some (Sample.product "A" 100 [] 1)
  ∧ cart (post r) !! (7, 1, utf8 "XXL") = Some 1 ∧ cart_total (post r) 7 = 550.
Proof.
  intros r.
  pose proof (cart_add_variant_takes_any_label 1 (utf8 "XXL") (Sample.click "cart:addv:1:XXL")
                Sample.shop (Sample.product "A" 100 [] 1) eq_refl) as (_ & Hline & _ & Htotal).
  split; [reflexivity|]. split.
  - etransitivity; [exact Hline|reflexivity].
  - etransitivity; [exact Htotal|reflexivity].
Defined.

(** ** One user's actions and the other users' carts *)

(** X18. What a user does to a cart (any of the five writes, emptying
    the cart, confirming an order, whatever the storage does) changes no
    cart line of another user, and leaves the listing and the total of
    every other user as they are. *)
Theorem other_users_carts_untouched (ADMIN_IDS : list (option Z)) (ADMIN_USERNAME : str)
    (lower : str → str) (a : Action) (c : CallbackQuery) (db : DB) :
  (∀ pid, a ≠ AToggle pid) → (∀ pid, a ≠ ADelete pid) →
  let u := user_id (c_from_user c) in
  let db' := act ADMIN_IDS ADMIN_USERNAME lower db (a, c) in
  products db' = products db
  ∧ (∀ k, k.1.1 ≠ u → cart db' !! k = cart db !! k)
  ∧ (∀ u', u' ≠ u → cart_items db' u' ≡ₚ cart_items db u'
                     ∧ cart_total db' u' = cart_total db u').
Proof.
  intros Htoggle Hdelete u db'.
  assert (Hframe : products db' = products db
                   ∧ ∀ k, k.1.1 ≠ u → cart db' !! k = cart db !! k).
  { unfold db'. destruct a as [w pid| |pid|pid|send_ok fails now fsm]; cbn [act].
    - destruct (handle_frame w pid c db) as (ct & -> & Hsame). split; [done|].
      intros k Hk. apply Hsame. intros ->. by destruct w.
    - unfold cart_clear, db_execute, ret. cbn [post]. split; [done|].
      intros k Hk. rewrite cart_delete_user_lookup. by rewrite decide_False.
    - by destruct (Htoggle pid).
    - by destruct (Hdelete pid).
    - destruct (checkout_confirm_db ADMIN_IDS send_ok fails now c db fsm) as [->|[f ->]];
        [done|]. split; [done|]. intros k Hk. rewrite committed_cart. by rewrite decide_False. }
  destruct Hframe as [Hprod Hcart]. split; [exact Hprod|]. split; [exact Hcart|].
  intros u' Hu'.
  assert (Hperm : cart_join db' u' ≡ₚ cart_join db u').
  { apply cart_join_same_lines; [exact Hprod|]. intros pid v. by apply Hcart. }
  split; [by rewrite !cart_items_Permutation|].
  rewrite !cart_total_amounts. apply py_sum_Permutation. by rewrite Hperm.
Qed.

Lemma other_users_carts_untouched_witness :
  cart_total (act [] [] id Sample.shop (AClear, {| c_from_user := {| user_id := 8; username := None |};
                                                   c_chat_id := 8; c_data := utf8 "cart:clear" |})) 7
  = 450.
Proof.
  pose proof (other_users_carts_untouched [] [] id AClear
                {| c_from_user := {| user_id := 8; username := None |};
                   c_chat_id := 8; c_data := utf8 "cart:clear" |} Sample.shop
                ltac:(discriminate) ltac:(discriminate)) as (_ & _ & Hothers).
  destruct (Hothers 7 ltac:(simpl; lia)) as [_ Htotal].
  etransitivity; [exact Htotal|reflexivity].
Defined.
